(** * Order fulfilment and payment settlement of the Medicare POS backend

    A shallow embedding of the checkout and payment-confirmation handlers
    of [src/routes/invoices.ts] and [src/routes/sales.ts], of
    [src/utils/razorpay.ts] and of the parts of the Mongoose models they
    touch, followed by the properties of the specification stated over
    that embedding.

    Modelling conventions.
    - A JavaScript number that carries money ([price], [total],
      [totalAmount], the gateway [amount]) is the rational [Q] it
      denotes.  The sums and products the handlers compute are rounded
      to binary64 as IEEE 754 prescribes ([Number_add], [Number_mul]);
      infinities, NaN and the sign of zero are not modelled, so a result
      beyond the largest binary64 number is outside the model.
    - Stock counters and quantities are integers [Z].
    - Strings are [string], read as the UTF-8 bytes Node hashes.
    - The database is explicit state: the product collection is a
      [gmap] keyed by [_id], the sale collection is the list of stored
      documents in insertion order, a document's [_id] being its position.
    - Product and customer ids stand for well-formed ObjectIds; the cast
      error Mongoose raises on a malformed id is not modelled.
    - Time stamps ([createdAt], [updatedAt]) and logging are left out.
    - A handler is modelled from the point where [authenticate] has set
      [req.user]; the value of [generateInvoiceId()], the readings of
      [Date.now()] and the behaviour of the gateway are inputs. *)

From Stdlib Require Import ZArith QArith Qround Qabs Qpower Lqa.
From Stdlib Require Import PrimFloat FloatOps String Ascii List Lia.
From stdpp Require Import base option list gmap strings pretty.

Local Open Scope string_scope.
Local Open Scope Z_scope.

(** ** Node's [crypto.createHmac('sha256', key).update(msg).digest('hex')]

    [crypto] is a Node built-in, not code of the repository; it is written
    out here after FIPS 180-4 (SHA-256) and RFC 2104 (HMAC) so that the
    signature check can be run on concrete payloads. *)
Module Crypto.

Definition mask32 : Z := 4294967295.
Definition w32 (x : Z) : Z := Z.land x mask32.
Definition add32 (x y : Z) : Z := w32 (x + y).
Definition not32 (x : Z) : Z := Z.lxor x mask32.
Definition rotr (n x : Z) : Z :=
  Z.lor (Z.shiftr x n) (w32 (Z.shiftl x (32 - n))).

Definition Ch (x y z : Z) : Z := Z.lxor (Z.land x y) (Z.land (not32 x) z).
Definition Maj (x y z : Z) : Z :=
  Z.lxor (Z.lxor (Z.land x y) (Z.land x z)) (Z.land y z).
Definition Sigma0 (x : Z) : Z :=
  Z.lxor (Z.lxor (rotr 2 x) (rotr 13 x)) (rotr 22 x).
Definition Sigma1 (x : Z) : Z :=
  Z.lxor (Z.lxor (rotr 6 x) (rotr 11 x)) (rotr 25 x).
Definition sigma0 (x : Z) : Z :=
  Z.lxor (Z.lxor (rotr 7 x) (rotr 18 x)) (Z.shiftr x 3).
Definition sigma1 (x : Z) : Z :=
  Z.lxor (Z.lxor (rotr 17 x) (rotr 19 x)) (Z.shiftr x 10).

(** The constants of FIPS 180-4, section 4.2.2 and 5.3.3: the first 32
    bits of the fractional parts of the cube roots, respectively square
    roots, of the first primes. *)
Definition is_prime (n : Z) : bool :=
  (2 <=? n)
  && forallb (λ d, negb (n mod d =? 0))
       (map Z.of_nat (seq 2 (Z.to_nat n - 2))).

Definition primes (n : nat) : list Z :=
  firstn n (List.filter is_prime (map Z.of_nat (seq 2 310))).

(** Integer cube root, one bit at a time from bit [k - 1] down. *)
Fixpoint cbrt_bits (k : nat) (n r : Z) : Z :=
  match k with
  | O => r
  | S k' =>
      let c := r + 2 ^ Z.of_nat k' in
      if c * c * c <=? n then cbrt_bits k' n c else cbrt_bits k' n r
  end.

Definition K256 : list Z :=
  map (λ p, w32 (cbrt_bits 40 (p * 2 ^ 96) 0)) (primes 64).

Definition H256 : list Z :=
  map (λ p, w32 (Z.sqrt (p * 2 ^ 64))) (primes 8).

(** Big-endian packing of bytes into 32-bit words and back. *)
Fixpoint words_of_bytes (bs : list Z) : list Z :=
  match bs with
  | b0 :: b1 :: b2 :: b3 :: rest =>
      (Z.shiftl b0 24 + Z.shiftl b1 16 + Z.shiftl b2 8 + b3)
        :: words_of_bytes rest
  | _ => []
  end.

Definition bytes_of_word (w : Z) : list Z :=
  [ Z.land (Z.shiftr w 24) 255; Z.land (Z.shiftr w 16) 255;
    Z.land (Z.shiftr w 8) 255; Z.land w 255 ].

Definition bytes_of_len64 (n : Z) : list Z :=
  bytes_of_word (Z.shiftr n 32) ++ bytes_of_word (w32 n).

(** Padding: a [0x80] byte, zeros up to 56 mod 64, the bit length. *)
Definition pad (msg : list Z) : list Z :=
  let len := Z.of_nat (length msg) in
  let zeros := Z.to_nat ((55 - len) mod 64) in
  msg ++ 128 :: repeat 0 zeros ++ bytes_of_len64 (8 * len).

(** The message schedule, most recent word first. *)
Fixpoint extend (n : nat) (rev_w : list Z) : list Z :=
  match n with
  | O => rev_w
  | S n' =>
      let w := add32 (add32 (sigma1 (nth 1 rev_w 0)) (nth 6 rev_w 0))
                     (add32 (sigma0 (nth 14 rev_w 0)) (nth 15 rev_w 0)) in
      extend n' (w :: rev_w)
  end.

Definition schedule (block : list Z) : list Z :=
  rev (extend 48 (rev block)).

Definition round (st : list Z) (kw : Z * Z) : list Z :=
  match st with
  | [a; b; c; d; e; f; g; h] =>
      let t1 := add32 (add32 (add32 h (Sigma1 e)) (Ch e f g))
                      (add32 (fst kw) (snd kw)) in
      let t2 := add32 (Sigma0 a) (Maj a b c) in
      [add32 t1 t2; a; b; c; add32 d t1; e; f; g]
  | _ => st
  end.

Definition compress (h : list Z) (block : list Z) : list Z :=
  let st := fold_left round (combine K256 (schedule block)) h in
  map (fun p => add32 (fst p) (snd p)) (combine h st).

Fixpoint blocks (fuel : nat) (ws : list Z) : list (list Z) :=
  match fuel, ws with
  | S fuel', _ :: _ => firstn 16 ws :: blocks fuel' (skipn 16 ws)
  | _, _ => []
  end.

Definition sha256 (msg : list Z) : list Z :=
  let ws := words_of_bytes (pad msg) in
  let h := fold_left compress (blocks (length ws) ws) H256 in
  concat (map bytes_of_word h).

(** RFC 2104 with block size 64. *)
Definition hmac_key (key : list Z) : list Z :=
  let k := if (64 <? Z.of_nat (length key)) then sha256 key else key in
  k ++ repeat 0 (64 - length k)%nat.

Definition hmac_sha256 (key msg : list Z) : list Z :=
  let k := hmac_key key in
  let ipad := map (Z.lxor 54) k in
  let opad := map (Z.lxor 92) k in
  sha256 (opad ++ sha256 (ipad ++ msg)).

Definition bytes_of_string (s : string) : list Z :=
  map (fun a => Z.of_nat (nat_of_ascii a)) (list_ascii_of_string s).

Definition hex_digit (n : Z) : ascii :=
  if n <? 10 then ascii_of_nat (Z.to_nat (48 + n))
  else ascii_of_nat (Z.to_nat (87 + n)).

Fixpoint hex (bs : list Z) : string :=
  match bs with
  | [] => EmptyString
  | b :: rest =>
      String (hex_digit (Z.shiftr b 4))
             (String (hex_digit (Z.land b 15)) (hex rest))
  end.

(** [createHmac('sha256', key).update(msg).digest('hex')] *)
Definition createHmac_sha256_hex (key msg : string) : string :=
  hex (hmac_sha256 (bytes_of_string key) (bytes_of_string msg)).

End Crypto.

(** ** Documents: [src/models/product.ts], [src/models/sale.ts] *)

Module IProduct.
Record t := mk {
  name : string;
  category : string;
  price : Q;
  stock : Z }.
Definition set_stock (p : t) (s : Z) : t :=
  mk (name p) (category p) (price p) s.
End IProduct.

(** A line item of [ISale.items], as the request body carries it. *)
Module Item.
Record t := mk {
  productId : string;
  name : string;
  quantity : Z;
  price : Q;
  total : Q }.
End Item.

Inductive OrderStatus := status_pending | status_completed | status_cancelled.
Inductive PaymentStatus := payment_pending | payment_paid | payment_failed.
Inductive PaymentMethod := cash | upi.

Module ISale.
Record t := mk {
  invoiceId : string;
  customerId : option string;
  customerName : string;
  items : list Item.t;
  totalAmount : Q;
  cashierId : string;
  cashierName : string;
  status : OrderStatus;
  paymentStatus : PaymentStatus;
  paymentMethod : PaymentMethod;
  razorpayOrderId : option string;
  razorpayPaymentId : option string;
  razorpaySignature : option string }.

Definition set_paymentStatus (s : t) (v : PaymentStatus) : t :=
  mk (invoiceId s) (customerId s) (customerName s) (items s) (totalAmount s)
     (cashierId s) (cashierName s) (status s) v (paymentMethod s)
     (razorpayOrderId s) (razorpayPaymentId s) (razorpaySignature s).
Definition set_status (s : t) (v : OrderStatus) : t :=
  mk (invoiceId s) (customerId s) (customerName s) (items s) (totalAmount s)
     (cashierId s) (cashierName s) v (paymentStatus s) (paymentMethod s)
     (razorpayOrderId s) (razorpayPaymentId s) (razorpaySignature s).
Definition set_razorpayPaymentId (s : t) (v : option string) : t :=
  mk (invoiceId s) (customerId s) (customerName s) (items s) (totalAmount s)
     (cashierId s) (cashierName s) (status s) (paymentStatus s)
     (paymentMethod s) (razorpayOrderId s) v (razorpaySignature s).
Definition set_razorpaySignature (s : t) (v : option string) : t :=
  mk (invoiceId s) (customerId s) (customerName s) (items s) (totalAmount s)
     (cashierId s) (cashierName s) (status s) (paymentStatus s)
     (paymentMethod s) (razorpayOrderId s) (razorpayPaymentId s) v.
End ISale.

(** ** The payment gateway: [razorpay.orders.create] *)

Module OrderOptions.
Record t := mk {
  amount : Q;
  currency : string;
  receipt : string;
  notes : list (string * string) }.
End OrderOptions.

(** What a call to the gateway can do: resolve to an order with an [id],
    resolve to a falsy value, or reject. *)
Inductive CreateResult :=
| Created (id : string)
| Falsy
| Rejected (msg : string).

(** [ENV] of [config/env], as far as these routes read it. *)
Module Env.
Record t := mk {
  RAZORPAY_KEY_ID : string;
  RAZORPAY_KEY_SECRET : string }.
End Env.

(** ** Responses: [src/utils/error.ts] and what the routes send *)

Record AppError := mkAppError {
  message : string;
  statusCode : Z;
  details : option string }.

Inductive Body :=
| body_message (m : string)
| body_cash_invoice (invoice : ISale.t)
| body_upi_invoice (invoice : ISale.t) (razorpayOrderId razorpayKey : string)
                   (amount : Z)
| body_payment_verified (invoice : ISale.t)
| body_sale (sale : ISale.t) (razorpayKey razorpayOrderId : string).

Inductive Response :=
| res_json (status : Z) (b : Body)
| next (err : AppError).

(** [errorHandler] of the error middleware answers an [AppError] with its
    own [statusCode]; a direct [res.status(s).json] keeps [s]. *)
Definition http_status (r : Response) : Z :=
  match r with
  | res_json s _ => s
  | next err => statusCode err
  end.

(** ** The store and the effects of a request handler *)

Record World := mkWorld {
  Product : gmap string IProduct.t;
  Customer : gset string;
  Sale : list ISale.t;
  razorpay_calls : list OrderOptions.t }.

Definition with_Product (f : gmap string IProduct.t → gmap string IProduct.t)
    (w : World) : World :=
  mkWorld (f (Product w)) (Customer w) (Sale w) (razorpay_calls w).
Definition with_Sale (f : list ISale.t → list ISale.t) (w : World) : World :=
  mkWorld (Product w) (Customer w) (f (Sale w)) (razorpay_calls w).
Definition with_razorpay_calls
    (f : list OrderOptions.t → list OrderOptions.t) (w : World) : World :=
  mkWorld (Product w) (Customer w) (Sale w) (f (razorpay_calls w)).

(** A handler either goes on with a value, has sent its response
    ([return res...json(..)], [return next(err)]), or has thrown to the
    enclosing [catch].  The store is threaded through all three: what was
    written before a [return] or a [throw] stays written. *)
Inductive Outcome (A : Type) : Type :=
| Value (a : A)
| Sent (r : Response)
| Threw (e : string).
Arguments Value {A} a.
Arguments Sent {A} r.
Arguments Threw {A} e.

Definition Async (A : Type) : Type := World → World * Outcome A.

Global Instance Async_ret : MRet Async := λ A a w, (w, Value a).
Global Instance Async_bind : MBind Async := λ A B k m w,
  match m w with
  | (w', Value a) => k a w'
  | (w', Sent r) => (w', Sent r)
  | (w', Threw e) => (w', Threw e)
  end.

Definition reply {A} (r : Response) : Async A := λ w, (w, Sent r).
Definition throw {A} (e : string) : Async A := λ w, (w, Threw e).

(** [try { body } catch (error) { handler }] *)
Definition try_catch {A} (body : Async A) (handler : string → Async A)
    : Async A := λ w,
  match body w with
  | (w', Threw e) => handler e w'
  | r => r
  end.

(** [for (const x of l) { f x }] *)
Fixpoint for_of {A} (l : list A) (f : A → Async unit) : Async unit :=
  match l with
  | [] => mret tt
  | x :: l' => f x ;; for_of l' f
  end.

(** *** Mongoose calls *)

Definition Product_findById (id : string) : Async (option IProduct.t) :=
  λ w, (w, Value (Product w !! id)).

(** [product.save()] writes the in-memory document back under its [_id]. *)
Definition product_save (id : string) (doc : IProduct.t) : Async unit :=
  λ w, (with_Product (<[id := doc]>) w, Value tt).

Definition Customer_findById (id : string) : Async bool :=
  λ w, (w, Value (bool_decide (id ∈ Customer w))).

Definition Sale_findOne (invoiceId : string)
    : Async (option (nat * ISale.t)) :=
  λ w, (w, Value (list_find (λ s, ISale.invoiceId s = invoiceId) (Sale w))).

(** Saving a new document.  [saleSchema] declares
    [invoiceId: { unique: true }]: the store rejects the insert with a
    duplicate-key error when a document with that [invoiceId] exists.
    The message of that error is the database's; only its leading words
    are kept here, and no statement below depends on them. *)
Definition sale_insert (doc : ISale.t) : Async unit := λ w,
  match list_find (λ s, ISale.invoiceId s = ISale.invoiceId doc) (Sale w) with
  | Some _ => (w, Threw "E11000 duplicate key error")
  | None => (with_Sale (λ l, (l ++ [doc])%list) w, Value tt)
  end.

(** Saving a document that was loaded from position [i]. *)
Definition sale_save (i : nat) (doc : ISale.t) : Async unit :=
  λ w, (with_Sale (<[i := doc]>) w, Value tt).

(** *** JavaScript's numbers

    A number is an IEEE 754 binary64 value, and [a + b] and [a * b] are
    the exact result rounded to the nearest binary64 number, ties to the
    even significand.  [binary64 q] is that rounding of the rational
    [q]: 53 significant bits, the last place no finer than 2^-1074. *)

(** The position of the leading bit of [q]: [2 ^ ilog2 q <= |q|] and
    [|q| < 2 ^ (ilog2 q + 1)], for [q] other than zero. *)
Definition ilog2 (q : Q) : Z :=
  let k := Z.log2 (Z.abs (Qnum q)) - Z.log2 (Z.pos (Qden q)) in
  if Qle_bool (2 ^ k) (Qabs q) then k else k - 1.

(** The exponent of the last place of the binary64 numbers around [q]. *)
Definition last_place (q : Q) : Z := Z.max (ilog2 q - 52) (-1074).

Definition round_ties_even (q : Q) : Z :=
  let f := Qfloor q in
  match (q - inject_Z f ?= 1 # 2)%Q with
  | Lt => f
  | Gt => f + 1
  | Eq => if Z.even f then f else f + 1
  end.

Definition binary64 (q : Q) : Q :=
  if Qeq_bool q 0 then 0%Q
  else
    let e := last_place q in
    let m := round_ties_even (Qabs q / 2 ^ e) in
    Qred ((if Qle_bool 0 q then inject_Z m else inject_Z (- m)) * 2 ^ e).

Definition Number_add (a b : Q) : Q := binary64 (a + b).
Definition Number_mul (a b : Q) : Q := binary64 (a * b).

(** [Number.MAX_VALUE] *)
Definition Number_MAX_VALUE : Q := inject_Z (2 ^ 53 - 1) * 2 ^ 971.

(** The rational a binary64 number of the kernel denotes, to compare the
    rounding above with the hardware's. *)
Definition Q_of_float (x : float) : option Q :=
  match Prim2SF x with
  | SpecFloat.S754_zero _ => Some 0%Q
  | SpecFloat.S754_finite s m e =>
      Some (Qred (inject_Z (if s then Z.neg m else Z.pos m) * 2 ^ e))
  | _ => None
  end.

(** *** JavaScript's [Math] *)

Definition Math_round (x : Q) : Z := Qfloor (x + (1 # 2))%Q.
Definition Math_max (a b : Z) : Z := Z.max a b.

(** ** Request bodies

    A body is [req.body] as the handler reads it: the numbers in it are
    the binary64 numbers [JSON.parse] gave, an absent field is [None]. *)

(** [req.user], set by the [authenticate] middleware. *)
Record User := mkUser { id : string; username : string }.

Module InvoiceBody.
Record t := mk {
  customerId : option string;
  customerName : option string;
  items : list Item.t;
  totalAmount : Q;
  paymentMethod : option PaymentMethod }.
End InvoiceBody.

Module VerifyBody.
Record t := mk {
  razorpay_order_id : string;
  razorpay_payment_id : string;
  razorpay_signature : string;
  invoiceId : string }.
End VerifyBody.

Module SaleBody.
Record t := mk {
  items : list Item.t;
  customerId : option string;
  customerName : option string;
  cashierId : string;
  cashierName : string }.
End SaleBody.

(** [x || d] and the truthiness test [if (x)] on an optional string: the
    empty string is falsy like [undefined]. *)
Definition truthy (x : option string) : option string :=
  match x with
  | Some s => if String.eqb s "" then None else Some s
  | None => None
  end.
Definition or_default (x : option string) (d : string) : string :=
  default d (truthy x).

(** The express-validator chains of [POST /api/invoices] and of
    [POST /api/invoices/verify-payment].  A body is the request body as
    the handler reads it, after the sanitizers of the chain ([trim],
    [escape]) have rewritten the names in it. *)

(** [isMongoId] of the validator: 24 hexadecimal digits. *)
Definition is_hex_char (c : ascii) : bool :=
  let n := Z.of_nat (nat_of_ascii c) in
  ((48 <=? n) && (n <=? 57)) || ((65 <=? n) && (n <=? 70))
  || ((97 <=? n) && (n <=? 102)).
Definition isMongoId (s : string) : bool :=
  (String.length s =? 24)%nat
  && forallb is_hex_char (list_ascii_of_string s).

Definition item_valid (item : Item.t) : bool :=
  negb (String.eqb (Item.productId item) "")
  && negb (String.eqb (Item.name item) "")
  && (1 <=? Item.quantity item)
  && Qle_bool 0 (Item.price item)
  && Qle_bool 0 (Item.total item).

Definition invoice_body_valid (body : InvoiceBody.t) : bool :=
  from_option isMongoId true (InvoiceBody.customerId body)
  && (1 <=? Z.of_nat (length (InvoiceBody.items body)))
  && forallb item_valid (InvoiceBody.items body)
  && Qle_bool 0 (InvoiceBody.totalAmount body).

Definition verify_body_valid (body : VerifyBody.t) : bool :=
  negb (String.eqb (VerifyBody.razorpay_order_id body) "")
  && negb (String.eqb (VerifyBody.razorpay_payment_id body) "")
  && negb (String.eqb (VerifyBody.razorpay_signature body) "")
  && negb (String.eqb (VerifyBody.invoiceId body) "").

Section Routes.

Variable ENV : Env.t.
(** The behaviour of the external processor on a create request. *)
Variable razorpay : OrderOptions.t → CreateResult.

Definition razorpay_orders_create (options : OrderOptions.t)
    : Async (option string) := λ w,
  let w' := with_razorpay_calls (λ l, (l ++ [options])%list) w in
  match razorpay options with
  | Created id => (w', Value (Some id))
  | Falsy => (w', Value None)
  | Rejected msg => (w', Threw msg)
  end.

(** *** [src/utils/razorpay.ts] *)

Definition verifyPaymentSignature (orderId paymentId signature : string)
    : bool :=
  let generatedSignature :=
    Crypto.createHmac_sha256_hex (Env.RAZORPAY_KEY_SECRET ENV)
      (orderId +:+ "|" +:+ paymentId) in
  String.eqb generatedSignature signature.

(** *** [src/routes/invoices.ts], [POST /] *)

(** The body of the stock loop, lines 164-179. *)
Definition invoices_reserve_item (item : Item.t) : Async unit :=
  product ← Product_findById (Item.productId item);
  match product with
  | None =>
      reply (next (mkAppError
        ("Product " +:+ Item.name item +:+ " not found") 404 None))
  | Some product =>
      if IProduct.stock product <? Item.quantity item then
        reply (next (mkAppError
          ("Insufficient stock for " +:+ Item.name item) 400 None))
      else
        product_save (Item.productId item)
          (IProduct.set_stock product
             (IProduct.stock product - Item.quantity item))
  end.

(** [invoiceId] is the value [generateInvoiceId()] returns in this
    request. *)
Definition invoices_post (user : User) (body : InvoiceBody.t)
    (invoiceId : string) : Async unit :=
  let customerId := truthy (InvoiceBody.customerId body) in
  let customerName := or_default (InvoiceBody.customerName body) "" in
  let items := InvoiceBody.items body in
  let totalAmount := InvoiceBody.totalAmount body in
  if negb (invoice_body_valid body) then
    reply (next (mkAppError "Validation errors" 400 None))
  else
  try_catch
    (match customerId with
     | Some cid =>
         customer ← Customer_findById cid;
         if customer : bool then mret tt
         else reply (next (mkAppError "Customer not found" 404 None))
     | None => mret tt
     end;;
     for_of items invoices_reserve_item;;
     match InvoiceBody.paymentMethod body with
     | Some cash =>
         let invoice :=
           ISale.mk invoiceId customerId customerName items totalAmount
             (id user) (username user) status_completed payment_paid cash
             None None None in
         sale_insert invoice;;
         reply (res_json 201 (body_cash_invoice invoice))
     | _ =>
         let orderAmountPaise :=
           Math_max (Math_round (Number_mul totalAmount 100)) 100 in
         razorpayOrder ← razorpay_orders_create
           (OrderOptions.mk (inject_Z orderAmountPaise) "INR" invoiceId
              [("customerId", default "guest" customerId);
               ("invoiceId", invoiceId)]);
         match razorpayOrder with
         | None =>
             reply (next
               (mkAppError "Failed to create Razorpay order" 500 None))
         | Some razorpayOrder_id =>
             let invoice :=
               ISale.mk invoiceId customerId customerName items totalAmount
                 (id user) (username user) status_pending payment_pending
                 upi (Some razorpayOrder_id) None None in
             sale_insert invoice;;
             reply (res_json 201
               (body_upi_invoice invoice razorpayOrder_id
                  (Env.RAZORPAY_KEY_ID ENV) orderAmountPaise))
         end
     end)
    (λ error, reply (next (mkAppError "Server error" 500 (Some error)))).

(** *** [src/routes/invoices.ts], [POST /verify-payment] *)

Definition invoices_verify_payment (body : VerifyBody.t) : Async unit :=
  let razorpay_order_id := VerifyBody.razorpay_order_id body in
  let razorpay_payment_id := VerifyBody.razorpay_payment_id body in
  let razorpay_signature := VerifyBody.razorpay_signature body in
  if negb (verify_body_valid body) then
    reply (next (mkAppError "Validation errors" 400 None))
  else
  try_catch
    (found ← Sale_findOne (VerifyBody.invoiceId body);
     match found with
     | None => reply (next (mkAppError "Invoice not found" 404 None))
     | Some (i, invoice) =>
         let isValid :=
           verifyPaymentSignature razorpay_order_id razorpay_payment_id
             razorpay_signature in
         if negb isValid then
           let invoice := ISale.set_paymentStatus invoice payment_failed in
           sale_save i invoice;;
           reply (next (mkAppError "Invalid payment signature" 400 None))
         else
           let invoice := ISale.set_paymentStatus invoice payment_paid in
           let invoice :=
             ISale.set_razorpayPaymentId invoice (Some razorpay_payment_id) in
           let invoice :=
             ISale.set_razorpaySignature invoice (Some razorpay_signature) in
           let invoice := ISale.set_status invoice status_completed in
           sale_save i invoice;;
           reply (res_json 200 (body_payment_verified invoice))
     end)
    (λ error, reply (next (mkAppError "Server error" 500 (Some error)))).

(** *** [src/routes/sales.ts], [POST /] *)

(** The body of the stock loop, lines 112-122. *)
Definition sales_reserve_item (item : Item.t) : Async unit :=
  product ← Product_findById (Item.productId item);
  match product with
  | None =>
      reply (res_json 404 (body_message
        ("Product " +:+ Item.productId item +:+ " not found")))
  | Some product =>
      if IProduct.stock product <? Item.quantity item then
        reply (res_json 400 (body_message
          ("Insufficient stock for " +:+ IProduct.name product)))
      else
        product_save (Item.productId item)
          (IProduct.set_stock product
             (IProduct.stock product - Item.quantity item))
  end.

(** [items.reduce((sum, item) => sum + item.total, 0)] *)
Definition reduce_total (items : list Item.t) : Q :=
  fold_left (λ sum item, Number_add sum (Item.total item)) items 0%Q.

(** [now_receipt] and [now_invoice] are the values of the two
    [Date.now()] calls. *)
Definition sales_post (body : SaleBody.t) (now_receipt now_invoice : Z)
    : Async unit :=
  let items := SaleBody.items body in
  try_catch
    (for_of items sales_reserve_item;;
     let totalAmount := reduce_total items in
     order ← razorpay_orders_create
       (OrderOptions.mk (Number_mul totalAmount 100) "INR"
          ("receipt_" +:+ pretty now_receipt) []);
     match order with
     | None => throw "Cannot read properties of null (reading 'id')"
     | Some order_id =>
         let saleData :=
           ISale.mk ("INV-" +:+ pretty now_invoice)
             (truthy (SaleBody.customerId body))
             (or_default (SaleBody.customerName body) "Walk-in Customer")
             items totalAmount
             (SaleBody.cashierId body) (SaleBody.cashierName body)
             status_pending payment_pending upi (Some order_id) None None in
         sale_insert saleData;;
         reply (res_json 201
           (body_sale saleData (Env.RAZORPAY_KEY_ID ENV) order_id))
     end)
    (λ error, reply (res_json 500 (body_message "Server error"))).

End Routes.

(** ** Requests in flight

    Node runs one handler at a time and hands over to another request
    only at an [await].  In the stock loop of [POST /api/invoices] these
    are [await Product.findById(..)] and [await product.save()]; the
    stock test and the decrement of the loaded document run in between
    without interruption, and [save] writes the stock of the loaded
    document.  The loop of [POST /api/sales] has the same two awaits.  A
    [Task] is a request inside that loop, stopped at one of its two
    awaits, or through with the loop. *)
Inductive Task :=
| at_findById (items : list Item.t)
| at_save (id : string) (product : IProduct.t) (rest : list Item.t)
| reserved
| rejected (r : Response).

Definition task_step (t : Task) (db : gmap string IProduct.t)
    : gmap string IProduct.t * Task :=
  match t with
  | at_findById [] => (db, reserved)
  | at_findById (item :: rest) =>
      match db !! Item.productId item with
      | None =>
          (db, rejected (next (mkAppError
             ("Product " +:+ Item.name item +:+ " not found") 404 None)))
      | Some product =>
          if IProduct.stock product <? Item.quantity item then
            (db, rejected (next (mkAppError
               ("Insufficient stock for " +:+ Item.name item) 400 None)))
          else
            (db, at_save (Item.productId item)
                   (IProduct.set_stock product
                      (IProduct.stock product - Item.quantity item)) rest)
      end
  | at_save id product rest => (<[id := product]> db, at_findById rest)
  | reserved => (db, reserved)
  | rejected r => (db, rejected r)
  end.

Definition finished (t : Task) : bool :=
  match t with
  | reserved | rejected _ => true
  | _ => false
  end.

(** The product collection and the requests in flight; a schedule names
    the request that runs up to its next await. *)
Record Sys := mkSys {
  products : gmap string IProduct.t;
  tasks : list Task }.

Definition sys_step (s : Sys) (i : nat) : Sys :=
  match tasks s !! i with
  | Some t =>
      let '(db, t') := task_step t (products s) in
      mkSys db (<[i := t']> (tasks s))
  | None => s
  end.

Definition run (schedule : list nat) (s : Sys) : Sys :=
  fold_left sys_step schedule s.

(** One request on its own, for [n] steps. *)
Fixpoint task_run (n : nat) (t : Task) (db : gmap string IProduct.t)
    : gmap string IProduct.t * Task :=
  match n with
  | O => (db, t)
  | S n' => let '(db', t') := task_step t db in task_run n' t' db'
  end.

Definition task_of_outcome (out : Outcome unit) : Task :=
  match out with
  | Value _ => reserved
  | Sent r => rejected r
  | Threw e => rejected (next (mkAppError e 500 None))
  end.

(** Every state some schedule of at most [n] steps over two requests
    leads to. *)
Fixpoint explore (n : nat) (s : Sys) : list Sys :=
  match n with
  | O => [s]
  | S n' => s :: explore n' (sys_step s 0%nat) ++ explore n' (sys_step s 1%nat)
  end.

(** Where a request stands in the loop: about to read the stock of its
    next item, between the test it passed and its save, or with all it
    asked for saved. *)
Definition reading (t : Task) : bool :=
  match t with
  | at_findById (_ :: _) => true
  | _ => false
  end.
Definition holding (t : Task) : bool :=
  match t with
  | at_save _ _ _ => true
  | _ => false
  end.
Definition through (t : Task) : bool :=
  match t with
  | at_findById [] | reserved => true
  | _ => false
  end.

(** One request has saved while another has yet to read. *)
Definition one_after_other (s : Sys) : bool :=
  existsb through (tasks s) && existsb reading (tasks s).
(** Every request has read and passed the test, and none has saved. *)
Definition all_holding (s : Sys) : bool := forallb holding (tasks s).

(** Whether the run of [schedule] from [s] comes through a state with
    [P]. *)
Fixpoint visits (P : Sys → bool) (schedule : list nat) (s : Sys) : bool :=
  P s
  || match schedule with
     | [] => false
     | i :: rest => visits P rest (sys_step s i)
     end.

(** A state together with what the run has come through so far. *)
Definition obs_step (x : Sys * (bool * bool)) (i : nat)
    : Sys * (bool * bool) :=
  let s' := sys_step x.1 i in
  (s', (x.2.1 || one_after_other s', x.2.2 || all_holding s')).

Fixpoint explore_obs (n : nat) (x : Sys * (bool * bool))
    : list (Sys * (bool * bool)) :=
  match n with
  | O => [x]
  | S n' =>
      x :: explore_obs n' (obs_step x 0%nat)
        ++ explore_obs n' (obs_step x 1%nat)
  end.

(** ** Vocabulary of the statements *)

Definition stock_of (db : gmap string IProduct.t) (id : string) : option Z :=
  IProduct.stock <$> db !! id.

(** The quantity a list of line items asks of product [id]. *)
Fixpoint requested (id : string) (items : list Item.t) : Z :=
  match items with
  | [] => 0
  | item :: rest =>
      (if String.eqb (Item.productId item) id then Item.quantity item else 0)
      + requested id rest
  end.

(** Every product's stock went down by what [items] ask of it. *)
Definition decremented (items : list Item.t)
    (db db' : gmap string IProduct.t) : Prop :=
  ∀ id, stock_of db' id = (λ s, s - requested id items) <$> stock_of db id.

(** [r] refuses [item] for the reason [db] gives: 404 when its product is
    missing, 400 when the product has too little stock. *)
Definition refusal (db : gmap string IProduct.t) (item : Item.t)
    (r : Response) : Prop :=
  match db !! Item.productId item with
  | None => http_status r = 404
  | Some product =>
      IProduct.stock product < Item.quantity item ∧ http_status r = 400
  end.

(** What the body of a stock loop does for one item: answer the request
    and leave the store alone when the product is missing or short, write
    the decremented product back otherwise. *)
Definition reserve_body (f : Item.t → Async unit) : Prop :=
  ∀ item w,
    match Product w !! Item.productId item with
    | None => ∃ r, f item w = (w, Sent r) ∧ http_status r = 404
    | Some product =>
        if IProduct.stock product <? Item.quantity item then
          ∃ r, f item w = (w, Sent r) ∧ http_status r = 400
        else
          f item w =
            (with_Product
               (<[Item.productId item :=
                    IProduct.set_stock product
                      (IProduct.stock product - Item.quantity item)]>) w,
             Value tt)
    end.

(** The customer a checkout names, if it names one, is in the store. *)
Definition customer_known (customerId : option string) (w : World) : Prop :=
  match truthy customerId with
  | Some cid => cid ∈ Customer w
  | None => True
  end.

(** The sum of the line totals, as the specification writes it. *)
Fixpoint sum_lineTotal (items : list Item.t) : Q :=
  match items with
  | [] => 0
  | item :: rest => Item.total item + sum_lineTotal rest
  end.

(** A run of confirmation requests against [POST /verify-payment]. *)
Definition confirmations (ENV : Env.t) (bodies : list VerifyBody.t)
    (w : World) : World :=
  fold_left (λ w body, fst (invoices_verify_payment ENV body w)) bodies w.

(** *** Decidable equality of documents and states *)

Global Instance Q_eq_dec : EqDecision Q.
Proof. solve_decision. Defined.
Global Instance IProduct_eq_dec : EqDecision IProduct.t.
Proof. solve_decision. Defined.
Global Instance Item_eq_dec : EqDecision Item.t.
Proof. solve_decision. Defined.
Global Instance OrderStatus_eq_dec : EqDecision OrderStatus.
Proof. solve_decision. Defined.
Global Instance PaymentStatus_eq_dec : EqDecision PaymentStatus.
Proof. solve_decision. Defined.
Global Instance PaymentMethod_eq_dec : EqDecision PaymentMethod.
Proof. solve_decision. Defined.
Global Instance ISale_eq_dec : EqDecision ISale.t.
Proof. solve_decision. Defined.
Global Instance AppError_eq_dec : EqDecision AppError.
Proof. solve_decision. Defined.
Global Instance Body_eq_dec : EqDecision Body.
Proof. solve_decision. Defined.
Global Instance Response_eq_dec : EqDecision Response.
Proof. solve_decision. Defined.
Global Instance Task_eq_dec : EqDecision Task.
Proof. solve_decision. Defined.
Global Instance Sys_eq_dec : EqDecision Sys.
Proof. solve_decision. Defined.

(** ** Further routes and middleware

    The routes below answer with bodies the routes above do not have, so
    they carry their own answer type.  None of their calls can throw in
    this model except the gateway call of [/create-order], so their
    [catch] blocks show only there. *)

Inductive Payload :=
| payload_message (m : string)
| payload_sale (sale : ISale.t)
| payload_order (id : string)
| payload_status_success.

Inductive Answer :=
| answer_json (status : Z) (b : Payload)
| answer_next (err : AppError).

Definition answer_status (a : Answer) : Z :=
  match a with
  | answer_json s _ => s
  | answer_next err => statusCode err
  end.

(** *** [src/routes/sales.ts], [POST /verify-payment] *)

(** The three fields the handler reads off the body, taken as strings. *)
Module PaymentBody.
Record t := mk {
  razorpay_order_id : string;
  razorpay_payment_id : string;
  razorpay_signature : string }.
End PaymentBody.

(** [Sale.findOneAndUpdate(filter, update, { new: true })]: the first
    document that passes [filter] is updated and returned. *)
Definition Sale_findOneAndUpdate (filter : ISale.t → Prop)
    `{!∀ s, Decision (filter s)} (update : ISale.t → ISale.t) (w : World)
    : World * option ISale.t :=
  match list_find filter (Sale w) with
  | Some (i, sale) => (with_Sale (<[i := update sale]>) w, Some (update sale))
  | None => (w, None)
  end.

Definition sales_verify_payment (ENV : Env.t) (req_body : PaymentBody.t)
    (w : World) : World * Answer :=
  let razorpay_order_id := PaymentBody.razorpay_order_id req_body in
  let razorpay_payment_id := PaymentBody.razorpay_payment_id req_body in
  let razorpay_signature := PaymentBody.razorpay_signature req_body in
  let body := razorpay_order_id +:+ "|" +:+ razorpay_payment_id in
  let expectedSignature :=
    Crypto.createHmac_sha256_hex (Env.RAZORPAY_KEY_SECRET ENV) body in
  if String.eqb expectedSignature razorpay_signature then
    match
      Sale_findOneAndUpdate
        (λ s, ISale.razorpayOrderId s = Some razorpay_order_id)
        (λ s, ISale.mk (ISale.invoiceId s) (ISale.customerId s)
                (ISale.customerName s) (ISale.items s) (ISale.totalAmount s)
                (ISale.cashierId s) (ISale.cashierName s)
                status_completed payment_paid (ISale.paymentMethod s)
                (ISale.razorpayOrderId s)
                (Some razorpay_payment_id) (Some razorpay_signature))
        w
    with
    | (w', None) => (w', answer_json 404 (payload_message "Sale not found"))
    | (w', Some sale) => (w', answer_json 200 (payload_sale sale))
    end
  else (w, answer_json 400 (payload_message "Invalid signature")).

(** *** The gateway routes ([routes/razorpay], mounted at [/razorpay]) *)

(** The options [POST /create-order] hands to the gateway. *)
Module CaptureOptions.
Record t := mk {
  amount : Z;
  currency : string;
  receipt : string;
  payment_capture : Z }.
End CaptureOptions.

Module CreateOrderBody.
Record t := mk {
  amount : option Q;
  currency : option string;
  receipt : option string }.
End CreateOrderBody.

(** [!amount] on an optional number: a missing amount and zero are both
    falsy. *)
Definition truthy_number (x : option Q) : option Q :=
  match x with
  | Some q => if Qeq_bool q 0 then None else Some q
  | None => None
  end.

(** The handler touches no collection; what it does besides answering is
    the list of calls it makes to the gateway.  A falsy order is taken to
    be [null]: reading [order.id] for the log line then throws, and the
    [catch] block answers with the message of that [TypeError] in V8's
    wording. *)
Definition razorpay_create_order
    (razorpayInstance : CaptureOptions.t → CreateResult)
    (req_body : CreateOrderBody.t) : list CaptureOptions.t * Answer :=
  let currency := default "INR" (CreateOrderBody.currency req_body) in
  match truthy_number (CreateOrderBody.amount req_body),
        truthy (CreateOrderBody.receipt req_body) with
  | Some amount, Some receipt =>
      let options :=
        CaptureOptions.mk (Math_round (Number_mul amount 100)) currency
          receipt 1 in
      match razorpayInstance options with
      | Created id => ([options], answer_json 200 (payload_order id))
      | Falsy =>
          ([options],
           answer_next (mkAppError "Failed to create order" 500
             (Some "Cannot read properties of null (reading 'id')")))
      | Rejected msg =>
          ([options],
           answer_next (mkAppError "Failed to create order" 500 (Some msg)))
      end
  | _, _ =>
      ([], answer_next (mkAppError "Amount and receipt are required" 400 None))
  end.

Module OptionalPaymentBody.
Record t := mk {
  razorpay_order_id : option string;
  razorpay_payment_id : option string;
  razorpay_signature : option string }.
End OptionalPaymentBody.

Definition razorpay_verify_payment (ENV : Env.t)
    (req_body : OptionalPaymentBody.t) : Answer :=
  match truthy (OptionalPaymentBody.razorpay_order_id req_body),
        truthy (OptionalPaymentBody.razorpay_payment_id req_body),
        truthy (OptionalPaymentBody.razorpay_signature req_body) with
  | Some razorpay_order_id, Some razorpay_payment_id, Some razorpay_signature =>
      let generated_signature :=
        Crypto.createHmac_sha256_hex (Env.RAZORPAY_KEY_SECRET ENV)
          (razorpay_order_id +:+ "|" +:+ razorpay_payment_id) in
      if String.eqb generated_signature razorpay_signature then
        answer_json 200 payload_status_success
      else answer_next (mkAppError "Invalid payment signature" 400 None)
  | _, _, _ => answer_next (mkAppError "Missing required fields" 400 None)
  end.

(** *** [src/middleware/auth.ts] *)

(** The payload of a token, which [authenticate] puts in [req.user]. *)
Module Decoded.
Record t := mk {
  id : string;
  username : string;
  role : string }.
End Decoded.

(** [s.split(" ")] *)
Fixpoint split_space (s : string) : list string :=
  match s with
  | EmptyString => [EmptyString]
  | String c rest =>
      if Ascii.eqb c " " then EmptyString :: split_space rest
      else
        match split_space rest with
        | head :: tail => String c head :: tail
        | [] => [String c EmptyString]
        end
  end.

(** What a middleware does with a request: hand it on, with [req.user]
    as it then is, or hand an error to the error handler. *)
Inductive Passage :=
| handed_on (user : option Decoded.t)
| refused (err : AppError).

Section Auth.

(** [jwt.verify(token, ENV.JWT_SECRET)]: the payload of the token, or
    nothing when the library throws. *)
Variable jwt_verify : string → option Decoded.t.

Definition authenticate (authorization : option string) : Passage :=
  let token :=
    truthy (authorization ≫= λ header, split_space header !! 1%nat) in
  match token with
  | None => refused (mkAppError "No token provided" 401 None)
  | Some token =>
      match jwt_verify token with
      | Some decoded => handed_on (Some decoded)
      | None => refused (mkAppError "Invalid token" 401 None)
      end
  end.

End Auth.

Definition restrictToAdmin (user : option Decoded.t) : Passage :=
  match user with
  | Some u =>
      if negb (String.eqb (Decoded.role u) "admin") then
        refused (mkAppError "Access denied. Admin role required." 403 None)
      else handed_on user
  | None => refused (mkAppError "Access denied. Admin role required." 403 None)
  end.

(** *** [sanitizeBasePath] of the server bootstrap *)

Definition to_lower (c : ascii) : ascii :=
  let n := nat_of_ascii c in
  if ((65 <=? n) && (n <=? 90))%nat then ascii_of_nat (n + 32) else c.

Fixpoint lower (s : string) : string :=
  match s with
  | EmptyString => EmptyString
  | String c rest => String (to_lower c) (lower rest)
  end.

(** [/^https?:\/\//i.test(value)] *)
Definition is_http_url (value : string) : bool :=
  String.prefix "http://" (lower value)
  || String.prefix "https://" (lower value).

(** [s.replace(/\/+$/, "")]: the string without its trailing slashes. *)
Fixpoint strip_trailing_slashes (s : string) : string :=
  match s with
  | EmptyString => EmptyString
  | String c rest =>
      match strip_trailing_slashes rest with
      | EmptyString => if Ascii.eqb c "/" then EmptyString
                       else String c EmptyString
      | rest' => String c rest'
      end
  end.

Section Bootstrap.

(** [new URL(value).pathname], or nothing when the constructor throws. *)
Variable URL_pathname : string → option string.

Definition normalize_path (value : string) : string :=
  let padded := if String.prefix "/" value then value else "/" +:+ value in
  strip_trailing_slashes padded.

Definition sanitizeBasePath (value : option string) : string :=
  match truthy value with
  | None => ""
  | Some value =>
      if is_http_url value then
        match URL_pathname value with
        | Some pathname =>
            if String.eqb pathname "/" then ""
            else strip_trailing_slashes pathname
        | None => normalize_path value
        end
      else normalize_path value
  end.

End Bootstrap.

(** ** Vocabulary of the further statements *)

(** Every product of [db] is in [db'] as it was but for its stock, which
    went down by what [items] ask of it; [db'] has no other product. *)
Definition reserved_for (items : list Item.t)
    (db db' : gmap string IProduct.t) : Prop :=
  ∀ id,
    db' !! id
    = (λ p, IProduct.set_stock p (IProduct.stock p - requested id items))
        <$> db !! id.

Definition stock_nonnegative (db : gmap string IProduct.t) : Prop :=
  ∀ id product, db !! id = Some product → 0 ≤ IProduct.stock product.

(** The characters of a lower-case hexadecimal digest. *)
Definition is_hex_digit (c : ascii) : bool :=
  let n := nat_of_ascii c in
  ((48 <=? n) && (n <=? 57) || (97 <=? n) && (n <=? 102))%nat.

(** [s] ends with a slash. *)
Fixpoint ends_with_slash (s : string) : bool :=
  match s with
  | EmptyString => false
  | String c EmptyString => Ascii.eqb c "/"
  | String _ rest => ends_with_slash rest
  end.

(** No character of [s] is a space. *)
Fixpoint no_space (s : string) : bool :=
  match s with
  | EmptyString => true
  | String c rest => negb (Ascii.eqb c " ") && no_space rest
  end.

(** The product of [amount] by 100 is within the range of binary64, so
    that JavaScript does not give [Infinity] for it. *)
Definition finite_paise (amount : Q) : Prop :=
  (Qabs (amount * 100) <= Number_MAX_VALUE)%Q.

(** A line total that is a whole number, and not negative. *)
Definition whole_total (item : Item.t) : Prop :=
  (0 <= Item.total item
   ∧ Item.total item == inject_Z (Qfloor (Item.total item)))%Q.

(** ** Concrete stores and requests *)

Definition ENV0 : Env.t := Env.mk "rzp_test_key" "topsecret".
Definition cashier0 : User := mkUser "u1" "asha".
Definition gateway_up (o : OrderOptions.t) : CreateResult :=
  Created "order_1".

Definition aspirin : IProduct.t := IProduct.mk "Aspirin" "Tablets" 10 5.
Definition bandage : IProduct.t := IProduct.mk "Bandage" "Dressing" 2 4.

(** Five units of ["p1"], four of ["p2"], no order yet. *)
Definition store0 : World :=
  mkWorld {[ "p1" := aspirin; "p2" := bandage ]} ∅ [] [].

Definition line (productId name : string) (quantity : Z) (price : Q)
    : Item.t :=
  Item.mk productId name quantity price (price * inject_Z quantity).

(** Two units of aspirin, then nine bandages where four are left. *)
Definition cart_short : list Item.t :=
  [line "p1" "Aspirin" 2 10; line "p2" "Bandage" 9 2].
(** Two units of aspirin and one bandage. *)
Definition cart_ok : list Item.t :=
  [line "p1" "Aspirin" 2 10; line "p2" "Bandage" 1 2].

(** A settled cash order and a pending electronic one, opened at the
    gateway as ["order_1"]. *)
Definition paid_order : ISale.t :=
  ISale.mk "INV-7" None "" cart_ok 22 "u1" "asha"
    status_completed payment_paid cash None None None.
Definition pending_order : ISale.t :=
  ISale.mk "INV-8" None "" cart_ok 22 "u1" "asha"
    status_pending payment_pending upi (Some "order_1") None None.
Definition store1 : World :=
  mkWorld {[ "p1" := aspirin; "p2" := bandage ]} ∅
    [paid_order; pending_order] [].

(** One aspirin at 0.1 and one bandage at 0.2, the prices and totals
    being the binary64 numbers [JSON.parse] reads from these decimals. *)
Definition cart_dimes : list Item.t :=
  [Item.mk "p1" "Aspirin" 1 (binary64 0.1) (binary64 0.1);
   Item.mk "p2" "Bandage" 1 (binary64 0.2) (binary64 0.2)].

(** A confirmation with a made-up signature, for either order. *)
Definition forged (invoiceId : string) : VerifyBody.t :=
  VerifyBody.mk "order_1" "pay_1" "deadbeef" invoiceId.
(** A confirmation that carries the right signature of
    ["order_9|pay_9"] under the secret of [ENV0], sent for ["INV-8"]. *)
Definition signed_for_order_9 : VerifyBody.t :=
  VerifyBody.mk "order_9" "pay_9"
    "4015462750bad53a460683265463d425b36c9264d4d5f16193115ccd5edfba41"
    "INV-8".

(** The scene of C4: five units of ["p1"] and two checkouts in flight,
    each asking for three. *)
Definition three_aspirin : Item.t := line "p1" "Aspirin" 3 10.
Definition contention : Sys :=
  mkSys {[ "p1" := aspirin ]}
    [at_findById [three_aspirin]; at_findById [three_aspirin]].
Definition insufficient_aspirin : Response :=
  next (mkAppError "Insufficient stock for Aspirin" 400 None).

(** No stock in the store is negative, and no request in flight is about
    to save a negative stock. *)
Definition nonneg_stock (s : Sys) : Prop :=
  (∀ id product, products s !! id = Some product → 0 ≤ IProduct.stock product)
  ∧ Forall (λ t, match t with
                 | at_save _ product _ => 0 ≤ IProduct.stock product
                 | _ => True
                 end) (tasks s).

(** What holds of the scene of C4 under every schedule: the stock of
    ["p1"] is 5 or 2, and once both requests are through the loop it is 2,
    one of them at least has its stock reserved, and a request that has
    not was refused for insufficient stock. *)
Definition contention_ok (s : Sys) : Prop :=
  (stock_of (products s) "p1" = Some 5 ∨ stock_of (products s) "p1" = Some 2)
  ∧ (forallb finished (tasks s) = true →
     stock_of (products s) "p1" = Some 2
     ∧ reserved ∈ tasks s
     ∧ Forall (λ t, t = reserved ∨ t = rejected insufficient_aspirin)
         (tasks s)).

Global Instance contention_ok_dec (s : Sys) : Decision (contention_ok s).
Proof. unfold contention_ok. apply _. Defined.

(** The two kinds of run of the scene of C4, told apart by what the run
    has come through, and what each ends in once both requests are
    through the loop: after [one_after_other], one request has its stock
    reserved and the other was refused for insufficient stock; after
    [all_holding], both have. *)
Definition contention_kinds (seen : bool * bool) (final : Sys) : Prop :=
  forallb finished (tasks final) = true →
  (seen.1 = true ∧ seen.2 = false
   ∧ (tasks final = [reserved; rejected insufficient_aspirin]
      ∨ tasks final = [rejected insufficient_aspirin; reserved]))
  ∨ (seen.1 = false ∧ seen.2 = true ∧ tasks final = [reserved; reserved]).

Global Instance contention_kinds_dec seen final :
  Decision (contention_kinds seen final).
Proof. unfold contention_kinds. apply _. Defined.

(** A sale of [quantity] units of ["p1"], with no line total. *)
Definition sale_of (quantity : Z) : SaleBody.t :=
  SaleBody.mk [Item.mk "p1" "Aspirin" quantity 10 0] None None "u1" "asha".

(** The store after a first sale of two units of aspirin and one
    bandage, stored as ["INV-1700000000001"]. *)
Definition store_after_sale : World :=
  (sales_post ENV0 gateway_up (SaleBody.mk cart_ok None None "u1" "asha")
     1700000000000 1700000000001 store0).1.

(** A token library that knows two tokens, and a URL parser that knows
    one address. *)
Definition jwt0 (token : string) : option Decoded.t :=
  if String.eqb token "tok-admin" then Some (Decoded.mk "u0" "root" "admin")
  else if String.eqb token "tok-cashier"
  then Some (Decoded.mk "u1" "asha" "cashier")
  else None.
Definition URL0 (value : string) : option string :=
  if String.eqb value "https://shop.example/api/v1/" then Some "/api/v1/"
  else None.

(** The head of an admin-only route, as [routes/products.ts] and
    [routes/customers.ts] mount them: [authenticate], then
    [restrictToAdmin], which runs only when the first has handed the
    request on. *)
Definition admin_route (jwt_verify : string → option Decoded.t)
    (authorization : option string) : Passage :=
  match authenticate jwt_verify authorization with
  | handed_on user => restrictToAdmin user
  | refused err => refused err
  end.

(** * Properties *)

(** ** The hash behind the signature check, on published test vectors *)

Example sha256_abc :
  Crypto.hex (Crypto.sha256 (Crypto.bytes_of_string "abc"))
  = "ba7816bf8f01cfea414140de5dae2223b00361a396177a9cb410ff61f20015ad".
Proof. vm_compute. reflexivity. Qed.

Example sha256_two_blocks :
  Crypto.hex (Crypto.sha256 (Crypto.bytes_of_string
    "abcdbcdecdefdefgefghfghighijhijkijkljklmklmnlmnomnopnopq"))
  = "248d6a61d20638b8e5c026930c3e6039a33ce45964ff2167f6ecedd419db06c1".
Proof. vm_compute. reflexivity. Qed.

Example hmac_rfc4231_case2 :
  Crypto.createHmac_sha256_hex "Jefe" "what do ya want for nothing?"
  = "5bdcc146bf60754e6a042426089575c75a003f089d2739839dec58b964ec3843".
Proof. vm_compute. reflexivity. Qed.

(** RFC 4231, test case 6: a key longer than one block is hashed first. *)
Example hmac_rfc4231_case6 :
  Crypto.hex
    (Crypto.hmac_sha256 (repeat 170 131)
       (Crypto.bytes_of_string
          "Test Using Larger Than Block-Size Key - Hash Key First"))
  = "60e431591ee0b67f0d8a26aacbf5b77f8e0bc6213728c5140546040f0ee37f54".
Proof. vm_compute. reflexivity. Qed.

(** ** Binary64 rounding *)

(** The rounding agrees with the hardware's binary64 arithmetic: on the
    sum of 0.1 and 0.2, on products by 100 of two-decimal amounts, on a
    negative amount, beyond 2^53 and on subnormal numbers. *)
#[warnings="-inexact-float"] Example binary64_agrees_with_hardware :
  Q_of_float 0.1 = Some (binary64 0.1)
  ∧ Q_of_float (0.1 + 0.2)
    = Some (Number_add (binary64 0.1) (binary64 0.2))
  ∧ Q_of_float (1.045 * 100) = Some (Number_mul (binary64 1.045) 100)
  ∧ Q_of_float (4.35 * 100) = Some (Number_mul (binary64 4.35) 100)
  ∧ Q_of_float (1.15 * 100) = Some (Number_mul (binary64 1.15) 100)
  ∧ Q_of_float (0.005 * 100) = Some (Number_mul (binary64 0.005) 100)
  ∧ Q_of_float (-2.675 * 100) = Some (Number_mul (binary64 (-2.675)) 100)
  ∧ Q_of_float 9007199254740993 = Some (binary64 9007199254740993)
  ∧ Q_of_float (1e-320 * 0.3)
    = Some (Number_mul (binary64 (1 # 10 ^ 320)) (binary64 0.3))
  ∧ Q_of_float 0x1.fffffffffffffp+1023 = Some Number_MAX_VALUE.
Proof. vm_compute. repeat split. Qed.

(** 0.1 + 0.2 is 0.30000000000000004, and 1.045 * 100 is 104.5. *)
Example binary64_published_values :
  (Number_add (binary64 0.1) (binary64 0.2)
   == 0.3000000000000000444089209850062616169452667236328125)%Q
  ∧ (Number_mul (binary64 1.045) 100 == 104.5)%Q
  ∧ (binary64 1.045 * 100 < 104.5)%Q.
Proof. vm_compute. repeat split. Qed.

Lemma pow2_pos (e : Z) : (0 < 2 ^ e)%Q.
Proof. apply Qpower_0_lt. reflexivity. Qed.

Lemma pow2_succ (e : Z) : (2 ^ (e + 1) == 2 * 2 ^ e)%Q.
Proof. rewrite Qpower_plus by discriminate. change (2 ^ 1)%Q with 2%Q. ring. Qed.

Lemma pow2_Z (n : Z) : 0 ≤ n → (inject_Z (2 ^ n) == 2 ^ n)%Q.
Proof. intros H. by rewrite Zpower_Qpower. Qed.

Lemma Qabs_frac (q : Q) :
  (Qabs q * inject_Z (Z.pos (Qden q)) == inject_Z (Z.abs (Qnum q)))%Q.
Proof.
  destruct q as [n d]. unfold Qabs, Qeq, Qmult, inject_Z. cbn. lia.
Qed.

Lemma ilog2_spec (q : Q) :
  ¬ (q == 0)%Q → (2 ^ ilog2 q <= Qabs q ∧ Qabs q < 2 ^ (ilog2 q + 1))%Q.
Proof.
  intros Hq.
  set (n := Z.abs (Qnum q)). set (d := Z.pos (Qden q)).
  assert (Hn : 0 < n).
  { unfold n. destruct q as [[|p|p] dd]; cbn; try lia.
    exfalso. apply Hq. reflexivity. }
  assert (Hd : 0 < d) by (unfold d; lia).
  destruct (Z.log2_spec n Hn) as [Hn1 Hn2].
  destruct (Z.log2_spec d Hd) as [Hd1 Hd2].
  pose proof (Z.log2_nonneg n) as Ha. pose proof (Z.log2_nonneg d) as Hb.
  set (a := Z.log2 n) in *. set (b := Z.log2 d) in *.
  pose proof (Qabs_frac q) as Hfrac. fold n d in Hfrac.
  assert (Qn1 : (2 ^ a <= inject_Z n)%Q).
  { rewrite <- pow2_Z by done. rewrite <- Zle_Qle. done. }
  assert (Qn2 : (inject_Z n < 2 * 2 ^ a)%Q).
  { rewrite <- pow2_succ, <- pow2_Z by lia. rewrite <- Zlt_Qlt.
    replace (a + 1) with (Z.succ a) by lia. done. }
  assert (Qd1 : (2 ^ b <= inject_Z d)%Q).
  { rewrite <- pow2_Z by done. rewrite <- Zle_Qle. done. }
  assert (Qd2 : (inject_Z d < 2 * 2 ^ b)%Q).
  { rewrite <- pow2_succ, <- pow2_Z by lia. rewrite <- Zlt_Qlt.
    replace (b + 1) with (Z.succ b) by lia. done. }
  assert (Hk : (2 ^ a == 2 ^ (a - b) * 2 ^ b)%Q).
  { rewrite <- Qpower_plus by discriminate. by replace (a - b + b) with a by lia. }
  assert (Hk' : (2 ^ (a - b) == 2 * 2 ^ (a - b - 1))%Q).
  { rewrite <- pow2_succ. by replace (a - b - 1 + 1) with (a - b) by lia. }
  pose proof (pow2_pos (a - b - 1)) as Pk. pose proof (pow2_pos b) as Pb.
  pose proof (Qabs_nonneg q) as Hx.
  unfold ilog2. fold n d a b.
  set (x := Qabs q) in *. set (K := (2 ^ (a - b))%Q) in *.
  set (K1 := (2 ^ (a - b - 1))%Q) in *. set (B := (2 ^ b)%Q) in *.
  set (A := (2 ^ a)%Q) in *. set (D := inject_Z d) in *.
  set (N := inject_Z n) in *.
  destruct (Qle_bool K x) eqn:Hle.
  - apply Qle_bool_iff in Hle. split; [done|].
    rewrite pow2_succ. fold K. nra.
  - assert (Hlt : (x < K)%Q).
    { apply Qnot_le_lt. intros H. apply Qle_bool_iff in H. congruence. }
    replace (a - b - 1 + 1) with (a - b) by lia. fold K K1.
    split; [|done]. nra.
Qed.

Lemma round_ties_even_near (y : Q) :
  (inject_Z (round_ties_even y) - (1 # 2) <= y
   ∧ y <= inject_Z (round_ties_even y) + (1 # 2))%Q.
Proof.
  unfold round_ties_even.
  pose proof (Qfloor_le y) as Hlo. pose proof (Qlt_floor y) as Hhi.
  rewrite inject_Z_plus in Hhi. change (inject_Z 1) with 1%Q in Hhi.
  set (f := Qfloor y) in *.
  destruct (Qcompare_spec (y - inject_Z f) (1 # 2)) as [He|Hl|Hg].
  - destruct (Z.even f); rewrite ?inject_Z_plus;
      change (inject_Z 1) with 1%Q; lra.
  - lra.
  - rewrite inject_Z_plus. change (inject_Z 1) with 1%Q. lra.
Qed.

Lemma round_ties_even_whole (y : Q) (z : Z) :
  (y == inject_Z z)%Q → round_ties_even y = z.
Proof.
  intros Hy. unfold round_ties_even.
  assert (Hf : Qfloor y = z) by (rewrite Hy; apply Qfloor_Z).
  rewrite Hf.
  destruct (Qcompare_spec (y - inject_Z z) (1 # 2)) as [He|Hl|Hg];
    [lra|done|lra].
Qed.

Lemma round_ties_even_nonneg (y : Q) : (0 <= y)%Q → 0 ≤ round_ties_even y.
Proof.
  intros Hy. unfold round_ties_even.
  assert (0 ≤ Qfloor y).
  { change 0 with (Qfloor 0). by apply Qfloor_resp_le. }
  destruct (_ ?= _)%Q; [destruct (Z.even _)|..]; lia.
Qed.

Lemma binary64_eq (q : Q) :
  ¬ (q == 0)%Q →
  (binary64 q
   == (if Qle_bool 0 q then 1 else -1)
      * inject_Z (round_ties_even (Qabs q / 2 ^ last_place q))
      * 2 ^ last_place q)%Q.
Proof.
  intros Hq. unfold binary64.
  destruct (Qeq_bool q 0) eqn:H0; [by apply Qeq_bool_iff in H0|].
  cbv zeta. fold (last_place q). rewrite Qred_correct.
  destruct (Qle_bool 0 q); [ring|]. rewrite inject_Z_opp. ring.
Qed.

Lemma binary64_0 (q : Q) : (q == 0)%Q → binary64 q = 0%Q.
Proof.
  intros Hq. unfold binary64. apply Qeq_bool_iff in Hq. by rewrite Hq.
Qed.

Lemma Qabs_sign (q : Q) :
  (q == (if Qle_bool 0 q then 1 else -1) * Qabs q)%Q.
Proof.
  destruct (Qle_bool 0 q) eqn:H.
  - apply Qle_bool_iff in H. rewrite Qabs_pos by done. ring.
  - assert (q < 0)%Q.
    { apply Qnot_le_lt. intros H'. apply Qle_bool_iff in H'. congruence. }
    rewrite Qabs_neg by lra. ring.
Qed.

(** The rounding error is at most half a unit in the last place. *)
Lemma binary64_half_ulp (q : Q) :
  ¬ (q == 0)%Q →
  (Qabs (binary64 q - q) <= (1 # 2) * 2 ^ last_place q)%Q.
Proof.
  intros Hq. rewrite (binary64_eq q Hq).
  pose proof (pow2_pos (last_place q)) as HP.
  set (P := (2 ^ last_place q)%Q) in *.
  pose proof (round_ties_even_near (Qabs q / P)) as [Hlo Hhi].
  set (m := inject_Z (round_ties_even (Qabs q / P))) in *.
  assert (Hdiv : (Qabs q == (Qabs q / P) * P)%Q) by (field; lra).
  set (y := (Qabs q / P)%Q) in *.
  pose proof (Qabs_sign q) as Hs.
  set (x := Qabs q) in *.
  apply Qabs_Qle_condition.
  destruct (Qle_bool 0 q); split; nra.
Qed.

Lemma last_place_bound (q : Q) :
  ¬ (q == 0)%Q →
  (2 ^ last_place q <= Qabs q * (1 # 2 ^ 52) + (1 # 2 ^ 1074))%Q.
Proof.
  intros Hq. destruct (ilog2_spec q Hq) as [Hlo _].
  pose proof (Qabs_nonneg q).
  unfold last_place.
  destruct (Z.max_spec (ilog2 q - 52) (-1074)) as [[_ ->]|[_ ->]].
  - change (2 ^ (-1074))%Q with (1 # 2 ^ 1074)%Q.
    assert (0 <= Qabs q * (1 # 2 ^ 52))%Q by (apply Qmult_le_0_compat; done).
    lra.
  - rewrite Qpower_minus by discriminate.
    assert (0 < (1 # 2 ^ 1074))%Q by reflexivity.
    set (L := (2 ^ ilog2 q)%Q) in *. set (x := Qabs q) in *.
    unfold Qdiv.
    assert (/ 2 ^ 52 == 1 # 2 ^ 52)%Q as -> by (vm_compute; reflexivity).
    assert (0 < 1 # 2 ^ 52)%Q by reflexivity.
    set (c := (1 # 2 ^ 52)%Q) in *. set (d := (1 # 2 ^ 1074)%Q) in *.
    clearbody c d L x. nra.
Qed.

(** Relative error at most 2^-53, apart from the subnormal range. *)
Lemma binary64_error (q : Q) :
  (Qabs (binary64 q - q) <= Qabs q * (1 # 2 ^ 53) + (1 # 2 ^ 1075))%Q.
Proof.
  destruct (Qeq_dec q 0) as [H0|Hq].
  - rewrite (binary64_0 q H0), H0. discriminate.
  - pose proof (binary64_half_ulp q Hq). pose proof (last_place_bound q Hq).
    set (u := (2 ^ last_place q)%Q) in *. set (x := Qabs q) in *.
    set (err := Qabs (binary64 q - q)) in *.
    assert (H53 : ((1 # 2) * (1 # 2 ^ 52) == 1 # 2 ^ 53)%Q)
      by (vm_compute; reflexivity).
    assert (H1075 : ((1 # 2) * (1 # 2 ^ 1074) == 1 # 2 ^ 1075)%Q)
      by (vm_compute; reflexivity).
    set (a := (1 # 2 ^ 52)%Q) in *. set (b := (1 # 2 ^ 1074)%Q) in *.
    rewrite <- H53, <- H1075. clearbody a b u x err. nra.
Qed.

(** Whole numbers below 2^53 are binary64 numbers. *)
Lemma binary64_whole (q : Q) (z : Z) :
  (q == inject_Z z)%Q → Z.abs z < 2 ^ 53 → (binary64 q == inject_Z z)%Q.
Proof.
  intros Hq Hz.
  destruct (Z.eq_dec z 0) as [->|Hz0].
  { by rewrite (binary64_0 q Hq). }
  assert (Hq0 : ¬ (q == 0)%Q).
  { rewrite Hq. intros H. apply Hz0. unfold Qeq in H. cbn in H. lia. }
  assert (Habs : (Qabs q == inject_Z (Z.abs z))%Q).
  { rewrite Hq. unfold Qabs, inject_Z. reflexivity. }
  destruct (ilog2_spec q Hq0) as [Hlo Hhi]. rewrite Habs in Hlo, Hhi.
  set (L := ilog2 q) in *.
  assert (HL1 : L < 53).
  { apply (Qpower_lt_compat_l_inv 2); [|reflexivity].
    eapply Qle_lt_trans; [exact Hlo|].
    rewrite <- pow2_Z by lia. by rewrite <- Zlt_Qlt. }
  assert (HL0 : 0 < L + 1).
  { apply (Qpower_lt_compat_l_inv 2); [|reflexivity].
    eapply Qle_lt_trans; [|exact Hhi].
    change (2 ^ 0)%Q with (inject_Z 1). rewrite <- Zle_Qle. lia. }
  rewrite (binary64_eq q Hq0).
  assert (Hlast : last_place q = L - 52) by (unfold last_place; fold L; lia).
  rewrite Hlast.
  assert (Hy : (Qabs q / 2 ^ (L - 52) == inject_Z (Z.abs z * 2 ^ (52 - L)))%Q).
  { rewrite Habs, inject_Z_mult, pow2_Z by lia.
    replace (L - 52) with (- (52 - L)) by lia. rewrite Qpower_opp.
    field. apply Qpower_not_0. discriminate. }
  rewrite (round_ties_even_whole _ _ Hy).
  rewrite inject_Z_mult, pow2_Z by lia.
  rewrite Qmult_assoc.
  assert (Hpow : (2 ^ (52 - L) * 2 ^ (L - 52) == 1)%Q).
  { rewrite <- Qpower_plus by discriminate.
    by replace (52 - L + (L - 52)) with 0 by lia. }
  rewrite <- !Qmult_assoc, Hpow, Qmult_1_r.
  rewrite <- Habs, <- Hq. symmetry. apply Qabs_sign.
Qed.

Lemma binary64_nonneg (q : Q) : (0 <= q)%Q → (0 <= binary64 q)%Q.
Proof.
  intros Hq. destruct (Qeq_dec q 0) as [H0|Hq0].
  { by rewrite (binary64_0 q H0). }
  rewrite (binary64_eq q Hq0).
  apply Qle_bool_iff in Hq as Hb. rewrite Hb.
  pose proof (pow2_pos (last_place q)).
  assert (0 <= Qabs q / 2 ^ last_place q)%Q.
  { apply Qle_shift_div_l; [done|]. rewrite Qmult_0_l. apply Qabs_nonneg. }
  pose proof (round_ties_even_nonneg _ H0) as Hm.
  rewrite Zle_Qle in Hm. change (inject_Z 0) with 0%Q in Hm.
  set (m := inject_Z _) in *. set (P := (2 ^ _)%Q) in *. clearbody m P. nra.
Qed.

(** [binary64] rounds whole numbers below 2^53 to themselves, so their
    sums are exact. *)
Lemma reduce_total_whole_from (items : list Item.t) (acc : Q) (a : Z) :
  (acc == inject_Z a)%Q → 0 ≤ a →
  Forall whole_total items →
  (inject_Z a + sum_lineTotal items < inject_Z (2 ^ 53))%Q →
  (fold_left (λ sum item, Number_add sum (Item.total item)) items acc
   == inject_Z a + sum_lineTotal items
   ∧ 0 <= sum_lineTotal items)%Q.
Proof.
  intros Hacc Ha Hall. revert acc a Hacc Ha.
  induction Hall as [|item rest [Hpos Hwhole] Hall IH];
    intros acc a Hacc Ha Hsum; cbn [fold_left sum_lineTotal] in *.
  - split; [|discriminate]. rewrite Hacc. ring.
  - set (k := Qfloor (Item.total item)) in *.
    assert (Hk : 0 ≤ k).
    { change 0 with (Qfloor 0). by apply Qfloor_resp_le. }
    assert (Hrest : (0 <= sum_lineTotal rest)%Q).
    { clear -Hall. induction Hall as [|item rest [Hpos _] _ IH]; cbn.
      - discriminate.
      - lra. }
    assert (Hstep : (Number_add acc (Item.total item) == inject_Z (a + k))%Q).
    { apply binary64_whole.
      - rewrite Hacc, Hwhole, inject_Z_plus. reflexivity.
      - rewrite Hwhole in Hsum. rewrite Zlt_Qlt, Z.abs_eq, inject_Z_plus by lia.
        lra. }
    destruct (IH _ (a + k) Hstep ltac:(lia)) as [IH1 _].
    { rewrite inject_Z_plus, <- Hwhole. lra. }
    split; [|lra]. rewrite IH1, inject_Z_plus, <- Hwhole. ring.
Qed.

Lemma reduce_total_whole (items : list Item.t) :
  Forall whole_total items →
  (sum_lineTotal items < inject_Z (2 ^ 53))%Q →
  (reduce_total items == sum_lineTotal items)%Q.
Proof.
  intros Hall Hsum. unfold reduce_total.
  destruct (reduce_total_whole_from items 0 0) as [H _]; try done.
  - change (inject_Z 0) with 0%Q. lra.
  - rewrite H. change (inject_Z 0) with 0%Q. ring.
Qed.

(** ** The stock loop *)

Lemma for_of_cons {A} (x : A) (l : list A) (f : A → Async unit) (w : World) :
  for_of (x :: l) f w =
  match f x w with
  | (w', Value _) => for_of l f w'
  | (w', Sent r) => (w', Sent r)
  | (w', Threw e) => (w', Threw e)
  end.
Proof. reflexivity. Qed.

Lemma invoices_reserve_item_body : reserve_body invoices_reserve_item.
Proof.
  intros item w.
  unfold invoices_reserve_item, Product_findById, mbind, Async_bind, reply, product_save.
  destruct (Product w !! Item.productId item) as [product|]; [|eauto].
  destruct (IProduct.stock product <? Item.quantity item); eauto.
Qed.

Lemma sales_reserve_item_body : reserve_body sales_reserve_item.
Proof.
  intros item w.
  unfold sales_reserve_item, Product_findById, mbind, Async_bind, reply, product_save.
  destruct (Product w !! Item.productId item) as [product|]; [|eauto].
  destruct (IProduct.stock product <? Item.quantity item); eauto.
Qed.

Lemma decremented_nil (db : gmap string IProduct.t) : decremented [] db db.
Proof.
  intros id. unfold stock_of. cbn.
  destruct (db !! id) as [p|]; cbn; [f_equal; lia | reflexivity].
Qed.

Lemma decremented_cons (item : Item.t) (rest : list Item.t)
    (db db' : gmap string IProduct.t) (product : IProduct.t) :
  db !! Item.productId item = Some product →
  decremented rest
    (<[Item.productId item :=
         IProduct.set_stock product
           (IProduct.stock product - Item.quantity item)]> db) db' →
  decremented (item :: rest) db db'.
Proof.
  intros Hp Hrest id. rewrite (Hrest id). unfold stock_of. cbn [requested].
  destruct (String.eqb_spec (Item.productId item) id) as [Heq|Hne].
  - rewrite <- Heq, lookup_insert_eq, Hp. cbn. f_equal. lia.
  - rewrite lookup_insert_ne by done.
    destruct (db !! id) as [p|]; cbn; [f_equal; lia | reflexivity].
Qed.

(** The loop stops at the first item it cannot serve and leaves in place
    what it wrote for the items before it. *)
Lemma for_of_reserve (f : Item.t → Async unit) (Hf : reserve_body f)
    (items : list Item.t) :
  ∀ w, ∃ w' out,
    for_of items f w = (w', out)
    ∧ Customer w' = Customer w ∧ Sale w' = Sale w
    ∧ razorpay_calls w' = razorpay_calls w
    ∧ match out with
      | Value _ => decremented items (Product w) (Product w')
      | Sent r =>
          ∃ done item rest,
            items = (done ++ item :: rest)%list
            ∧ decremented done (Product w) (Product w')
            ∧ refusal (Product w') item r
      | Threw _ => False
      end.
Proof.
  induction items as [|item rest IH]; intros w.
  - exists w, (Value tt). cbn. repeat split; auto using decremented_nil.
  - rewrite for_of_cons. pose proof (Hf item w) as Hitem.
    destruct (Product w !! Item.productId item) as [product|] eqn:Hp.
    + destruct (IProduct.stock product <? Item.quantity item) eqn:Hlt.
      * destruct Hitem as (r & -> & Hr). exists w, (Sent r).
        repeat split; try done.
        exists [], item, rest. repeat split; auto using decremented_nil.
        unfold refusal. rewrite Hp. lia.
      * rewrite Hitem.
        destruct (IH (with_Product
          (<[Item.productId item :=
               IProduct.set_stock product
                 (IProduct.stock product - Item.quantity item)]>) w))
          as (w' & out & -> & HC & HS & HR & Hout).
        exists w', out. repeat split; try done.
        destruct out as [[]|r|e]; [| |done].
        -- eapply decremented_cons; eauto.
        -- destruct Hout as (done & item' & rest' & -> & Hdec & Hserve).
           exists (item :: done), item', rest'. repeat split; try done.
           eapply decremented_cons; eauto.
    + destruct Hitem as (r & -> & Hr). exists w, (Sent r).
      repeat split; try done.
      exists [], item, rest. repeat split; auto using decremented_nil.
      unfold refusal. by rewrite Hp.
Qed.

(** ** [POST /api/invoices], branch by branch *)

Section InvoicesPost.

Variable ENV : Env.t.
Variable razorpay : OrderOptions.t → CreateResult.
Variable user : User.
Variable body : InvoiceBody.t.
Variable invoiceId : string.

Let items := InvoiceBody.items body.
Let totalAmount := InvoiceBody.totalAmount body.
Let customerId := truthy (InvoiceBody.customerId body).
Let customerName := or_default (InvoiceBody.customerName body) "".
Let orderAmountPaise :=
  Math_max (Math_round (Number_mul totalAmount 100)) 100.
Let options :=
  OrderOptions.mk (inject_Z orderAmountPaise) "INR" invoiceId
    [("customerId", default "guest" customerId); ("invoiceId", invoiceId)].
Let invoice_cash :=
  ISale.mk invoiceId customerId customerName items totalAmount
    (id user) (username user) status_completed payment_paid cash
    None None None.
Let invoice_upi (razorpayOrder_id : string) :=
  ISale.mk invoiceId customerId customerName items totalAmount
    (id user) (username user) status_pending payment_pending upi
    (Some razorpayOrder_id) None None.
Let server_error (e : string) := next (mkAppError "Server error" 500 (Some e)).

Lemma invoices_post_invalid (w : World) :
  invoice_body_valid body = false →
  invoices_post ENV razorpay user body invoiceId w
  = (w, Sent (next (mkAppError "Validation errors" 400 None))).
Proof. intros H. unfold invoices_post. by rewrite H. Qed.

Lemma invoices_post_no_customer (w : World) (cid : string) :
  invoice_body_valid body = true →
  truthy (InvoiceBody.customerId body) = Some cid →
  cid ∉ Customer w →
  invoices_post ENV razorpay user body invoiceId w
  = (w, Sent (next (mkAppError "Customer not found" 404 None))).
Proof.
  intros Hv Hc Hn.
  unfold invoices_post, try_catch, mbind, Async_bind, Customer_findById.
  rewrite Hv, Hc. cbn. by rewrite bool_decide_false.
Qed.

Lemma invoices_post_loop_failed (w w1 : World) (r : Response) :
  invoice_body_valid body = true →
  customer_known (InvoiceBody.customerId body) w →
  for_of items invoices_reserve_item w = (w1, Sent r) →
  invoices_post ENV razorpay user body invoiceId w = (w1, Sent r).
Proof.
  intros Hv Hc Hloop.
  unfold invoices_post, try_catch, mbind, Async_bind, Customer_findById.
  rewrite Hv. cbn. unfold customer_known in Hc.
  destruct (truthy (InvoiceBody.customerId body)) as [cid|].
  - rewrite bool_decide_true by done. cbn. fold items. by rewrite Hloop.
  - cbn. fold items. by rewrite Hloop.
Qed.

Lemma invoices_post_loop_done (w w1 : World) :
  invoice_body_valid body = true →
  customer_known (InvoiceBody.customerId body) w →
  for_of items invoices_reserve_item w = (w1, Value tt) →
  invoices_post ENV razorpay user body invoiceId w
  = match InvoiceBody.paymentMethod body with
    | Some cash =>
        match list_find (λ s, ISale.invoiceId s = invoiceId) (Sale w1) with
        | Some _ => (w1, Sent (server_error "E11000 duplicate key error"))
        | None =>
            (with_Sale (λ l, (l ++ [invoice_cash])%list) w1,
             Sent (res_json 201 (body_cash_invoice invoice_cash)))
        end
    | _ =>
        let w2 := with_razorpay_calls (λ l, (l ++ [options])%list) w1 in
        match razorpay options with
        | Created oid =>
            match list_find (λ s, ISale.invoiceId s = invoiceId) (Sale w1)
            with
            | Some _ => (w2, Sent (server_error "E11000 duplicate key error"))
            | None =>
                (with_Sale (λ l, (l ++ [invoice_upi oid])%list) w2,
                 Sent (res_json 201
                   (body_upi_invoice (invoice_upi oid) oid
                      (Env.RAZORPAY_KEY_ID ENV) orderAmountPaise)))
            end
        | Falsy =>
            (w2, Sent (next
               (mkAppError "Failed to create Razorpay order" 500 None)))
        | Rejected msg => (w2, Sent (server_error msg))
        end
    end.
Proof.
  intros Hv Hc Hloop.
  assert (Hgo : ∀ k : Async unit,
    try_catch
      (match truthy (InvoiceBody.customerId body) with
       | Some cid =>
           customer ← Customer_findById cid;
           if customer : bool then mret tt
           else reply (next (mkAppError "Customer not found" 404 None))
       | None => mret tt
       end;; for_of items invoices_reserve_item;; k)
      (λ error, reply (server_error error)) w
    = try_catch k (λ error, reply (server_error error)) w1).
  { intros k. unfold try_catch, mbind, Async_bind, Customer_findById.
    unfold customer_known in Hc.
    destruct (truthy (InvoiceBody.customerId body)) as [cid|]; cbn.
    - rewrite bool_decide_true by done. cbn. by rewrite Hloop.
    - by rewrite Hloop. }
  unfold invoices_post. rewrite Hv. cbn [negb]. fold items.
  rewrite Hgo.
  unfold try_catch, mbind, Async_bind, sale_insert, razorpay_orders_create,
    reply.
  destruct (InvoiceBody.paymentMethod body) as [[|]|]; cbn.
  - destruct (list_find _ (Sale w1)); reflexivity.
  - destruct (razorpay _); cbn; try reflexivity.
    destruct (list_find _ (Sale w1)); reflexivity.
  - destruct (razorpay _); cbn; try reflexivity.
    destruct (list_find _ (Sale w1)); reflexivity.
Qed.

End InvoicesPost.

(** ** [POST /api/sales], branch by branch *)

Section SalesPost.

Variable ENV : Env.t.
Variable razorpay : OrderOptions.t → CreateResult.
Variable body : SaleBody.t.
Variables now_receipt now_invoice : Z.

Let items := SaleBody.items body.
Let totalAmount := reduce_total items.
Let options :=
  OrderOptions.mk (Number_mul totalAmount 100) "INR"
    ("receipt_" +:+ pretty now_receipt) [].
Let saleData (order_id : string) :=
  ISale.mk ("INV-" +:+ pretty now_invoice)
    (truthy (SaleBody.customerId body))
    (or_default (SaleBody.customerName body) "Walk-in Customer")
    items totalAmount (SaleBody.cashierId body) (SaleBody.cashierName body)
    status_pending payment_pending upi (Some order_id) None None.
Let server_error := res_json 500 (body_message "Server error").

Lemma sales_post_loop_failed (w w1 : World) (r : Response) :
  for_of items sales_reserve_item w = (w1, Sent r) →
  sales_post ENV razorpay body now_receipt now_invoice w = (w1, Sent r).
Proof.
  intros Hloop. unfold sales_post, try_catch, mbind, Async_bind.
  fold items. by rewrite Hloop.
Qed.

Lemma sales_post_loop_done (w w1 : World) :
  for_of items sales_reserve_item w = (w1, Value tt) →
  sales_post ENV razorpay body now_receipt now_invoice w
  = let w2 := with_razorpay_calls (λ l, (l ++ [options])%list) w1 in
    match razorpay options with
    | Created oid =>
        match list_find
                (λ s, ISale.invoiceId s = "INV-" +:+ pretty now_invoice)
                (Sale w1)
        with
        | Some _ => (w2, Sent server_error)
        | None =>
            (with_Sale (λ l, (l ++ [saleData oid])%list) w2,
             Sent (res_json 201
               (body_sale (saleData oid) (Env.RAZORPAY_KEY_ID ENV) oid)))
        end
    | _ => (w2, Sent server_error)
    end.
Proof.
  intros Hloop.
  unfold sales_post, try_catch, mbind, Async_bind, sale_insert,
    razorpay_orders_create, reply, throw.
  fold items. rewrite Hloop. cbn.
  destruct (razorpay _); cbn; try reflexivity.
  destruct (list_find _ (Sale w1)); reflexivity.
Qed.

End SalesPost.

(** ** Stock after a checkout *)

(** Nothing after the stock loop writes to the product collection. *)
Lemma invoices_post_stock_after_loop ENV razorpay user body invoiceId
    (w w1 : World) :
  invoice_body_valid body = true →
  customer_known (InvoiceBody.customerId body) w →
  for_of (InvoiceBody.items body) invoices_reserve_item w = (w1, Value tt) →
  Product (invoices_post ENV razorpay user body invoiceId w).1 = Product w1.
Proof.
  intros Hv Hc Hloop.
  rewrite (invoices_post_loop_done _ _ _ _ _ _ _ Hv Hc Hloop).
  destruct (InvoiceBody.paymentMethod body) as [[|]|]; cbn;
    repeat case_match; reflexivity.
Qed.

Lemma sales_post_stock_after_loop ENV razorpay body now_receipt now_invoice
    (w w1 : World) :
  for_of (SaleBody.items body) sales_reserve_item w = (w1, Value tt) →
  Product (sales_post ENV razorpay body now_receipt now_invoice w).1
  = Product w1.
Proof.
  intros Hloop. rewrite (sales_post_loop_done _ _ _ _ _ _ _ Hloop).
  cbn. repeat case_match; reflexivity.
Qed.




(** A checkout is turned away before the stock loop, or runs the loop. *)
Lemma invoices_post_cases ENV razorpay user body invoiceId (w : World) :
  (∃ err,
     invoices_post ENV razorpay user body invoiceId w = (w, Sent (next err))
     ∧ (statusCode err = 400 ∨ statusCode err = 404))
  ∨ (invoice_body_valid body = true
     ∧ customer_known (InvoiceBody.customerId body) w
     ∧ ∃ w1 out1,
         for_of (InvoiceBody.items body) invoices_reserve_item w = (w1, out1)
         ∧ Customer w1 = Customer w ∧ Sale w1 = Sale w
         ∧ razorpay_calls w1 = razorpay_calls w
         ∧ match out1 with
           | Value _ =>
               decremented (InvoiceBody.items body) (Product w) (Product w1)
           | Sent r =>
               invoices_post ENV razorpay user body invoiceId w
               = (w1, Sent r)
           | Threw _ => False
           end).
Proof.
  destruct (invoice_body_valid body) eqn:Hv.
  2:{ left. eexists. split; [by apply invoices_post_invalid|]. by left. }
  destruct (truthy (InvoiceBody.customerId body)) as [cid|] eqn:Hcid.
  - destruct (decide (cid ∈ Customer w)) as [Hin|Hout].
    + right. split; [done|]. split; [unfold customer_known; by rewrite Hcid|].
      destruct (for_of_reserve _ invoices_reserve_item_body
                  (InvoiceBody.items body) w)
        as (w1 & out1 & Hloop & HC & HS & HR & Hout).
      exists w1, out1. repeat split; try done.
      destruct out1 as [[]|r|e]; try done.
      apply invoices_post_loop_failed; try done.
      unfold customer_known; by rewrite Hcid.
    + left. eexists. split; [by eapply invoices_post_no_customer|]. by right.
  - right. split; [done|]. split; [unfold customer_known; by rewrite Hcid|].
    destruct (for_of_reserve _ invoices_reserve_item_body
                (InvoiceBody.items body) w)
      as (w1 & out1 & Hloop & HC & HS & HR & Hout).
    exists w1, out1. repeat split; try done.
    destruct out1 as [[]|r|e]; try done.
    apply invoices_post_loop_failed; try done.
    unfold customer_known; by rewrite Hcid.
Qed.

Lemma app_singleton_neq {A} (l : list A) (x : A) : l ≠ (l ++ [x])%list.
Proof.
  intros H. apply (f_equal length) in H. rewrite length_app in H.
  cbn in H. lia.
Qed.

(** ** Gateway failure *)




(** ** [POST /api/invoices/verify-payment], branch by branch *)

Lemma list_find_update {A} (P : A → Prop) `{!∀ x, Decision (P x)}
    (l : list A) (i : nat) (x y : A) :
  list_find P l = Some (i, x) → P y →
  list_find P (<[i := y]> l) = Some (i, y).
Proof.
  intros (Hi & _ & Hleast)%list_find_Some Hy.
  apply list_find_insert_Some. right. left.
  repeat split; eauto using lookup_lt_Some.
Qed.

Section VerifyPayment.

Variable ENV : Env.t.
Variable body : VerifyBody.t.

Let order_id := VerifyBody.razorpay_order_id body.
Let payment_id := VerifyBody.razorpay_payment_id body.
Let signature := VerifyBody.razorpay_signature body.
Let found (w : World) :=
  list_find (λ s, ISale.invoiceId s = VerifyBody.invoiceId body) (Sale w).

Lemma verify_payment_invalid_body (w : World) :
  verify_body_valid body = false →
  invoices_verify_payment ENV body w
  = (w, Sent (next (mkAppError "Validation errors" 400 None))).
Proof. intros H. unfold invoices_verify_payment. by rewrite H. Qed.

Lemma verify_payment_not_found (w : World) :
  verify_body_valid body = true →
  found w = None →
  invoices_verify_payment ENV body w
  = (w, Sent (next (mkAppError "Invoice not found" 404 None))).
Proof.
  intros Hv Hf.
  unfold invoices_verify_payment, try_catch, mbind, Async_bind, Sale_findOne.
  rewrite Hv. cbn. unfold found in Hf. by rewrite Hf.
Qed.

Lemma verify_payment_bad_signature (w : World) (i : nat) (invoice : ISale.t) :
  verify_body_valid body = true →
  found w = Some (i, invoice) →
  verifyPaymentSignature ENV order_id payment_id signature = false →
  invoices_verify_payment ENV body w
  = (with_Sale (<[i := ISale.set_paymentStatus invoice payment_failed]>) w,
     Sent (next (mkAppError "Invalid payment signature" 400 None))).
Proof.
  intros Hv Hf Hsig.
  unfold invoices_verify_payment, try_catch, mbind, Async_bind, Sale_findOne.
  rewrite Hv. cbn. unfold found in Hf. rewrite Hf.
  fold order_id payment_id signature. by rewrite Hsig.
Qed.

Lemma verify_payment_good_signature (w : World) (i : nat)
    (invoice : ISale.t) :
  verify_body_valid body = true →
  found w = Some (i, invoice) →
  verifyPaymentSignature ENV order_id payment_id signature = true →
  let invoice' :=
    ISale.set_status
      (ISale.set_razorpaySignature
         (ISale.set_razorpayPaymentId
            (ISale.set_paymentStatus invoice payment_paid)
            (Some payment_id))
         (Some signature))
      status_completed in
  invoices_verify_payment ENV body w
  = (with_Sale (<[i := invoice']>) w,
     Sent (res_json 200 (body_payment_verified invoice'))).
Proof.
  intros Hv Hf Hsig.
  unfold invoices_verify_payment, try_catch, mbind, Async_bind, Sale_findOne.
  rewrite Hv. cbn. unfold found in Hf. rewrite Hf.
  fold order_id payment_id signature. by rewrite Hsig.
Qed.

End VerifyPayment.

(** ** Confirmation of a payment *)

(** C3, as amended: [POST /verify-payment] has no test for a terminal
    order; it verifies the signature on every call, whatever state the
    order is in.  With a valid signature the order becomes
    Completed/Paid and carries the payment id and signature of the
    request; with an invalid one its [paymentStatus] becomes Failed, also
    when it was Paid, and every other field stays as it was.  Sending the
    same request again leaves the order and the answer as after the first
    time, and an order that is Completed stays Completed. *)
Theorem confirmation_reverifies_every_call ENV body (w : World) (i : nat)
    (invoice : ISale.t) :
  verify_body_valid body = true →
  list_find (λ s, ISale.invoiceId s = VerifyBody.invoiceId body) (Sale w)
  = Some (i, invoice) →
  ∃ invoice' out,
    invoices_verify_payment ENV body w
    = (with_Sale (<[i := invoice']>) w, out)
    ∧ (if verifyPaymentSignature ENV (VerifyBody.razorpay_order_id body)
            (VerifyBody.razorpay_payment_id body)
            (VerifyBody.razorpay_signature body)
       then
         invoice' =
           ISale.mk (ISale.invoiceId invoice) (ISale.customerId invoice)
             (ISale.customerName invoice) (ISale.items invoice)
             (ISale.totalAmount invoice) (ISale.cashierId invoice)
             (ISale.cashierName invoice) status_completed payment_paid
             (ISale.paymentMethod invoice) (ISale.razorpayOrderId invoice)
             (Some (VerifyBody.razorpay_payment_id body))
             (Some (VerifyBody.razorpay_signature body))
         ∧ out = Sent (res_json 200 (body_payment_verified invoice'))
       else
         invoice' =
           ISale.mk (ISale.invoiceId invoice) (ISale.customerId invoice)
             (ISale.customerName invoice) (ISale.items invoice)
             (ISale.totalAmount invoice) (ISale.cashierId invoice)
             (ISale.cashierName invoice) (ISale.status invoice)
             payment_failed
             (ISale.paymentMethod invoice) (ISale.razorpayOrderId invoice)
             (ISale.razorpayPaymentId invoice)
             (ISale.razorpaySignature invoice)
         ∧ out = Sent (next
                   (mkAppError "Invalid payment signature" 400 None)))
    ∧ invoices_verify_payment ENV body (with_Sale (<[i := invoice']>) w)
      = (with_Sale (<[i := invoice']>) w, out)
    ∧ (ISale.status invoice = status_completed →
       ISale.status invoice' = status_completed).
Proof.
  intros Hv Hf.
  assert (Hid : ISale.invoiceId invoice = VerifyBody.invoiceId body).
  { by apply list_find_Some in Hf as (_ & ? & _). }
  destruct (verifyPaymentSignature ENV (VerifyBody.razorpay_order_id body)
              (VerifyBody.razorpay_payment_id body)
              (VerifyBody.razorpay_signature body)) eqn:Hsig.
  - eexists _, _. split; [|split; [split; reflexivity|split]].
    + by apply verify_payment_good_signature.
    + match goal with
      | |- invoices_verify_payment _ _ (with_Sale (<[_ := ?x]>) _) = _ =>
          rewrite (verify_payment_good_signature ENV body
                     (with_Sale (<[i := x]>) w) i x Hv
                     (list_find_update _ _ _ _ x Hf Hid) Hsig)
      end.
      unfold with_Sale. cbn. by rewrite list_insert_insert_eq.
    + done.
  - eexists _, _. split; [|split; [split; reflexivity|split]].
    + by apply verify_payment_bad_signature.
    + match goal with
      | |- invoices_verify_payment _ _ (with_Sale (<[_ := ?x]>) _) = _ =>
          rewrite (verify_payment_bad_signature ENV body
                     (with_Sale (<[i := x]>) w) i x Hv
                     (list_find_update _ _ _ _ x Hf Hid) Hsig)
      end.
      unfold with_Sale. cbn. by rewrite list_insert_insert_eq.
    + done.
Qed.

(** The statement of C3 fails on a settled order: a confirmation with a
    made-up signature for the Paid order ["INV-7"] changes its
    [paymentStatus] to Failed; and the pending order ["INV-8"], once
    Failed by such a confirmation, is marked Paid by a later one with a
    valid signature. *)
Lemma paid_order_can_be_marked_failed :
  let w1 := (invoices_verify_payment ENV0 (forged "INV-7") store1).1 in
  let w2 := (invoices_verify_payment ENV0 (forged "INV-8") store1).1 in
  let w3 := (invoices_verify_payment ENV0 signed_for_order_9 w2).1 in
  ISale.paymentStatus <$> Sale store1 !! 0%nat = Some payment_paid
  ∧ ISale.paymentStatus <$> Sale w1 !! 0%nat = Some payment_failed
  ∧ Sale w1 ≠ Sale store1
  ∧ ISale.paymentStatus <$> Sale w2 !! 1%nat = Some payment_failed
  ∧ ISale.paymentStatus <$> Sale w3 !! 1%nat = Some payment_paid.
Proof.
  cbv zeta. split; [|split; [|split; [|split]]].
  - vm_compute. reflexivity.
  - vm_compute. reflexivity.
  - assert (H : ISale.paymentStatus
                  <$> Sale (invoices_verify_payment ENV0 (forged "INV-7")
                              store1).1 !! 0%nat
                = Some payment_failed) by (vm_compute; reflexivity).
    intros Heq. rewrite Heq in H. cbn in H. discriminate H.
  - vm_compute. reflexivity.
  - vm_compute. reflexivity.
Qed.

(** The amended statement on the forged confirmation for the Paid order. *)
Lemma confirmation_reverifies_every_call_witness :
  verify_body_valid (forged "INV-7") = true
  ∧ list_find (λ s, ISale.invoiceId s = "INV-7") (Sale store1)
    = Some (0%nat, paid_order)
  ∧ ISale.paymentStatus paid_order = payment_paid
  ∧ verifyPaymentSignature ENV0 "order_1" "pay_1" "deadbeef" = false
  ∧ ∃ invoice' out,
      invoices_verify_payment ENV0 (forged "INV-7") store1
      = (with_Sale (<[0%nat := invoice']>) store1, out)
      ∧ (if verifyPaymentSignature ENV0 "order_1" "pay_1" "deadbeef"
         then
           invoice' =
             ISale.mk "INV-7" None "" cart_ok 22 "u1" "asha"
               status_completed payment_paid cash None
               (Some "pay_1") (Some "deadbeef")
           ∧ out = Sent (res_json 200 (body_payment_verified invoice'))
         else
           invoice' =
             ISale.mk "INV-7" None "" cart_ok 22 "u1" "asha"
               status_completed payment_failed cash None None None
           ∧ out = Sent (next
                     (mkAppError "Invalid payment signature" 400 None)))
      ∧ invoices_verify_payment ENV0 (forged "INV-7")
          (with_Sale (<[0%nat := invoice']>) store1)
        = (with_Sale (<[0%nat := invoice']>) store1, out)
      ∧ (ISale.status paid_order = status_completed →
         ISale.status invoice' = status_completed).
Proof.
  split; [reflexivity|]. split; [reflexivity|]. split; [reflexivity|].
  split; [vm_compute; reflexivity|].
  apply (confirmation_reverifies_every_call ENV0 (forged "INV-7") store1
           0%nat paid_order); reflexivity.
Defined.

(** One confirmation with an invalid signature leaves each stored order
    as it was or with its [paymentStatus] set to Failed. *)
Lemma invalid_confirmation_step ENV body (w : World) :
  verifyPaymentSignature ENV (VerifyBody.razorpay_order_id body)
    (VerifyBody.razorpay_payment_id body)
    (VerifyBody.razorpay_signature body) = false →
  ∀ j s, Sale w !! j = Some s →
    ∃ s', Sale (invoices_verify_payment ENV body w).1 !! j = Some s'
          ∧ (s' = s ∨ s' = ISale.set_paymentStatus s payment_failed).
Proof.
  intros Hsig j s Hj.
  destruct (verify_body_valid body) eqn:Hv.
  2:{ rewrite verify_payment_invalid_body by done. eauto. }
  destruct (list_find (λ s, ISale.invoiceId s = VerifyBody.invoiceId body)
              (Sale w)) as [[i invoice]|] eqn:Hf.
  2:{ rewrite verify_payment_not_found by done. eauto. }
  rewrite (verify_payment_bad_signature _ _ _ _ _ Hv Hf Hsig). cbn.
  apply list_find_Some in Hf as (Hi & _ & _).
  destruct (decide (i = j)) as [->|Hne].
  - rewrite list_lookup_insert_eq by eauto using lookup_lt_Some.
    simplify_eq. eauto.
  - rewrite list_lookup_insert_ne by done. eauto.
Qed.

Lemma invalid_confirmations_never_pay ENV (bodies : list VerifyBody.t) :
  Forall (λ b, verifyPaymentSignature ENV (VerifyBody.razorpay_order_id b)
                 (VerifyBody.razorpay_payment_id b)
                 (VerifyBody.razorpay_signature b) = false) bodies →
  ∀ w j s, Sale w !! j = Some s →
    ∃ s', Sale (confirmations ENV bodies w) !! j = Some s'
          ∧ ISale.status s' = ISale.status s
          ∧ (ISale.paymentStatus s' = ISale.paymentStatus s
             ∨ ISale.paymentStatus s' = payment_failed).
Proof.
  induction 1 as [|b bodies Hb _ IH]; intros w j s Hj; cbn.
  - eauto.
  - destruct (invalid_confirmation_step ENV b w Hb j s Hj)
      as (s1 & Hj1 & Hs1).
    destruct (IH _ j s1 Hj1) as (s' & Hj' & Hst & Hpay).
    exists s'. split; [done|].
    destruct Hs1 as [->| ->]; cbn in *; split; auto.
    destruct Hpay; auto.
Qed.

(** C5: a confirmation with an invalid signature for a pending order is
    answered with an error (400), sets the order's [paymentStatus] to
    Failed and leaves its [status] as it was; and however many more
    confirmations with invalid signatures follow, for this or any other
    invoice, the order stays Failed with the same [status], so it never
    becomes Paid. *)
Theorem invalid_signature_marks_failed ENV body (w : World) (i : nat)
    (invoice : ISale.t) :
  verify_body_valid body = true →
  list_find (λ s, ISale.invoiceId s = VerifyBody.invoiceId body) (Sale w)
  = Some (i, invoice) →
  ISale.paymentStatus invoice = payment_pending →
  verifyPaymentSignature ENV (VerifyBody.razorpay_order_id body)
    (VerifyBody.razorpay_payment_id body)
    (VerifyBody.razorpay_signature body) = false →
  (∃ w' invoice',
     invoices_verify_payment ENV body w
     = (w', Sent (next (mkAppError "Invalid payment signature" 400 None)))
     ∧ list_find (λ s, ISale.invoiceId s = VerifyBody.invoiceId body)
         (Sale w') = Some (i, invoice')
     ∧ ISale.paymentStatus invoice' = payment_failed
     ∧ ISale.status invoice' = ISale.status invoice)
  ∧ ∀ bodies,
      Forall (λ b, verifyPaymentSignature ENV (VerifyBody.razorpay_order_id b)
                     (VerifyBody.razorpay_payment_id b)
                     (VerifyBody.razorpay_signature b) = false) bodies →
      ∃ s, Sale (confirmations ENV (body :: bodies) w) !! i = Some s
           ∧ ISale.paymentStatus s = payment_failed
           ∧ ISale.paymentStatus s ≠ payment_paid
           ∧ ISale.status s = ISale.status invoice.
Proof.
  intros Hv Hf Hpending Hsig.
  assert (Hid : ISale.invoiceId invoice = VerifyBody.invoiceId body).
  { by apply list_find_Some in Hf as (_ & ? & _). }
  pose proof (verify_payment_bad_signature ENV body w i invoice Hv Hf Hsig)
    as Hrun.
  split.
  - exists (with_Sale
              (<[i := ISale.set_paymentStatus invoice payment_failed]>) w),
      (ISale.set_paymentStatus invoice payment_failed).
    split; [exact Hrun|]. split; [|done].
    cbn. by apply (list_find_update _ _ _ invoice).
  - intros bodies Hall. cbn. rewrite Hrun. cbn.
    assert (Hi : (<[i := ISale.set_paymentStatus invoice payment_failed]>
                    (Sale w)) !! i
                 = Some (ISale.set_paymentStatus invoice payment_failed)).
    { apply list_find_Some in Hf as (Hi & _ & _).
      rewrite list_lookup_insert_eq by eauto using lookup_lt_Some. done. }
    destruct (invalid_confirmations_never_pay ENV bodies Hall
                (with_Sale
                   (<[i := ISale.set_paymentStatus invoice payment_failed]>)
                   w) i _ Hi)
      as (s & Hs & Hst & Hpay).
    exists s. split; [exact Hs|]. cbn in Hst, Hpay.
    assert (Hfailed : ISale.paymentStatus s = payment_failed)
      by (destruct Hpay; done).
    split; [done|]. split; [by rewrite Hfailed|done].
Qed.

(** Four forged confirmations in a row, three of them for ["INV-8"]. *)
Lemma invalid_signature_marks_failed_witness :
  let bodies := [forged "INV-8"; forged "INV-7"; forged "INV-8"] in
  ∃ s, Sale (confirmations ENV0 (forged "INV-8" :: bodies) store1) !! 1%nat
       = Some s
       ∧ ISale.paymentStatus s = payment_failed
       ∧ ISale.paymentStatus s ≠ payment_paid
       ∧ ISale.status s = status_pending.
Proof.
  cbv zeta.
  apply (invalid_signature_marks_failed ENV0 (forged "INV-8") store1
           1%nat pending_order).
  - reflexivity.
  - reflexivity.
  - reflexivity.
  - vm_compute. reflexivity.
  - repeat (constructor; [vm_compute; reflexivity|]). constructor.
Defined.

(** ** The confirmation is not tied to the gateway order *)

(** C10: a confirmation whose signature verifies settles the pending
    order it names by [invoiceId], whatever gateway order id is stored on
    that order: the order becomes Completed/Paid, the payment id and
    signature of the request are recorded, and the stored gateway order
    id stays what it was, equal to the one in the request or not.  The
    handler compares the two nowhere; the instance below settles an order
    opened as ["order_1"] with a confirmation signed for ["order_9"]. *)
Theorem confirmation_not_bound_to_gateway_order ENV body (w : World)
    (i : nat) (invoice : ISale.t) :
  verify_body_valid body = true →
  list_find (λ s, ISale.invoiceId s = VerifyBody.invoiceId body) (Sale w)
  = Some (i, invoice) →
  ISale.paymentStatus invoice = payment_pending →
  verifyPaymentSignature ENV (VerifyBody.razorpay_order_id body)
    (VerifyBody.razorpay_payment_id body)
    (VerifyBody.razorpay_signature body) = true →
  ∃ invoice',
    invoices_verify_payment ENV body w
    = (with_Sale (<[i := invoice']>) w,
       Sent (res_json 200 (body_payment_verified invoice')))
    ∧ ISale.invoiceId invoice' = VerifyBody.invoiceId body
    ∧ ISale.status invoice' = status_completed
    ∧ ISale.paymentStatus invoice' = payment_paid
    ∧ ISale.razorpayPaymentId invoice'
      = Some (VerifyBody.razorpay_payment_id body)
    ∧ ISale.razorpaySignature invoice'
      = Some (VerifyBody.razorpay_signature body)
    ∧ ISale.razorpayOrderId invoice' = ISale.razorpayOrderId invoice.
Proof.
  intros Hv Hf _ Hsig.
  assert (Hid : ISale.invoiceId invoice = VerifyBody.invoiceId body).
  { by apply list_find_Some in Hf as (_ & ? & _). }
  eexists. split.
  - by apply verify_payment_good_signature.
  - cbn. done.
Qed.

(** The order opened as ["order_1"] is settled by a confirmation signed
    for ["order_9"]. *)
Lemma confirmation_not_bound_to_gateway_order_witness :
  ISale.razorpayOrderId pending_order = Some "order_1"
  ∧ VerifyBody.razorpay_order_id signed_for_order_9 = "order_9"
  ∧ ∃ invoice',
      invoices_verify_payment ENV0 signed_for_order_9 store1
      = (with_Sale (<[1%nat := invoice']>) store1,
         Sent (res_json 200 (body_payment_verified invoice')))
      ∧ ISale.invoiceId invoice' = "INV-8"
      ∧ ISale.status invoice' = status_completed
      ∧ ISale.paymentStatus invoice' = payment_paid
      ∧ ISale.razorpayPaymentId invoice' = Some "pay_9"
      ∧ ISale.razorpaySignature invoice'
        = Some (VerifyBody.razorpay_signature signed_for_order_9)
      ∧ ISale.razorpayOrderId invoice' = Some "order_1".
Proof.
  split; [reflexivity|]. split; [reflexivity|].
  apply (confirmation_not_bound_to_gateway_order ENV0 signed_for_order_9
           store1 1%nat pending_order).
  - reflexivity.
  - reflexivity.
  - reflexivity.
  - vm_compute. reflexivity.
Defined.

(** ** What a checkout stores *)

Lemma invoices_loop_refusal (items : list Item.t) :
  ∀ w w1 r,
    for_of items invoices_reserve_item w = (w1, Sent r) →
    ∃ err, r = next err ∧ (statusCode err = 400 ∨ statusCode err = 404).
Proof.
  induction items as [|item rest IH]; intros w w1 r; [done|].
  rewrite for_of_cons.
  unfold invoices_reserve_item at 1.
  unfold Product_findById, mbind, Async_bind, reply, product_save.
  destruct (Product w !! Item.productId item) as [product|].
  - destruct (IProduct.stock product <? Item.quantity item).
    + intros [= <- <-]. eauto.
    + apply IH.
  - intros [= <- <-]. eauto.
Qed.

(** A checkout through [POST /api/invoices] either stores nothing and
    answers with an error, or appends one order that carries the
    [invoiceId] of the request, the items and the [totalAmount] of the
    body, under an [invoiceId] no stored order has. *)
Lemma invoices_post_sale ENV razorpay user body invoiceId (w : World) :
  ∃ w' out,
    invoices_post ENV razorpay user body invoiceId w = (w', out)
    ∧ ((Sale w' = Sale w
        ∧ ∃ err, out = Sent (next err)
                 ∧ (statusCode err = 400 ∨ statusCode err = 404
                    ∨ statusCode err = 500))
       ∨ (∃ invoice b,
            Sale w' = (Sale w ++ [invoice])%list
            ∧ out = Sent (res_json 201 b)
            ∧ ISale.invoiceId invoice = invoiceId
            ∧ ISale.items invoice = InvoiceBody.items body
            ∧ ISale.totalAmount invoice = InvoiceBody.totalAmount body
            ∧ list_find (λ s, ISale.invoiceId s = invoiceId) (Sale w)
              = None)).
Proof.
  destruct (invoices_post_cases ENV razorpay user body invoiceId w)
    as [(err & Heq & Hst)|(Hv & Hc & w1 & out1 & Hloop & HC & HS & HR & Hout)].
  { eexists _, _. split; [exact Heq|]. left. split; [done|].
    exists err. intuition. }
  destruct out1 as [[]|r|e]; [| |done].
  2:{ eexists _, _. split; [exact Hout|]. left. split; [done|].
      destruct (invoices_loop_refusal _ _ _ _ Hloop) as (err & -> & Hst).
      exists err. intuition. }
  rewrite (invoices_post_loop_done _ _ _ _ _ _ _ Hv Hc Hloop).
  rewrite HS.
  destruct (InvoiceBody.paymentMethod body) as [[|]|];
    [| destruct (razorpay _) | destruct (razorpay _)];
    try destruct (list_find _ (Sale w)) eqn:Hfind;
    eexists _, _; (split; [reflexivity|]); cbn; rewrite ?HS;
    try (left; split; [reflexivity|]; eexists; split; [reflexivity|];
         cbn; auto; fail);
    right; eexists _, _; repeat split; reflexivity.
Qed.

Lemma sales_loop_refusal (items : list Item.t) :
  ∀ w w1 r,
    for_of items sales_reserve_item w = (w1, Sent r) →
    ∃ b, r = res_json 400 b ∨ r = res_json 404 b.
Proof.
  induction items as [|item rest IH]; intros w w1 r; [done|].
  rewrite for_of_cons.
  unfold sales_reserve_item at 1.
  unfold Product_findById, mbind, Async_bind, reply, product_save.
  destruct (Product w !! Item.productId item) as [product|].
  - destruct (IProduct.stock product <? Item.quantity item).
    + intros [= <- <-]. eauto.
    + apply IH.
  - intros [= <- <-]. eauto.
Qed.

(** The same for [POST /api/sales]: the stored order carries the total
    the handler computed from the items. *)
Lemma sales_post_sale ENV razorpay body now_receipt now_invoice (w : World) :
  ∃ w' out,
    sales_post ENV razorpay body now_receipt now_invoice w = (w', out)
    ∧ ((Sale w' = Sale w
        ∧ ∃ s b, out = Sent (res_json s b) ∧ (s = 400 ∨ s = 404 ∨ s = 500))
       ∨ (∃ sale b,
            Sale w' = (Sale w ++ [sale])%list
            ∧ out = Sent (res_json 201 b)
            ∧ ISale.invoiceId sale = "INV-" +:+ pretty now_invoice
            ∧ ISale.items sale = SaleBody.items body
            ∧ ISale.totalAmount sale = reduce_total (SaleBody.items body)
            ∧ list_find
                (λ s, ISale.invoiceId s = "INV-" +:+ pretty now_invoice)
                (Sale w) = None)).
Proof.
  destruct (for_of_reserve _ sales_reserve_item_body (SaleBody.items body) w)
    as (w1 & out1 & Hloop & _ & HS & _ & Hout).
  destruct out1 as [[]|r|e]; [| |done].
  2:{ exists w1, (Sent r). split; [by apply sales_post_loop_failed|].
      left. split; [done|].
      destruct (sales_loop_refusal _ _ _ _ Hloop) as (b & [-> | ->]);
        eexists _, _; eauto. }
  rewrite (sales_post_loop_done _ _ _ _ _ _ _ Hloop). cbv zeta. rewrite HS.
  destruct (razorpay _);
    try destruct (list_find _ (Sale w)) eqn:Hfind;
    eexists _, _; (split; [reflexivity|]); cbn; rewrite ?HS;
    try (left; split; [reflexivity|]; eexists _, _; split; [reflexivity|];
         auto; fail);
    right; eexists _, _; repeat split; reflexivity.
Qed.

(** C6, as amended: an order stored by [POST /api/sales] has as
    [totalAmount] the totals of its line items added up from left to
    right in binary64 arithmetic, starting from 0; that is the sum of the
    line totals when these are whole numbers, none negative, with a sum
    below 2^53, and need not be otherwise.  An order stored by
    [POST /api/invoices] has the [totalAmount] of the request body, which
    the handler does not compare with the line totals. *)
Theorem stored_total_of_checkout :
  (∀ ENV razorpay body now_receipt now_invoice w,
     let w' := (sales_post ENV razorpay body now_receipt now_invoice w).1 in
     Sale w' = Sale w
     ∨ ∃ sale, Sale w' = (Sale w ++ [sale])%list
               ∧ ISale.items sale = SaleBody.items body
               ∧ ISale.totalAmount sale
                 = fold_left (λ sum item, Number_add sum (Item.total item))
                     (ISale.items sale) 0%Q
               ∧ (Forall whole_total (ISale.items sale) →
                  (sum_lineTotal (ISale.items sale) < inject_Z (2 ^ 53))%Q →
                  (ISale.totalAmount sale
                   == sum_lineTotal (ISale.items sale))%Q))
  ∧ (∀ ENV razorpay user body invoiceId w,
     let w' := (invoices_post ENV razorpay user body invoiceId w).1 in
     Sale w' = Sale w
     ∨ ∃ sale, Sale w' = (Sale w ++ [sale])%list
               ∧ ISale.items sale = InvoiceBody.items body
               ∧ ISale.totalAmount sale = InvoiceBody.totalAmount body)
  ∧ ¬ (∀ ENV razorpay body now_receipt now_invoice w sale,
         Sale (sales_post ENV razorpay body now_receipt now_invoice w).1
         = (Sale w ++ [sale])%list →
         (ISale.totalAmount sale == sum_lineTotal (ISale.items sale))%Q).
Proof.
  split; [|split].
  3:{ intros H.
      pose proof (H ENV0 gateway_up
                    (SaleBody.mk cart_dimes None None "u1" "asha")
                    1700000000000 1700000000001 store0 _ eq_refl) as Hsum.
      vm_compute in Hsum. discriminate Hsum. }
  - intros ENV razorpay body now_receipt now_invoice w.
    destruct (sales_post_sale ENV razorpay body now_receipt now_invoice w)
      as (w' & out & -> & [[HS _]|(sale & b & HS & _ & _ & Hit & Htot & _)]);
      cbn; [by left|right].
    exists sale. split; [done|]. split; [done|]. rewrite Htot, Hit.
    split; [reflexivity|]. apply reduce_total_whole.
  - intros ENV razorpay user body invoiceId w.
    destruct (invoices_post_sale ENV razorpay user body invoiceId w)
      as (w' & out & -> & [[HS _]|(sale & b & HS & _ & _ & Hit & Htot & _)]);
      cbn; [by left|right].
    exists sale. done.
Qed.

(** The amended statement on a sale of two units of aspirin and one
    bandage: the stored total is 22, the sum of the line totals. *)
Lemma stored_total_of_checkout_witness :
  let body := SaleBody.mk cart_ok None None "u1" "asha" in
  ∃ sale,
    Sale (sales_post ENV0 gateway_up body 1700000000000 1700000000001
            store0).1 = [sale]
    ∧ (ISale.totalAmount sale == 22)%Q.
Proof.
  cbv zeta.
  destruct (proj1 stored_total_of_checkout ENV0 gateway_up
              (SaleBody.mk cart_ok None None "u1" "asha")
              1700000000000 1700000000001 store0)
    as [H|(sale & HS & Hit & _ & Hsum)].
  - vm_compute in H. discriminate H.
  - exists sale. split; [exact HS|].
    rewrite Hit in Hsum. rewrite Hsum; [reflexivity| |reflexivity].
    repeat constructor; discriminate.
Defined.

(** The statement of C6 fails on both routes.  On [POST /api/invoices], a
    cash checkout whose lines add up to 22 and whose body says 23.5 is
    stored with [totalAmount] 23.5.  On [POST /api/sales], a sale of two
    lines with the totals 0.1 and 0.2, as [JSON.parse] reads them, is
    stored with 0.30000000000000004, which is not the sum of the two. *)
Lemma invoice_total_not_sum_of_lines :
  (let body := InvoiceBody.mk None None cart_ok 23.5 (Some cash) in
   let w' := (invoices_post ENV0 gateway_up cashier0 body "INV-1" store0).1 in
   ∃ sale, Sale w' = [sale]
           ∧ (sum_lineTotal (ISale.items sale) == 22)%Q
           ∧ (ISale.totalAmount sale == 23.5)%Q
           ∧ ¬ (ISale.totalAmount sale == sum_lineTotal (ISale.items sale))%Q)
  ∧ (let body := SaleBody.mk cart_dimes None None "u1" "asha" in
     let w' := (sales_post ENV0 gateway_up body 1700000000000 1700000000001
                  store0).1 in
     ∃ sale, Sale w' = [sale]
             ∧ ISale.items sale = cart_dimes
             ∧ (sum_lineTotal cart_dimes == binary64 0.1 + binary64 0.2)%Q
             ∧ (ISale.totalAmount sale
                == 0.3000000000000000444089209850062616169452667236328125)%Q
             ∧ ¬ (ISale.totalAmount sale
                  == sum_lineTotal (ISale.items sale))%Q).
Proof.
  cbv zeta. split.
  - eexists. split; [vm_compute; reflexivity|].
    repeat split; try (vm_compute; reflexivity).
    vm_compute. discriminate.
  - eexists. split; [vm_compute; reflexivity|].
    repeat split; try (vm_compute; reflexivity).
    vm_compute. discriminate.
Qed.

(** ** The signature check *)

(** C7: [verifyPaymentSignature] answers [true] exactly when the given
    signature is the hex digest of HMAC-SHA256, keyed with the gateway
    secret, of the order id, a bar and the payment id; of [ENV] it reads
    the secret only, and it reads nothing of the store. *)
Theorem verifyPaymentSignature_spec :
  (∀ ENV orderId paymentId signature,
     verifyPaymentSignature ENV orderId paymentId signature = true
     ↔ signature
       = Crypto.createHmac_sha256_hex (Env.RAZORPAY_KEY_SECRET ENV)
           (orderId +:+ "|" +:+ paymentId))
  ∧ (∀ key_id key_id' secret orderId paymentId signature,
     verifyPaymentSignature (Env.mk key_id secret) orderId paymentId signature
     = verifyPaymentSignature (Env.mk key_id' secret) orderId paymentId
         signature).
Proof.
  split.
  - intros ENV orderId paymentId signature. unfold verifyPaymentSignature.
    rewrite String.eqb_eq. split; intros H; by symmetry.
  - reflexivity.
Qed.

Example verifyPaymentSignature_accepts :
  verifyPaymentSignature ENV0 "order_9" "pay_9"
    "4015462750bad53a460683265463d425b36c9264d4d5f16193115ccd5edfba41" = true.
Proof. vm_compute. reflexivity. Qed.

Example verifyPaymentSignature_rejects_upper_case :
  verifyPaymentSignature ENV0 "order_9" "pay_9"
    "4015462750BAD53A460683265463D425B36C9264D4D5F16193115CCD5EDFBA41" = false.
Proof. vm_compute. reflexivity. Qed.

Example verifyPaymentSignature_rejects_other_payment :
  verifyPaymentSignature ENV0 "order_9" "pay_8"
    "4015462750bad53a460683265463d425b36c9264d4d5f16193115ccd5edfba41" = false.
Proof. vm_compute. reflexivity. Qed.

(** ** Invoice ids *)

Lemma list_find_invoiceId_None (invoiceId : string) (l : list ISale.t) :
  list_find (λ s, ISale.invoiceId s = invoiceId) l = None ↔
  invoiceId ∉ ISale.invoiceId <$> l.
Proof.
  rewrite list_find_None, Forall_forall, list_elem_of_fmap. split.
  - intros H (s & -> & Hs). by apply (H s).
  - intros H s Hs Heq. apply H. exists s. by split.
Qed.

Lemma NoDup_invoiceId_snoc (l : list ISale.t) (sale : ISale.t) :
  NoDup (ISale.invoiceId <$> l) →
  list_find (λ s, ISale.invoiceId s = ISale.invoiceId sale) l = None →
  NoDup (ISale.invoiceId <$> (l ++ [sale])%list).
Proof.
  intros Hnd Hfind%list_find_invoiceId_None.
  rewrite fmap_app. apply NoDup_app. split; [done|]. split.
  - intros x Hx Hx'. cbn in Hx'. apply list_elem_of_singleton in Hx'.
    by subst.
  - cbn. apply NoDup_singleton.
Qed.

(** C8: the unique index on [invoiceId] keeps every handler that writes
    orders from storing two orders under one invoice id, and a checkout
    that is given a stored invoice id stores nothing and overwrites
    nothing.  The checkout is not refused as a Conflict, though: it is
    never answered with 409, and when it gets as far as saving the order
    (stock loop through, and a cash payment or a gateway that opens the
    order) the answer is the generic ["Server error"] with status 500.
    By then the checkout has had its effects: every requested unit stays
    deducted from the stock, and for an electronic payment the gateway
    has opened an order for it. *)
Theorem duplicate_invoice_id_is_server_error :
  (∀ ENV razorpay user body invoiceId w w' out,
     invoices_post ENV razorpay user body invoiceId w = (w', out) →
     invoiceId ∈ ISale.invoiceId <$> Sale w →
     Sale w' = Sale w
     ∧ ∃ err, out = Sent (next err) ∧ statusCode err ≠ 409
              ∧ (statusCode err = 400 ∨ statusCode err = 404
                 ∨ statusCode err = 500))
  ∧ (∀ ENV razorpay user body invoiceId w w1,
     invoice_body_valid body = true →
     customer_known (InvoiceBody.customerId body) w →
     for_of (InvoiceBody.items body) invoices_reserve_item w
     = (w1, Value tt) →
     (InvoiceBody.paymentMethod body = Some cash
      ∨ ∀ o, ∃ oid, razorpay o = Created oid) →
     invoiceId ∈ ISale.invoiceId <$> Sale w →
     let w' := (invoices_post ENV razorpay user body invoiceId w).1 in
     (∃ details,
        (invoices_post ENV razorpay user body invoiceId w).2
        = Sent (next (mkAppError "Server error" 500 details)))
     ∧ Sale w' = Sale w
     ∧ decremented (InvoiceBody.items body) (Product w) (Product w')
     ∧ (InvoiceBody.paymentMethod body ≠ Some cash →
        ∃ o, razorpay_calls w' = (razorpay_calls w ++ [o])%list
             ∧ OrderOptions.receipt o = invoiceId))
  ∧ (∀ ENV razorpay body now_receipt now_invoice w w1,
     for_of (SaleBody.items body) sales_reserve_item w = (w1, Value tt) →
     (∀ o, ∃ oid, razorpay o = Created oid) →
     "INV-" +:+ pretty now_invoice ∈ ISale.invoiceId <$> Sale w →
     let w' := (sales_post ENV razorpay body now_receipt now_invoice w).1 in
     (sales_post ENV razorpay body now_receipt now_invoice w).2
     = Sent (res_json 500 (body_message "Server error"))
     ∧ Sale w' = Sale w
     ∧ decremented (SaleBody.items body) (Product w) (Product w')
     ∧ ∃ o, razorpay_calls w' = (razorpay_calls w ++ [o])%list)
  ∧ (∀ ENV razorpay user body invoiceId w,
     NoDup (ISale.invoiceId <$> Sale w) →
     NoDup (ISale.invoiceId
              <$> Sale (invoices_post ENV razorpay user body invoiceId w).1))
  ∧ (∀ ENV razorpay body now_receipt now_invoice w,
     NoDup (ISale.invoiceId <$> Sale w) →
     NoDup (ISale.invoiceId
              <$> Sale (sales_post ENV razorpay body now_receipt
                          now_invoice w).1))
  ∧ (∀ ENV body w,
     NoDup (ISale.invoiceId <$> Sale w) →
     NoDup (ISale.invoiceId <$> Sale (invoices_verify_payment ENV body w).1)).
Proof.
  split; [|split; [|split; [|split; [|split]]]].
  - intros ENV razorpay user body invoiceId w w' out Hrun Hdup.
    destruct (invoices_post_sale ENV razorpay user body invoiceId w)
      as (w'' & out' & Heq & Hcase).
    rewrite Hrun in Heq. simplify_eq.
    destruct Hcase as [[HS (err & -> & Hst)]|(s & b & _ & _ & _ & _ & _ & Hf)].
    + split; [done|]. exists err. split; [done|]. split; [lia|done].
    + apply list_find_invoiceId_None in Hf. done.
  - intros ENV razorpay user body invoiceId w w1 Hv Hc Hloop Hpay Hdup.
    cbv zeta.
    rewrite (invoices_post_loop_done _ _ _ _ _ _ _ Hv Hc Hloop).
    destruct (for_of_reserve _ invoices_reserve_item_body
                (InvoiceBody.items body) w)
      as (w2 & out2 & Hloop2 & _ & HS & HR & Hdec).
    rewrite Hloop in Hloop2. symmetry in Hloop2. simplify_eq.
    rewrite HS.
    destruct (list_find (λ s, ISale.invoiceId s = invoiceId) (Sale w))
      as [found|] eqn:Hf.
    2:{ apply list_find_invoiceId_None in Hf. done. }
    destruct (InvoiceBody.paymentMethod body) as [[|]|] eqn:Hm.
    + cbn. split; [by eexists|]. split; [done|]. split; [done|]. done.
    + destruct Hpay as [?|Hup]; [done|].
      match goal with |- context [razorpay ?o] =>
        destruct (Hup o) as [oid ->] end.
      cbn. rewrite HR. split; [by eexists|]. split; [done|].
      split; [done|]. intros _. eexists. split; reflexivity.
    + destruct Hpay as [?|Hup]; [done|].
      match goal with |- context [razorpay ?o] =>
        destruct (Hup o) as [oid ->] end.
      cbn. rewrite HR. split; [by eexists|]. split; [done|].
      split; [done|]. intros _. eexists. split; reflexivity.
  - intros ENV razorpay body now_receipt now_invoice w w1 Hloop Hup Hdup.
    cbv zeta. rewrite (sales_post_loop_done _ _ _ _ _ _ _ Hloop). cbv zeta.
    destruct (for_of_reserve _ sales_reserve_item_body
                (SaleBody.items body) w)
      as (w2 & out2 & Hloop2 & _ & HS & HR & Hdec).
    rewrite Hloop in Hloop2. symmetry in Hloop2. simplify_eq.
    rewrite HS.
    destruct (list_find
                (λ s, ISale.invoiceId s = "INV-" +:+ pretty now_invoice)
                (Sale w)) as [found|] eqn:Hf.
    2:{ apply list_find_invoiceId_None in Hf. done. }
    match goal with |- context [razorpay ?o] =>
      destruct (Hup o) as [oid ->] end.
    cbn. rewrite HR. split; [done|]. split; [done|]. split; [done|].
    by eexists.
  - intros ENV razorpay user body invoiceId w Hnd.
    destruct (invoices_post_sale ENV razorpay user body invoiceId w)
      as (w' & out & -> & [[HS _]|(s & b & HS & _ & Hid & _ & _ & Hf)]);
      cbn; rewrite HS; [done|].
    apply NoDup_invoiceId_snoc; [done|]. by rewrite Hid.
  - intros ENV razorpay body now_receipt now_invoice w Hnd.
    destruct (sales_post_sale ENV razorpay body now_receipt now_invoice w)
      as (w' & out & -> & [[HS _]|(s & b & HS & _ & Hid & _ & _ & Hf)]);
      cbn; rewrite HS; [done|].
    apply NoDup_invoiceId_snoc; [done|]. by rewrite Hid.
  - intros ENV body w Hnd.
    destruct (verify_body_valid body) eqn:Hv.
    2:{ by rewrite verify_payment_invalid_body. }
    destruct (list_find (λ s, ISale.invoiceId s = VerifyBody.invoiceId body)
                (Sale w)) as [[i invoice]|] eqn:Hf.
    2:{ by rewrite verify_payment_not_found. }
    assert (Hi : Sale w !! i = Some invoice).
    { by apply list_find_Some in Hf as (? & _ & _). }
    assert (Hkeep : ∀ invoice',
      ISale.invoiceId invoice' = ISale.invoiceId invoice →
      ISale.invoiceId <$> <[i := invoice']> (Sale w)
      = ISale.invoiceId <$> Sale w).
    { intros invoice' Hid. rewrite list_fmap_insert, Hid.
      apply list_insert_id. by rewrite list_lookup_fmap, Hi. }
    destruct (verifyPaymentSignature ENV (VerifyBody.razorpay_order_id body)
                (VerifyBody.razorpay_payment_id body)
                (VerifyBody.razorpay_signature body)) eqn:Hsig.
    + rewrite (verify_payment_good_signature _ _ _ _ _ Hv Hf Hsig). cbn.
      by rewrite Hkeep.
    + rewrite (verify_payment_bad_signature _ _ _ _ _ Hv Hf Hsig). cbn.
      by rewrite Hkeep.
Qed.

(** Two instances.  A cash checkout through [POST /api/invoices] that is
    given the id of the stored order ["INV-7"], for two units of aspirin
    and one bandage: it is answered with 500 and not with 409, the stored
    orders are as they were, and the stock has gone from 5 and 4 to 3 and
    3.  And a sale through [POST /api/sales] in the millisecond of the
    sale before it: answered with 500, one order stored as before, the
    aspirin down from 3 to 1 and a second order opened at the gateway. *)
Lemma duplicate_invoice_id_is_server_error_witness :
  (let body := InvoiceBody.mk None None cart_ok 22 (Some cash) in
   let w' := (invoices_post ENV0 gateway_up cashier0 body "INV-7" store1).1 in
   let out := (invoices_post ENV0 gateway_up cashier0 body "INV-7"
                 store1).2 in
   (∃ details, out = Sent (next (mkAppError "Server error" 500 details)))
   ∧ ¬ (∃ r, out = Sent r ∧ http_status r = 409)
   ∧ Sale w' = Sale store1
   ∧ stock_of (Product store1) "p1" = Some 5
   ∧ stock_of (Product w') "p1" = Some 3
   ∧ stock_of (Product store1) "p2" = Some 4
   ∧ stock_of (Product w') "p2" = Some 3)
  ∧ (let body := SaleBody.mk cart_ok None None "u1" "asha" in
     let w' := (sales_post ENV0 gateway_up body 1700000000001 1700000000001
                  store_after_sale).1 in
     let out := (sales_post ENV0 gateway_up body 1700000000001 1700000000001
                   store_after_sale).2 in
     out = Sent (res_json 500 (body_message "Server error"))
     ∧ Sale w' = Sale store_after_sale
     ∧ ISale.invoiceId <$> Sale store_after_sale = ["INV-1700000000001"]
     ∧ stock_of (Product store_after_sale) "p1" = Some 3
     ∧ stock_of (Product w') "p1" = Some 1
     ∧ length (razorpay_calls store_after_sale) = 1%nat
     ∧ length (razorpay_calls w') = 2%nat).
Proof.
  cbv zeta. split.
  - destruct (proj1 (proj2 duplicate_invoice_id_is_server_error)
                ENV0 gateway_up cashier0
                (InvoiceBody.mk None None cart_ok 22 (Some cash)) "INV-7"
                store1
                (for_of cart_ok invoices_reserve_item store1).1)
      as ([details Hout] & HS & Hdec & _).
    + reflexivity.
    + exact I.
    + vm_compute. reflexivity.
    + left. reflexivity.
    + vm_compute. apply list_elem_of_here.
    + split; [by exists details|]. split.
      { intros (r & Hr & Hst). rewrite Hout in Hr. injection Hr as <-.
        discriminate Hst. }
      split; [exact HS|].
      split; [reflexivity|]. split; [rewrite (Hdec "p1"); reflexivity|].
      split; [reflexivity|]. rewrite (Hdec "p2"). reflexivity.
  - destruct (proj1 (proj2 (proj2 duplicate_invoice_id_is_server_error))
                ENV0 gateway_up
                (SaleBody.mk cart_ok None None "u1" "asha")
                1700000000001 1700000000001 store_after_sale
                (for_of cart_ok sales_reserve_item store_after_sale).1)
      as (Hout & HS & Hdec & o & Hcalls).
    + vm_compute. reflexivity.
    + intros o. by eexists.
    + vm_compute. apply list_elem_of_here.
    + split; [exact Hout|]. split; [exact HS|].
      split; [vm_compute; reflexivity|].
      split; [vm_compute; reflexivity|].
      split; [rewrite (Hdec "p1"); vm_compute; reflexivity|].
      split; [vm_compute; reflexivity|].
      rewrite Hcalls, length_app. vm_compute. reflexivity.
Defined.

(** ** The amount sent to the gateway *)

(** [Math_round] is rounding to the nearest integer, halves upwards. *)
Lemma Math_round_spec (x : Q) :
  (inject_Z (Math_round x) <= x + (1 # 2)
   ∧ x + (1 # 2) < inject_Z (Math_round x) + 1)%Q.
Proof.
  unfold Math_round. split.
  - apply Qfloor_le.
  - pose proof (Qlt_floor (x + (1 # 2))) as H.
    rewrite inject_Z_plus in H. exact H.
Qed.

(** [POST /api/invoices] calls the gateway at most once, with the total
    of the body in paise, rounded and raised to 100 if it is less. *)
Lemma invoices_post_gateway_amount ENV razorpay user body invoiceId
    (w : World) :
  let w' := (invoices_post ENV razorpay user body invoiceId w).1 in
  let paise :=
    Math_max (Math_round (Number_mul (InvoiceBody.totalAmount body) 100)) 100 in
  razorpay_calls w' = razorpay_calls w
  ∨ ∃ o, razorpay_calls w' = (razorpay_calls w ++ [o])%list
         ∧ OrderOptions.amount o = inject_Z paise
         ∧ OrderOptions.currency o = "INR"
         ∧ OrderOptions.receipt o = invoiceId
         ∧ 100 ≤ paise
         ∧ (paise = 100
            ∨ paise = Math_round (Number_mul (InvoiceBody.totalAmount body) 100)).
Proof.
  cbv zeta.
  destruct (invoices_post_cases ENV razorpay user body invoiceId w)
    as [(err & -> & _)|(Hv & Hc & w1 & out1 & Hloop & HC & HS & HR & Hout)].
  { by left. }
  destruct out1 as [[]|r|e]; [| |done].
  2:{ rewrite Hout. cbn. by left. }
  rewrite (invoices_post_loop_done _ _ _ _ _ _ _ Hv Hc Hloop).
  assert (Hmax : ∀ a : Z, 100 ≤ Math_max a 100
                          ∧ (Math_max a 100 = 100 ∨ Math_max a 100 = a)).
  { intros a. unfold Math_max. lia. }
  destruct (InvoiceBody.paymentMethod body) as [[|]|];
    [| destruct (razorpay _) | destruct (razorpay _)];
    try destruct (list_find _ (Sale w1));
    cbn; rewrite ?HR; try (by left);
    right; eexists; (split; [reflexivity|]); cbn;
    repeat split; try reflexivity; apply Hmax.
Qed.

(** C9 on [POST /api/sales]: the handler sends [totalAmount * 100] as it
    is.  A sale of one item at 0.5 is sent as 50, where rounding and the
    minimum of 100 give 100; a sale of one item at 2.125 is sent as
    212.5, where rounding gives 213. *)
Theorem sales_post_amount_not_rounded_nor_clamped :
  let half := SaleBody.mk [line "p1" "Aspirin" 1 0.5] None None "u1" "asha" in
  let odd := SaleBody.mk [line "p2" "Bandage" 1 2.125] None None "u1" "asha" in
  let sent (body : SaleBody.t) :=
    OrderOptions.amount
      <$> razorpay_calls
            (sales_post ENV0 gateway_up body 1700000000000 1700000000001
               store0).1 in
  let claimed (body : SaleBody.t) :=
    Math_max (Math_round (reduce_total (SaleBody.items body) * 100)) 100 in
  (∃ a, sent half = [a] ∧ (a == 50)%Q ∧ claimed half = 100)
  ∧ (∃ a, sent odd = [a] ∧ (a == 212.5)%Q ∧ claimed odd = 213)
  ∧ (http_status <$> match (sales_post ENV0 gateway_up half 1700000000000
                              1700000000001 store0).2 with
                     | Sent r => Some r
                     | _ => None
                     end) = Some 201.
Proof.
  cbv zeta. split; [|split].
  - eexists. split; [vm_compute; reflexivity|]. split; vm_compute; reflexivity.
  - eexists. split; [vm_compute; reflexivity|]. split; vm_compute; reflexivity.
  - vm_compute. reflexivity.
Qed.

(** ** Checkouts in flight at the same time *)

Lemma task_run_finished (n : nat) (t : Task) (db : gmap string IProduct.t) :
  finished t = true → task_run n t db = (db, t).
Proof.
  intros Hfin. induction n as [|n IH]; [done|].
  destruct t; try discriminate; cbn; exact IH.
Qed.

Lemma invoices_reserve_item_eq (item : Item.t) (w : World) :
  invoices_reserve_item item w
  = match Product w !! Item.productId item with
    | None =>
        (w, Sent (next (mkAppError
              ("Product " +:+ Item.name item +:+ " not found") 404 None)))
    | Some product =>
        if IProduct.stock product <? Item.quantity item then
          (w, Sent (next (mkAppError
                ("Insufficient stock for " +:+ Item.name item) 400 None)))
        else
          (with_Product
             (<[Item.productId item :=
                  IProduct.set_stock product
                    (IProduct.stock product - Item.quantity item)]>) w,
           Value tt)
    end.
Proof.
  unfold invoices_reserve_item, Product_findById, mbind, Async_bind, reply,
    product_save.
  destruct (Product w !! Item.productId item) as [product|]; [|done].
  by destruct (IProduct.stock product <? Item.quantity item).
Qed.

(** A request that runs without another one in between does what the
    stock loop of the handler does. *)
Lemma task_run_alone (items : list Item.t) :
  ∀ w,
    task_run (2 * length items + 1) (at_findById items) (Product w)
    = (Product (for_of items invoices_reserve_item w).1,
       task_of_outcome (for_of items invoices_reserve_item w).2).
Proof.
  induction items as [|item rest IH]; intros w; [reflexivity|].
  rewrite for_of_cons, invoices_reserve_item_eq.
  replace (2 * length (item :: rest) + 1)%nat
    with (S (S (2 * length rest + 1))) by (cbn; lia).
  cbn [task_run task_step].
  destruct (Product w !! Item.productId item) as [product|].
  - destruct (IProduct.stock product <? Item.quantity item).
    + cbn [task_step]. by rewrite task_run_finished.
    + cbn [task_step].
      pose proof (IH (with_Product
                   (<[Item.productId item :=
                        IProduct.set_stock product
                          (IProduct.stock product - Item.quantity item)]>)
                   w)) as IHw.
      exact IHw.
  - cbn [task_step]. by rewrite task_run_finished.
Qed.

Lemma sys_step_nonneg (s : Sys) (i : nat) :
  nonneg_stock s → nonneg_stock (sys_step s i).
Proof.
  intros [Hdb Htasks]. unfold sys_step.
  destruct (tasks s !! i) as [t|] eqn:Hi; [|done].
  assert (Ht := Forall_lookup_1 _ _ _ _ Htasks Hi). cbn in Ht.
  destruct t as [[|item rest]|id product rest| |r]; cbn.
  - split; [done|]. by apply Forall_insert.
  - destruct (products s !! Item.productId item) as [product|] eqn:Hp.
    + destruct (IProduct.stock product <? Item.quantity item) eqn:Hlt;
        (split; [done|]); apply Forall_insert; try done.
      cbn. lia.
    + split; [done|]. by apply Forall_insert.
  - split; [|by apply Forall_insert].
    intros id' product' Hl. cbn in Hl.
    apply lookup_insert_Some in Hl as [[-> <-]|[_ ?]]; eauto.
  - split; [done|]. by apply Forall_insert.
  - split; [done|]. by apply Forall_insert.
Qed.

Lemma run_nonneg (schedule : list nat) :
  ∀ s, nonneg_stock s → nonneg_stock (run schedule s).
Proof.
  induction schedule as [|i schedule IH]; intros s Hs; [done|].
  cbn. apply IH. by apply sys_step_nonneg.
Qed.

Lemma contention_states_closed :
  Forall (λ s, length (tasks s) = 2%nat
               ∧ sys_step s 0%nat ∈ explore 6 contention
               ∧ sys_step s 1%nat ∈ explore 6 contention)
    (explore 6 contention).
Proof. apply (bool_decide_unpack _). vm_compute. reflexivity. Qed.

Lemma contention_states_ok : Forall contention_ok (explore 6 contention).
Proof. apply (bool_decide_unpack _). vm_compute. reflexivity. Qed.

Lemma run_contention (schedule : list nat) :
  ∀ s, s ∈ explore 6 contention → run schedule s ∈ explore 6 contention.
Proof.
  induction schedule as [|i schedule IH]; intros s Hs; [done|].
  cbn. apply IH.
  pose proof (proj1 (Forall_forall _ _) contention_states_closed s Hs)
    as (Hlen & H0 & H1).
  destruct i as [|[|i]]; [done|done|].
  unfold sys_step. rewrite lookup_ge_None_2; [done|]. lia.
Qed.

Lemma visits_observed (schedule : list nat) :
  ∀ s a b,
    fold_left obs_step schedule
      (s, (a || one_after_other s, b || all_holding s))
    = (run schedule s,
       (a || visits one_after_other schedule s,
        b || visits all_holding schedule s)).
Proof.
  induction schedule as [|i schedule IH]; intros s a b.
  - cbn. by rewrite !orb_false_r.
  - cbn [fold_left visits run]. unfold obs_step at 2. cbn [fst snd].
    rewrite IH, !orb_assoc. reflexivity.
Qed.

Lemma contention_kinds_closed :
  Forall (λ x, length (tasks x.1) = 2%nat
               ∧ obs_step x 0%nat ∈ explore_obs 6 (contention, (false, false))
               ∧ obs_step x 1%nat ∈ explore_obs 6 (contention, (false, false))
               ∧ (x.1, (x.2.1 || one_after_other x.1,
                        x.2.2 || all_holding x.1))
                 ∈ explore_obs 6 (contention, (false, false)))
    (explore_obs 6 (contention, (false, false))).
Proof. apply (bool_decide_unpack _). vm_compute. reflexivity. Qed.

Lemma contention_kinds_ok :
  Forall (λ x, contention_kinds x.2 x.1)
    (explore_obs 6 (contention, (false, false))).
Proof. apply (bool_decide_unpack _). vm_compute. reflexivity. Qed.

Lemma observed_contention (schedule : list nat) :
  ∀ x, x ∈ explore_obs 6 (contention, (false, false)) →
       fold_left obs_step schedule x
       ∈ explore_obs 6 (contention, (false, false)).
Proof.
  induction schedule as [|i schedule IH]; intros x Hx; [done|].
  cbn. apply IH.
  pose proof (proj1 (Forall_forall _ _) contention_kinds_closed x Hx)
    as (Hlen & H0 & H1 & H2).
  destruct i as [|[|i]]; [done|done|].
  unfold obs_step, sys_step. rewrite lookup_ge_None_2 by lia. exact H2.
Qed.

(** C4, as amended: the stock test and the write-back of a checkout are
    two steps with an await in between, so two checkouts for three units
    each of a product with stock five can interleave.  Under every
    schedule the stock is 5 or 2, and once both requests are through the
    stock loop it is 2, at least one of them has its stock reserved, and
    one that has not was refused for insufficient stock.  Every schedule
    that takes both through the loop is of one of two kinds, and not of
    both: one request has saved while the other has yet to read, and then
    exactly one has its stock reserved and the other is refused; or both
    have read before either saves, and then both have their stock
    reserved.  In any store, with any requests in flight, and under every
    schedule, no stock becomes negative. *)
Theorem contention_outcomes :
  (∀ schedule, contention_ok (run schedule contention))
  ∧ (∀ schedule,
       contention_kinds
         (visits one_after_other schedule contention,
          visits all_holding schedule contention)
         (run schedule contention))
  ∧ (∀ s schedule, nonneg_stock s → nonneg_stock (run schedule s)).
Proof.
  split; [|split].
  - intros schedule.
    apply (proj1 (Forall_forall _ _) contention_states_ok).
    apply run_contention. apply list_elem_of_here.
  - intros schedule.
    pose proof (observed_contention schedule (contention, (false, false))
                  (list_elem_of_here _ _)) as Hin.
    change (contention, (false, false))
      with (contention, (false || one_after_other contention,
                         false || all_holding contention)) in Hin at 1.
    rewrite visits_observed in Hin.
    exact (proj1 (Forall_forall _ _) contention_kinds_ok _ Hin).
  - intros s schedule. apply run_nonneg.
Qed.

(** The statement of C4 fails when both requests read the stock before
    either has saved: both pass the test against 5, both write 2, and
    both checkouts succeed. *)
Lemma both_checkouts_succeed :
  run [0; 1; 0; 1; 0; 1]%nat contention
  = mkSys {[ "p1" := IProduct.set_stock aspirin 2 ]} [reserved; reserved]
  ∧ ¬ (∃ i j, tasks (run [0; 1; 0; 1; 0; 1]%nat contention) !! i
              = Some reserved
              ∧ tasks (run [0; 1; 0; 1; 0; 1]%nat contention) !! j
                = Some (rejected insufficient_aspirin)).
Proof.
  assert (H : run [0; 1; 0; 1; 0; 1]%nat contention
              = mkSys {[ "p1" := IProduct.set_stock aspirin 2 ]}
                  [reserved; reserved]) by (vm_compute; reflexivity).
  split; [exact H|]. rewrite H. cbn.
  intros (i & j & _ & Hj). destruct j as [|[|j]]; discriminate.
Qed.

(** The amended statement on the schedule above, and on the schedule
    that runs the first request to its end before the second: there the
    first has its stock reserved and the second is refused. *)
Lemma contention_outcomes_witness :
  nonneg_stock contention
  ∧ nonneg_stock (run [0; 1; 0; 1; 0; 1]%nat contention)
  ∧ contention_ok (run [0; 1; 0; 1; 0; 1]%nat contention)
  ∧ tasks (run [0; 0; 0; 1; 1; 1]%nat contention)
    = [reserved; rejected insufficient_aspirin].
Proof.
  assert (H : nonneg_stock contention).
  { split.
    - intros id product Hl. cbn in Hl.
      apply lookup_singleton_Some in Hl as [_ <-]. cbn. lia.
    - repeat constructor. }
  split; [exact H|]. split; [|split].
  - apply (proj2 (proj2 contention_outcomes) contention _ H).
  - apply (proj1 contention_outcomes).
  - destruct (proj1 (proj2 contention_outcomes) [0; 0; 0; 1; 1; 1]%nat)
      as [(_ & _ & [Hone|Hone])|(Hseen & _)].
    + vm_compute. reflexivity.
    + exact Hone.
    + vm_compute in Hone. discriminate Hone.
    + vm_compute in Hseen. discriminate Hseen.
Defined.

(** * Further properties *)

(** ** What a checkout does to the products *)

Lemma set_stock_same (p : IProduct.t) :
  IProduct.set_stock p (IProduct.stock p - 0) = p.
Proof. destruct p. unfold IProduct.set_stock. cbn. f_equal. lia. Qed.

Lemma reserved_for_nil (db : gmap string IProduct.t) : reserved_for [] db db.
Proof.
  intros id. cbn. destruct (db !! id) as [p|]; cbn; [|done].
  by rewrite set_stock_same.
Qed.

Lemma reserved_for_cons (item : Item.t) (rest : list Item.t)
    (db db' : gmap string IProduct.t) (product : IProduct.t) :
  db !! Item.productId item = Some product →
  reserved_for rest
    (<[Item.productId item :=
         IProduct.set_stock product
           (IProduct.stock product - Item.quantity item)]> db) db' →
  reserved_for (item :: rest) db db'.
Proof.
  intros Hp Hrest id. rewrite (Hrest id). cbn [requested].
  destruct (String.eqb_spec (Item.productId item) id) as [Heq|Hne].
  - rewrite <- Heq, lookup_insert_eq, Hp. cbn. unfold IProduct.set_stock.
    cbn. do 2 f_equal. lia.
  - rewrite lookup_insert_ne by done.
    destruct (db !! id) as [p|]; cbn; [|done]. do 2 f_equal.
Qed.

(** The stock loop serves a first part of the items and nothing of the
    rest; it serves all of them when it does not answer. *)
Lemma for_of_reserved (f : Item.t → Async unit) (Hf : reserve_body f)
    (items : list Item.t) :
  ∀ w, ∃ done rest,
    items = (done ++ rest)%list
    ∧ reserved_for done (Product w) (Product (for_of items f w).1)
    ∧ ((for_of items f w).2 = Value tt → rest = [])
    ∧ (stock_nonnegative (Product w) →
       stock_nonnegative (Product (for_of items f w).1)).
Proof.
  induction items as [|item rest IH]; intros w.
  - exists [], []. cbn. repeat split; auto using reserved_for_nil.
  - rewrite for_of_cons. pose proof (Hf item w) as Hitem.
    destruct (Product w !! Item.productId item) as [product|] eqn:Hp.
    + destruct (IProduct.stock product <? Item.quantity item) eqn:Hlt.
      * destruct Hitem as (r & -> & _). exists [], (item :: rest). cbn.
        repeat split; auto using reserved_for_nil. discriminate.
      * rewrite Hitem.
        destruct (IH (with_Product
          (<[Item.productId item :=
               IProduct.set_stock product
                 (IProduct.stock product - Item.quantity item)]>) w))
          as (done & rest' & -> & Hres & Hall & Hnn).
        exists (item :: done), rest'. split; [done|]. split; [|split].
        -- eapply reserved_for_cons; eauto.
        -- exact Hall.
        -- intros Hw. apply Hnn. cbn. intros id p Hl.
           apply lookup_insert_Some in Hl as [[_ <-]|[_ Hl]]; [|by eapply Hw].
           cbn. lia.
    + destruct Hitem as (r & -> & _). exists [], (item :: rest). cbn.
      repeat split; auto using reserved_for_nil. discriminate.
Qed.

(** The products after [POST /api/invoices] are the products after its
    stock loop, or the products before when the request is turned away
    earlier. *)
Lemma invoices_post_products ENV razorpay user body invoiceId (w : World) :
  (Product (invoices_post ENV razorpay user body invoiceId w).1 = Product w
   ∧ ∀ b, (invoices_post ENV razorpay user body invoiceId w).2
          ≠ Sent (res_json 201 b))
  ∨ (invoice_body_valid body = true
     ∧ Product (invoices_post ENV razorpay user body invoiceId w).1
       = Product (for_of (InvoiceBody.items body) invoices_reserve_item w).1
     ∧ (∀ b, (invoices_post ENV razorpay user body invoiceId w).2
             = Sent (res_json 201 b) →
        (for_of (InvoiceBody.items body) invoices_reserve_item w).2
        = Value tt)).
Proof.
  destruct (invoices_post_cases ENV razorpay user body invoiceId w)
    as [(err & -> & _)|(Hv & Hc & w1 & out1 & Hloop & HC & HS & HR & Hout)].
  { left. by split. }
  right. split; [done|]. rewrite Hloop. cbn.
  destruct out1 as [[]|r|e]; [| |done].
  - split; [|done].
    by rewrite (invoices_post_stock_after_loop _ _ _ _ _ _ _ Hv Hc Hloop).
  - rewrite Hout. cbn. split; [done|]. intros b [= ->].
    by destruct (invoices_loop_refusal _ _ _ _ Hloop) as (err & ? & _).
Qed.

Lemma sales_post_products ENV razorpay body now_receipt now_invoice
    (w : World) :
  Product (sales_post ENV razorpay body now_receipt now_invoice w).1
  = Product (for_of (SaleBody.items body) sales_reserve_item w).1
  ∧ (∀ b, (sales_post ENV razorpay body now_receipt now_invoice w).2
          = Sent (res_json 201 b) →
     (for_of (SaleBody.items body) sales_reserve_item w).2 = Value tt).
Proof.
  destruct (for_of_reserve _ sales_reserve_item_body (SaleBody.items body) w)
    as (w1 & out1 & Hloop & _ & _ & _ & Hout).
  rewrite Hloop. cbn. destruct out1 as [[]|r|e]; [| |done].
  - split; [|done].
    by rewrite (sales_post_stock_after_loop _ _ _ _ _ _ _ Hloop).
  - rewrite (sales_post_loop_failed _ _ _ _ _ _ _ _ Hloop). cbn.
    split; [done|]. intros b [= ->].
    destruct (sales_loop_refusal _ _ _ _ Hloop) as (b' & [?|?]); simplify_eq.
Qed.

(** X1: neither checkout route makes a stock negative: when no product
    has a negative stock before the request, none has after it, whatever
    the request and however it is answered. *)
Theorem checkout_keeps_stock_nonnegative :
  (∀ ENV razorpay user body invoiceId w,
     stock_nonnegative (Product w) →
     stock_nonnegative
       (Product (invoices_post ENV razorpay user body invoiceId w).1))
  ∧ (∀ ENV razorpay body now_receipt now_invoice w,
     stock_nonnegative (Product w) →
     stock_nonnegative
       (Product (sales_post ENV razorpay body now_receipt now_invoice w).1)).
Proof.
  split.
  - intros ENV razorpay user body invoiceId w Hw.
    destruct (invoices_post_products ENV razorpay user body invoiceId w)
      as [[-> _]|(_ & -> & _)]; [done|].
    destruct (for_of_reserved _ invoices_reserve_item_body
                (InvoiceBody.items body) w) as (? & ? & _ & _ & _ & Hnn).
    by apply Hnn.
  - intros ENV razorpay body now_receipt now_invoice w Hw.
    destruct (sales_post_products ENV razorpay body now_receipt now_invoice w)
      as [-> _].
    destruct (for_of_reserved _ sales_reserve_item_body
                (SaleBody.items body) w) as (? & ? & _ & _ & _ & Hnn).
    by apply Hnn.
Qed.

Lemma store0_stock_nonnegative : stock_nonnegative (Product store0).
Proof.
  intros id product Hl. cbn in Hl.
  apply lookup_insert_Some in Hl as [[_ <-]|[_ Hl]]; [cbn; lia|].
  apply lookup_singleton_Some in Hl as [_ <-]. cbn. lia.
Qed.

Lemma checkout_keeps_stock_nonnegative_witness :
  stock_nonnegative (Product store0)
  ∧ stock_nonnegative
      (Product (invoices_post ENV0 gateway_up cashier0
                  (InvoiceBody.mk None None cart_short 38 (Some cash))
                  "INV-1" store0).1).
Proof.
  split; [exact store0_stock_nonnegative|].
  apply (proj1 checkout_keeps_stock_nonnegative).
  exact store0_stock_nonnegative.
Defined.

Lemma requested_nonneg (id : string) (items : list Item.t) :
  Forall (λ item, 0 ≤ Item.quantity item) items → 0 ≤ requested id items.
Proof.
  induction 1 as [|item rest Hq _ IH]; cbn; [lia|].
  destruct (String.eqb (Item.productId item) id); lia.
Qed.

Lemma valid_body_quantities (body : InvoiceBody.t) :
  invoice_body_valid body = true →
  Forall (λ item, 0 ≤ Item.quantity item) (InvoiceBody.items body).
Proof.
  unfold invoice_body_valid. intros Hv.
  apply andb_prop in Hv as [Hv _]. apply andb_prop in Hv as [_ Hv].
  apply Forall_forall. intros item Hin.
  rewrite forallb_forall in Hv. specialize (Hv item).
  rewrite <- list_elem_of_In in Hv. specialize (Hv Hin).
  unfold item_valid in Hv.
  repeat (apply andb_prop in Hv as [Hv ?]). lia.
Qed.

(** X2: [POST /api/invoices] adds no product and removes none, leaves
    the name, category and price of every product as they were, and
    raises no stock, whatever the request and however it is answered. *)
Theorem invoices_post_only_lowers_stock ENV razorpay user body invoiceId
    (w : World) (id : string) :
  match Product w !! id,
        Product (invoices_post ENV razorpay user body invoiceId w).1 !! id
  with
  | Some p, Some p' =>
      IProduct.name p' = IProduct.name p
      ∧ IProduct.category p' = IProduct.category p
      ∧ IProduct.price p' = IProduct.price p
      ∧ IProduct.stock p' ≤ IProduct.stock p
  | None, None => True
  | _, _ => False
  end.
Proof.
  destruct (invoices_post_products ENV razorpay user body invoiceId w)
    as [[-> _]|(Hv & -> & _)].
  { destruct (Product w !! id); [|done]. repeat split; lia. }
  destruct (for_of_reserved _ invoices_reserve_item_body
              (InvoiceBody.items body) w)
    as (done & rest & Hitems & Hres & _ & _).
  rewrite (Hres id). destruct (Product w !! id) as [p|]; cbn; [|done].
  repeat split; try done.
  assert (0 ≤ requested id done); [|lia].
  apply requested_nonneg.
  pose proof (valid_body_quantities body Hv) as Hq.
  rewrite Hitems in Hq. by apply Forall_app in Hq as [? _].
Qed.



(** ** The shape of a signature *)

Lemma length_round (st : list Z) (kw : Z * Z) :
  length (Crypto.round st kw) = length st.
Proof.
  destruct st as [|a [|b [|c [|d [|e [|f [|g [|h [|i t]]]]]]]]]; reflexivity.
Qed.

Lemma length_rounds (kws : list (Z * Z)) :
  ∀ st, length (fold_left Crypto.round kws st) = length st.
Proof.
  induction kws as [|kw kws IH]; intros st; [done|].
  cbn. by rewrite IH, length_round.
Qed.

Lemma length_compress (h block : list Z) :
  length (Crypto.compress h block) = length h.
Proof.
  unfold Crypto.compress. cbv zeta.
  rewrite length_map, length_combine, length_rounds. lia.
Qed.

Lemma length_compress_all (bs : list (list Z)) :
  ∀ h, length (fold_left Crypto.compress bs h) = length h.
Proof.
  induction bs as [|b bs IH]; intros h; [done|].
  cbn. by rewrite IH, length_compress.
Qed.

Lemma byte_land (x : Z) : 0 ≤ Z.land x 255 < 256.
Proof.
  change 255 with (Z.ones 8). rewrite Z.land_ones by lia.
  apply Z.mod_pos_bound. lia.
Qed.

Lemma bytes_of_words (ws : list Z) :
  length (concat (map Crypto.bytes_of_word ws)) = (4 * length ws)%nat
  ∧ Forall (λ b, 0 ≤ b < 256) (concat (map Crypto.bytes_of_word ws)).
Proof.
  induction ws as [|x ws [IHl IHb]]; [by split|].
  cbn [map concat]. split.
  - rewrite length_app, IHl. cbn. lia.
  - apply Forall_app. split; [|done].
    unfold Crypto.bytes_of_word. repeat constructor; apply byte_land.
Qed.

Lemma sha256_bytes (msg : list Z) :
  length (Crypto.sha256 msg) = 32%nat
  ∧ Forall (λ b, 0 ≤ b < 256) (Crypto.sha256 msg).
Proof.
  unfold Crypto.sha256. cbv zeta.
  destruct (bytes_of_words
    (fold_left Crypto.compress
       (Crypto.blocks (length (Crypto.words_of_bytes (Crypto.pad msg)))
          (Crypto.words_of_bytes (Crypto.pad msg))) Crypto.H256))
    as [Hl Hb].
  split; [|done]. rewrite Hl, length_compress_all.
  assert (H8 : length Crypto.H256 = 8%nat) by (vm_compute; reflexivity).
  by rewrite H8.
Qed.

Lemma hex_digit_is_hex (n : Z) :
  0 ≤ n < 16 → is_hex_digit (Crypto.hex_digit n) = true.
Proof.
  intros Hn.
  assert (n = 0 ∨ n = 1 ∨ n = 2 ∨ n = 3 ∨ n = 4 ∨ n = 5 ∨ n = 6 ∨ n = 7
          ∨ n = 8 ∨ n = 9 ∨ n = 10 ∨ n = 11 ∨ n = 12 ∨ n = 13 ∨ n = 14
          ∨ n = 15) as Hcases by lia.
  repeat (destruct Hcases as [->|Hcases]; [reflexivity|]).
  by subst.
Qed.

Lemma hex_shape (bs : list Z) :
  Forall (λ b, 0 ≤ b < 256) bs →
  String.length (Crypto.hex bs) = (2 * length bs)%nat
  ∧ forallb is_hex_digit (list_ascii_of_string (Crypto.hex bs)) = true.
Proof.
  induction 1 as [|b bs Hb _ [IHl IHc]]; [by split|].
  cbn [Crypto.hex String.length list_ascii_of_string forallb length].
  split; [rewrite IHl; lia|].
  rewrite IHc, !hex_digit_is_hex; [done| |].
  - change 15 with (Z.ones 4). rewrite Z.land_ones by lia.
    apply Z.mod_pos_bound. lia.
  - rewrite Z.shiftr_div_pow2 by lia. change (2 ^ 4) with 16.
    split; [apply Z.div_pos; lia|apply Z.div_lt_upper_bound; lia].
Qed.

Lemma createHmac_shape (key msg : string) :
  String.length (Crypto.createHmac_sha256_hex key msg) = 64%nat
  ∧ forallb is_hex_digit
      (list_ascii_of_string (Crypto.createHmac_sha256_hex key msg)) = true.
Proof.
  unfold Crypto.createHmac_sha256_hex, Crypto.hmac_sha256. cbv zeta.
  match goal with |- context [Crypto.hex (Crypto.sha256 ?m)] =>
    destruct (sha256_bytes m) as [Hl Hb] end.
  destruct (hex_shape _ Hb) as [Hhl Hhc]. by rewrite Hhl, Hl.
Qed.

(** X4: a signature that [verifyPaymentSignature] accepts has 64
    characters, each a digit or a letter from [a] to [f]; a signature of
    any other length, or with an upper-case letter, is refused whatever
    the order and payment ids. *)
Theorem accepted_signature_is_64_lower_hex ENV orderId paymentId signature :
  verifyPaymentSignature ENV orderId paymentId signature = true →
  String.length signature = 64%nat
  ∧ forallb is_hex_digit (list_ascii_of_string signature) = true.
Proof.
  unfold verifyPaymentSignature. cbv zeta. intros Heq%String.eqb_eq.
  rewrite <- Heq. apply createHmac_shape.
Qed.

Lemma accepted_signature_is_64_lower_hex_witness :
  String.length
    "4015462750bad53a460683265463d425b36c9264d4d5f16193115ccd5edfba41"
  = 64%nat
  ∧ forallb is_hex_digit
      (list_ascii_of_string
         "4015462750bad53a460683265463d425b36c9264d4d5f16193115ccd5edfba41")
    = true.
Proof.
  apply (accepted_signature_is_64_lower_hex ENV0 "order_9" "pay_9").
  vm_compute. reflexivity.
Defined.

(** ** What a checkout answers and stores *)

(** X5: both checkout routes always answer, and only with 201, 400, 404
    or 500; they append exactly one order when they answer 201 and leave
    the orders as they were otherwise. *)
Theorem checkout_answers :
  (∀ ENV razorpay user body invoiceId w,
     ∃ w' r,
       invoices_post ENV razorpay user body invoiceId w = (w', Sent r)
       ∧ ((http_status r = 201 ∧ ∃ invoice, Sale w' = (Sale w ++ [invoice])%list)
          ∨ ((http_status r = 400 ∨ http_status r = 404
              ∨ http_status r = 500) ∧ Sale w' = Sale w)))
  ∧ (∀ ENV razorpay body now_receipt now_invoice w,
     ∃ w' r,
       sales_post ENV razorpay body now_receipt now_invoice w = (w', Sent r)
       ∧ ((http_status r = 201 ∧ ∃ sale, Sale w' = (Sale w ++ [sale])%list)
          ∨ ((http_status r = 400 ∨ http_status r = 404
              ∨ http_status r = 500) ∧ Sale w' = Sale w))).
Proof.
  split.
  - intros ENV razorpay user body invoiceId w.
    destruct (invoices_post_sale ENV razorpay user body invoiceId w)
      as (w' & out & -> & [[HS (err & -> & Hst)]|(s & b & HS & -> & _)]).
    + exists w', (next err). split; [done|]. right. by split.
    + exists w', (res_json 201 b). split; [done|]. left. split; eauto.
  - intros ENV razorpay body now_receipt now_invoice w.
    destruct (sales_post_sale ENV razorpay body now_receipt now_invoice w)
      as (w' & out & -> & [[HS (st & b & -> & Hst)]|(s & b & HS & -> & _)]).
    + exists w', (res_json st b). split; [done|]. right. by split.
    + exists w', (res_json 201 b). split; [done|]. left. split; eauto.
Qed.

(** The outcome of [POST /api/invoices] once the stock loop is through,
    read as a relation. *)
Lemma invoices_post_created ENV razorpay user body invoiceId (w w' : World)
    (b : Body) :
  invoices_post ENV razorpay user body invoiceId w
  = (w', Sent (res_json 201 b)) →
  ∃ invoice,
    Sale w' = (Sale w ++ [invoice])%list
    ∧ list_find (λ s, ISale.invoiceId s = invoiceId) (Sale w) = None
    ∧ ISale.invoiceId invoice = invoiceId
    ∧ ISale.customerId invoice = truthy (InvoiceBody.customerId body)
    ∧ ISale.items invoice = InvoiceBody.items body
    ∧ ISale.totalAmount invoice = InvoiceBody.totalAmount body
    ∧ ISale.cashierId invoice = id user
    ∧ ISale.cashierName invoice = username user
    ∧ ISale.razorpayPaymentId invoice = None
    ∧ ISale.razorpaySignature invoice = None
    ∧ match InvoiceBody.paymentMethod body with
      | Some cash =>
          b = body_cash_invoice invoice
          ∧ razorpay_calls w' = razorpay_calls w
          ∧ ISale.status invoice = status_completed
          ∧ ISale.paymentStatus invoice = payment_paid
          ∧ ISale.paymentMethod invoice = cash
          ∧ ISale.razorpayOrderId invoice = None
      | _ =>
          ∃ o oid n,
            b = body_upi_invoice invoice oid (Env.RAZORPAY_KEY_ID ENV) n
            ∧ razorpay o = Created oid
            ∧ razorpay_calls w' = (razorpay_calls w ++ [o])%list
            ∧ OrderOptions.amount o = inject_Z n
            ∧ OrderOptions.receipt o = invoiceId
            ∧ ISale.status invoice = status_pending
            ∧ ISale.paymentStatus invoice = payment_pending
            ∧ ISale.paymentMethod invoice = upi
            ∧ ISale.razorpayOrderId invoice = Some oid
      end.
Proof.
  intros Hrun.
  destruct (invoices_post_cases ENV razorpay user body invoiceId w)
    as [(err & Heq & _)|(Hv & Hc & w1 & out1 & Hloop & HC & HS & HR & Hout)].
  { rewrite Heq in Hrun. simplify_eq. }
  destruct out1 as [[]|r|e]; [| |done].
  2:{ rewrite Hout in Hrun. simplify_eq.
      by destruct (invoices_loop_refusal _ _ _ _ Hloop) as (err & ? & _). }
  rewrite (invoices_post_loop_done _ _ _ _ _ _ _ Hv Hc Hloop) in Hrun.
  cbv zeta in Hrun. rewrite HS in Hrun.
  destruct (InvoiceBody.paymentMethod body) as [[|]|];
    [| destruct (razorpay _) as [oid| |msg] eqn:Hgw
     | destruct (razorpay _) as [oid| |msg] eqn:Hgw];
    try destruct (list_find _ (Sale w)) eqn:Hfind;
    simplify_eq; eexists; cbn; rewrite ?HS, ?HR;
    repeat (split; [reflexivity|]);
    try (split; [exact Hfind|]); repeat (split; [reflexivity|]);
    try (repeat split; reflexivity);
    eexists _, _, _; (split; [reflexivity|]); (split; [exact Hgw|]);
    repeat split; reflexivity.
Qed.

(** X6: a cash checkout never calls the gateway; when it answers 201 it
    has stored one order, Completed and Paid, with payment method cash
    and no gateway ids, and answers with that order. *)
Theorem cash_checkout_settles_without_gateway
    ENV razorpay user body invoiceId (w : World) :
  InvoiceBody.paymentMethod body = Some cash →
  razorpay_calls (invoices_post ENV razorpay user body invoiceId w).1
  = razorpay_calls w
  ∧ ∀ b, (invoices_post ENV razorpay user body invoiceId w).2
         = Sent (res_json 201 b) →
      ∃ invoice,
        b = body_cash_invoice invoice
        ∧ Sale (invoices_post ENV razorpay user body invoiceId w).1
          = (Sale w ++ [invoice])%list
        ∧ ISale.invoiceId invoice = invoiceId
        ∧ ISale.status invoice = status_completed
        ∧ ISale.paymentStatus invoice = payment_paid
        ∧ ISale.paymentMethod invoice = cash
        ∧ ISale.razorpayOrderId invoice = None
        ∧ ISale.razorpayPaymentId invoice = None
        ∧ ISale.razorpaySignature invoice = None.
Proof.
  intros Hcash. split.
  - pose proof (invoices_post_gateway_amount ENV razorpay user body
                  invoiceId w) as Hcalls. cbv zeta in Hcalls.
    destruct Hcalls as [Hsame|(o & Hcalls & _)]; [done|]. exfalso.
    destruct (invoices_post_cases ENV razorpay user body invoiceId w)
      as [(err & Heq & _)
         |(Hv & Hc & w1 & out1 & Hloop & HC & HS & HR & Hout)].
    { rewrite Heq in Hcalls. cbn in Hcalls.
      by apply app_singleton_neq in Hcalls. }
    destruct out1 as [[]|r|e]; [| |done].
    2:{ rewrite Hout in Hcalls. cbn in Hcalls. rewrite HR in Hcalls.
        by apply app_singleton_neq in Hcalls. }
    rewrite (invoices_post_loop_done _ _ _ _ _ _ _ Hv Hc Hloop), Hcash
      in Hcalls.
    destruct (list_find _ (Sale w1)); cbn in Hcalls; rewrite HR in Hcalls;
      by apply app_singleton_neq in Hcalls.
  - intros b Hout.
    destruct (invoices_post ENV razorpay user body invoiceId w)
      as [w' out] eqn:Hrun.
    cbn in Hout. subst out.
    destruct (invoices_post_created _ _ _ _ _ _ _ _ Hrun)
      as (invoice & HS & _ & Hid & _ & _ & _ & _ & _ & Hp & Hsig & Hm).
    rewrite Hcash in Hm. destruct Hm as (-> & _ & ? & ? & ? & ?).
    exists invoice. cbn. done.
Qed.

Lemma cash_checkout_settles_without_gateway_witness :
  razorpay_calls
    (invoices_post ENV0 gateway_up cashier0
       (InvoiceBody.mk None None cart_ok 22 (Some cash)) "INV-1" store0).1
  = razorpay_calls store0
  ∧ ∀ b, (invoices_post ENV0 gateway_up cashier0
            (InvoiceBody.mk None None cart_ok 22 (Some cash)) "INV-1"
            store0).2
         = Sent (res_json 201 b) →
      ∃ invoice,
        b = body_cash_invoice invoice
        ∧ Sale (invoices_post ENV0 gateway_up cashier0
                  (InvoiceBody.mk None None cart_ok 22 (Some cash)) "INV-1"
                  store0).1
          = (Sale store0 ++ [invoice])%list
        ∧ ISale.invoiceId invoice = "INV-1"
        ∧ ISale.status invoice = status_completed
        ∧ ISale.paymentStatus invoice = payment_paid
        ∧ ISale.paymentMethod invoice = cash
        ∧ ISale.razorpayOrderId invoice = None
        ∧ ISale.razorpayPaymentId invoice = None
        ∧ ISale.razorpaySignature invoice = None.
Proof.
  apply (cash_checkout_settles_without_gateway ENV0 gateway_up cashier0
           (InvoiceBody.mk None None cart_ok 22 (Some cash)) "INV-1" store0).
  reflexivity.
Defined.

(** X7: an electronic-payment checkout that answers 201 has called the
    gateway once, with the invoice id as receipt, has got an order id
    from it, and has stored one order, Pending and Pending, that carries
    that gateway order id; the amount in the answer is the amount it sent
    to the gateway. *)
Theorem upi_checkout_stores_pending_order
    ENV razorpay user body invoiceId (w w' : World) (b : Body) :
  InvoiceBody.paymentMethod body ≠ Some cash →
  invoices_post ENV razorpay user body invoiceId w
  = (w', Sent (res_json 201 b)) →
  ∃ invoice o oid n,
    b = body_upi_invoice invoice oid (Env.RAZORPAY_KEY_ID ENV) n
    ∧ razorpay o = Created oid
    ∧ razorpay_calls w' = (razorpay_calls w ++ [o])%list
    ∧ OrderOptions.amount o = inject_Z n
    ∧ OrderOptions.receipt o = invoiceId
    ∧ Sale w' = (Sale w ++ [invoice])%list
    ∧ ISale.invoiceId invoice = invoiceId
    ∧ ISale.status invoice = status_pending
    ∧ ISale.paymentStatus invoice = payment_pending
    ∧ ISale.paymentMethod invoice = upi
    ∧ ISale.razorpayOrderId invoice = Some oid
    ∧ ISale.razorpayPaymentId invoice = None
    ∧ ISale.razorpaySignature invoice = None.
Proof.
  intros Hupi Hrun.
  destruct (invoices_post_created _ _ _ _ _ _ _ _ Hrun)
    as (invoice & HS & _ & Hid & _ & _ & _ & _ & _ & Hp & Hsig & Hm).
  destruct (InvoiceBody.paymentMethod body) as [[|]|]; [done| |];
    destruct Hm as (o & oid & n & -> & ? & ? & ? & ? & ? & ? & ? & ?);
    exists invoice, o, oid, n; done.
Qed.

Lemma upi_checkout_stores_pending_order_witness :
  ∃ invoice o oid n,
    body_upi_invoice
      (ISale.mk "INV-1" None "" cart_ok 22 "u1" "asha" status_pending
         payment_pending upi (Some "order_1") None None)
      "order_1" "rzp_test_key" 2200
    = body_upi_invoice invoice oid (Env.RAZORPAY_KEY_ID ENV0) n
    ∧ gateway_up o = Created oid
    ∧ razorpay_calls
        (invoices_post ENV0 gateway_up cashier0
           (InvoiceBody.mk None None cart_ok 22 None) "INV-1" store0).1
      = (razorpay_calls store0 ++ [o])%list
    ∧ OrderOptions.amount o = inject_Z n
    ∧ OrderOptions.receipt o = "INV-1"
    ∧ Sale
        (invoices_post ENV0 gateway_up cashier0
           (InvoiceBody.mk None None cart_ok 22 None) "INV-1" store0).1
      = (Sale store0 ++ [invoice])%list
    ∧ ISale.invoiceId invoice = "INV-1"
    ∧ ISale.status invoice = status_pending
    ∧ ISale.paymentStatus invoice = payment_pending
    ∧ ISale.paymentMethod invoice = upi
    ∧ ISale.razorpayOrderId invoice = Some oid
    ∧ ISale.razorpayPaymentId invoice = None
    ∧ ISale.razorpaySignature invoice = None.
Proof.
  apply (upi_checkout_stores_pending_order ENV0 gateway_up cashier0
           (InvoiceBody.mk None None cart_ok 22 None) "INV-1" store0).
  - discriminate.
  - vm_compute. reflexivity.
Defined.

Lemma list_find_snoc {A} (P : A → Prop) `{!∀ x, Decision (P x)}
    (l : list A) (x : A) :
  list_find P l = None → P x →
  list_find P (l ++ [x])%list = Some (length l, x).
Proof.
  intros Hnone%list_find_None Hx. apply list_find_Some. split; [|split].
  - by rewrite lookup_app_r, Nat.sub_diag.
  - done.
  - intros j y Hj Hlt. rewrite lookup_app_l in Hj by done.
    by eapply Forall_lookup_1 in Hnone.
Qed.

(** X8: an order a checkout has just stored is the one a lookup by its
    invoice id finds, at the end of the collection: for
    [POST /api/invoices] under the id the request was given, for
    [POST /api/sales] under ["INV-"] and the time stamp. *)
Theorem stored_order_is_found_by_invoice_id :
  (∀ ENV razorpay user body invoiceId w w' b,
     invoices_post ENV razorpay user body invoiceId w
     = (w', Sent (res_json 201 b)) →
     ∃ invoice,
       Sale_findOne invoiceId w'
       = (w', Value (Some (length (Sale w), invoice)))
       ∧ ISale.items invoice = InvoiceBody.items body
       ∧ ISale.totalAmount invoice = InvoiceBody.totalAmount body)
  ∧ (∀ ENV razorpay body now_receipt now_invoice w w' b,
     sales_post ENV razorpay body now_receipt now_invoice w
     = (w', Sent (res_json 201 b)) →
     ∃ sale,
       Sale_findOne ("INV-" +:+ pretty now_invoice) w'
       = (w', Value (Some (length (Sale w), sale)))
       ∧ ISale.items sale = SaleBody.items body).
Proof.
  split.
  - intros ENV razorpay user body invoiceId w w' b Hrun.
    destruct (invoices_post_created _ _ _ _ _ _ _ _ Hrun)
      as (invoice & HS & Hnone & Hid & _ & Hit & Htot & _).
    exists invoice. split; [|done]. unfold Sale_findOne. rewrite HS.
    by rewrite (list_find_snoc _ _ _ Hnone Hid).
  - intros ENV razorpay body now_receipt now_invoice w w' b Hrun.
    destruct (sales_post_sale ENV razorpay body now_receipt now_invoice w)
      as (w'' & out & Heq & Hcase).
    rewrite Hrun in Heq. simplify_eq.
    destruct Hcase as [[_ (st & b' & Hb & Hst)]
                      |(sale & b' & HS & _ & Hid & Hit & _ & Hnone)].
    { simplify_eq. lia. }
    exists sale. split; [|done]. unfold Sale_findOne. rewrite HS.
    by rewrite (list_find_snoc _ _ _ Hnone Hid).
Qed.

Lemma stored_order_is_found_by_invoice_id_witness :
  ∃ invoice,
    Sale_findOne "INV-1"
      (invoices_post ENV0 gateway_up cashier0
         (InvoiceBody.mk None None cart_ok 22 (Some cash)) "INV-1" store0).1
    = ((invoices_post ENV0 gateway_up cashier0
          (InvoiceBody.mk None None cart_ok 22 (Some cash)) "INV-1"
          store0).1,
       Value (Some (length (Sale store0), invoice)))
    ∧ ISale.items invoice = cart_ok
    ∧ ISale.totalAmount invoice = 22%Q.
Proof.
  apply (proj1 stored_order_is_found_by_invoice_id ENV0 gateway_up cashier0
           (InvoiceBody.mk None None cart_ok 22 (Some cash)) "INV-1" store0
           _ (body_cash_invoice
                (ISale.mk "INV-1" None "" cart_ok 22 "u1" "asha"
                   status_completed payment_paid cash None None None))).
  vm_compute. reflexivity.
Defined.

Lemma nonempty_eqb (s : string) : s ≠ "" → negb (String.eqb s "") = true.
Proof. intros H. by destruct (String.eqb_spec s ""). Qed.

Lemma createHmac_nonempty (key msg : string) :
  Crypto.createHmac_sha256_hex key msg ≠ "".
Proof.
  intros H. destruct (createHmac_shape key msg) as [Hl _].
  rewrite H in Hl. discriminate Hl.
Qed.

(** X9: an electronic-payment checkout followed by a confirmation that
    names its invoice and carries the gateway's order id, a payment id
    and their signature settles the order it stored: the order becomes
    Completed and Paid with that payment id, and keeps the items, the
    total and the gateway order id of the checkout. *)
Theorem upi_checkout_then_confirmation_settles
    ENV razorpay user body invoiceId (w w' : World)
    (invoice : ISale.t) (oid key : string) (n : Z) (payment_id : string) :
  invoices_post ENV razorpay user body invoiceId w
  = (w', Sent (res_json 201 (body_upi_invoice invoice oid key n))) →
  invoiceId ≠ "" → oid ≠ "" → payment_id ≠ "" →
  let signature :=
    Crypto.createHmac_sha256_hex (Env.RAZORPAY_KEY_SECRET ENV)
      (oid +:+ "|" +:+ payment_id) in
  ∃ invoice',
    invoices_verify_payment ENV
      (VerifyBody.mk oid payment_id signature invoiceId) w'
    = (with_Sale (<[length (Sale w) := invoice']>) w',
       Sent (res_json 200 (body_payment_verified invoice')))
    ∧ Sale (with_Sale (<[length (Sale w) := invoice']>) w')
      = (Sale w ++ [invoice'])%list
    ∧ ISale.invoiceId invoice' = invoiceId
    ∧ ISale.status invoice' = status_completed
    ∧ ISale.paymentStatus invoice' = payment_paid
    ∧ ISale.razorpayOrderId invoice' = Some oid
    ∧ ISale.razorpayPaymentId invoice' = Some payment_id
    ∧ ISale.razorpaySignature invoice' = Some signature
    ∧ ISale.items invoice' = InvoiceBody.items body
    ∧ ISale.totalAmount invoice' = InvoiceBody.totalAmount body.
Proof.
  intros Hrun Hinv Hoid Hpid signature.
  destruct (invoices_post_created _ _ _ _ _ _ _ _ Hrun)
    as (stored & HS & Hnone & Hid & _ & Hit & Htot & _ & _ & _ & _ & Hm).
  assert (Hoid' : ISale.razorpayOrderId stored = Some oid).
  { destruct (InvoiceBody.paymentMethod body) as [[|]|].
    - by destruct Hm as [? _].
    - destruct Hm as (? & ? & ? & ? & _ & _ & _ & _ & _ & _ & _ & ?).
      by simplify_eq.
    - destruct Hm as (? & ? & ? & ? & _ & _ & _ & _ & _ & _ & _ & ?).
      by simplify_eq. }
  assert (Hfind : list_find (λ s, ISale.invoiceId s = invoiceId) (Sale w')
                  = Some (length (Sale w), stored)).
  { rewrite HS. by apply list_find_snoc. }
  assert (Hvalid : verify_body_valid
                     (VerifyBody.mk oid payment_id signature invoiceId)
                   = true).
  { unfold verify_body_valid.
    cbn [VerifyBody.razorpay_order_id VerifyBody.razorpay_payment_id
         VerifyBody.razorpay_signature VerifyBody.invoiceId].
    rewrite (nonempty_eqb _ Hoid), (nonempty_eqb _ Hpid),
      (nonempty_eqb _ Hinv).
    unfold signature. by rewrite (nonempty_eqb _ (createHmac_nonempty _ _)). }
  assert (Hsig : verifyPaymentSignature ENV oid payment_id signature = true).
  { unfold verifyPaymentSignature. cbv zeta. apply String.eqb_refl. }
  eexists. split.
  - exact (verify_payment_good_signature ENV
             (VerifyBody.mk oid payment_id signature invoiceId) w'
             (length (Sale w)) stored Hvalid Hfind Hsig).
  - cbn. rewrite HS, Hid, Hoid', Hit, Htot.
    repeat split; try reflexivity.
    rewrite insert_app_r_alt, Nat.sub_diag by done. reflexivity.
Qed.

Lemma upi_checkout_then_confirmation_settles_witness :
  ∃ invoice',
    invoices_verify_payment ENV0
      (VerifyBody.mk "order_1" "pay_1"
         (Crypto.createHmac_sha256_hex (Env.RAZORPAY_KEY_SECRET ENV0)
            ("order_1" +:+ "|" +:+ "pay_1")) "INV-1")
      (invoices_post ENV0 gateway_up cashier0
         (InvoiceBody.mk None None cart_ok 22 None) "INV-1" store0).1
    = (with_Sale (<[length (Sale store0) := invoice']>)
         (invoices_post ENV0 gateway_up cashier0
            (InvoiceBody.mk None None cart_ok 22 None) "INV-1" store0).1,
       Sent (res_json 200 (body_payment_verified invoice')))
    ∧ Sale (with_Sale (<[length (Sale store0) := invoice']>)
              (invoices_post ENV0 gateway_up cashier0
                 (InvoiceBody.mk None None cart_ok 22 None) "INV-1"
                 store0).1)
      = (Sale store0 ++ [invoice'])%list
    ∧ ISale.invoiceId invoice' = "INV-1"
    ∧ ISale.status invoice' = status_completed
    ∧ ISale.paymentStatus invoice' = payment_paid
    ∧ ISale.razorpayOrderId invoice' = Some "order_1"
    ∧ ISale.razorpayPaymentId invoice' = Some "pay_1"
    ∧ ISale.razorpaySignature invoice'
      = Some (Crypto.createHmac_sha256_hex (Env.RAZORPAY_KEY_SECRET ENV0)
                ("order_1" +:+ "|" +:+ "pay_1"))
    ∧ ISale.items invoice' = cart_ok
    ∧ ISale.totalAmount invoice' = 22%Q.
Proof.
  apply (upi_checkout_then_confirmation_settles ENV0 gateway_up cashier0
           (InvoiceBody.mk None None cart_ok 22 None) "INV-1" store0 _
           (ISale.mk "INV-1" None "" cart_ok 22 "u1" "asha" status_pending
              payment_pending upi (Some "order_1") None None)
           "order_1" "rzp_test_key" 2200 "pay_1").
  - vm_compute. reflexivity.
  - discriminate.
  - discriminate.
  - discriminate.
Defined.

(** ** What a confirmation leaves alone *)

(** X10: [POST /api/invoices/verify-payment] writes to one order at most.
    It leaves the products, the customers and the record of gateway calls
    as they were; it adds and removes no order; of every order it keeps
    the invoice id, customer, items, total, cashier, payment method and
    gateway order id; and an order with another invoice id than the one
    in the request is left entirely as it was. *)
Theorem verify_payment_touches_one_order ENV body (w : World) :
  let w' := (invoices_verify_payment ENV body w).1 in
  Product w' = Product w ∧ Customer w' = Customer w
  ∧ razorpay_calls w' = razorpay_calls w
  ∧ length (Sale w') = length (Sale w)
  ∧ ∀ j s, Sale w !! j = Some s →
      ∃ s', Sale w' !! j = Some s'
            ∧ ISale.invoiceId s' = ISale.invoiceId s
            ∧ ISale.customerId s' = ISale.customerId s
            ∧ ISale.customerName s' = ISale.customerName s
            ∧ ISale.items s' = ISale.items s
            ∧ ISale.totalAmount s' = ISale.totalAmount s
            ∧ ISale.cashierId s' = ISale.cashierId s
            ∧ ISale.cashierName s' = ISale.cashierName s
            ∧ ISale.paymentMethod s' = ISale.paymentMethod s
            ∧ ISale.razorpayOrderId s' = ISale.razorpayOrderId s
            ∧ (ISale.invoiceId s ≠ VerifyBody.invoiceId body → s' = s).
Proof.
  cbv zeta.
  destruct (verify_body_valid body) eqn:Hv.
  2:{ rewrite verify_payment_invalid_body by done. cbn.
      repeat split; try done. intros j s Hj. exists s. done. }
  destruct (list_find (λ s, ISale.invoiceId s = VerifyBody.invoiceId body)
              (Sale w)) as [[i invoice]|] eqn:Hf.
  2:{ rewrite verify_payment_not_found by done. cbn.
      repeat split; try done. intros j s Hj. exists s. done. }
  pose proof Hf as (Hi & Hid & _)%list_find_Some.
  assert (Hone : ∀ invoice',
    ISale.invoiceId invoice' = ISale.invoiceId invoice →
    ISale.customerId invoice' = ISale.customerId invoice →
    ISale.customerName invoice' = ISale.customerName invoice →
    ISale.items invoice' = ISale.items invoice →
    ISale.totalAmount invoice' = ISale.totalAmount invoice →
    ISale.cashierId invoice' = ISale.cashierId invoice →
    ISale.cashierName invoice' = ISale.cashierName invoice →
    ISale.paymentMethod invoice' = ISale.paymentMethod invoice →
    ISale.razorpayOrderId invoice' = ISale.razorpayOrderId invoice →
    ∀ j s, Sale w !! j = Some s →
      ∃ s', <[i := invoice']> (Sale w) !! j = Some s'
            ∧ ISale.invoiceId s' = ISale.invoiceId s
            ∧ ISale.customerId s' = ISale.customerId s
            ∧ ISale.customerName s' = ISale.customerName s
            ∧ ISale.items s' = ISale.items s
            ∧ ISale.totalAmount s' = ISale.totalAmount s
            ∧ ISale.cashierId s' = ISale.cashierId s
            ∧ ISale.cashierName s' = ISale.cashierName s
            ∧ ISale.paymentMethod s' = ISale.paymentMethod s
            ∧ ISale.razorpayOrderId s' = ISale.razorpayOrderId s
            ∧ (ISale.invoiceId s ≠ VerifyBody.invoiceId body → s' = s)).
  { intros invoice' ? ? ? ? ? ? ? ? ? j s Hj.
    destruct (decide (i = j)) as [->|Hne].
    - rewrite list_lookup_insert_eq by eauto using lookup_lt_Some.
      simplify_eq. exists invoice'. repeat split; try done.
    - rewrite list_lookup_insert_ne by done. exists s. done. }
  destruct (verifyPaymentSignature ENV (VerifyBody.razorpay_order_id body)
              (VerifyBody.razorpay_payment_id body)
              (VerifyBody.razorpay_signature body)) eqn:Hsig.
  - rewrite (verify_payment_good_signature _ _ _ _ _ Hv Hf Hsig). cbn.
    rewrite length_insert. repeat split; try done. by apply Hone.
  - rewrite (verify_payment_bad_signature _ _ _ _ _ Hv Hf Hsig). cbn.
    rewrite length_insert. repeat split; try done. by apply Hone.
Qed.

Lemma verify_payment_touches_one_order_witness :
  ∃ s', Sale (invoices_verify_payment ENV0 signed_for_order_9 store1).1
          !! 0%nat = Some s'
        ∧ s' = paid_order.
Proof.
  pose proof (verify_payment_touches_one_order ENV0 signed_for_order_9
                store1) as H.
  cbv zeta in H. destruct H as (_ & _ & _ & _ & H).
  destruct (H 0%nat paid_order eq_refl)
    as (s' & Hs' & _ & _ & _ & _ & _ & _ & _ & _ & _ & Hsame).
  exists s'. split; [exact Hs'|]. apply Hsame. discriminate.
Defined.

(** X11: a confirmation for an invoice id no stored order has changes
    nothing, also when its signature is valid; it is answered with 404,
    or with 400 when a field of the request is empty. *)
Theorem verify_payment_unknown_invoice ENV body (w : World) :
  VerifyBody.invoiceId body ∉ ISale.invoiceId <$> Sale w →
  invoices_verify_payment ENV body w
  = (w, Sent (next
       (if verify_body_valid body
        then mkAppError "Invoice not found" 404 None
        else mkAppError "Validation errors" 400 None))).
Proof.
  intros Hnone%list_find_invoiceId_None.
  destruct (verify_body_valid body) eqn:Hv.
  - by apply verify_payment_not_found.
  - by apply verify_payment_invalid_body.
Qed.

Lemma verify_payment_unknown_invoice_witness :
  invoices_verify_payment ENV0
    (VerifyBody.mk "order_9" "pay_9"
       "4015462750bad53a460683265463d425b36c9264d4d5f16193115ccd5edfba41"
       "INV-404") store1
  = (store1, Sent (next (mkAppError "Invoice not found" 404 None))).
Proof.
  apply (verify_payment_unknown_invoice ENV0
           (VerifyBody.mk "order_9" "pay_9"
              "4015462750bad53a460683265463d425b36c9264d4d5f16193115ccd5edfba41"
              "INV-404") store1).
  cbn. apply (bool_decide_unpack _). vm_compute. reflexivity.
Defined.

(** ** The amount [POST /api/invoices] sends *)

(** X12: [POST /api/invoices] calls the gateway at most once, in INR
    and with a whole number of paise of at least 100.  The number comes
    from the binary64 product of the total by 100, which is the exact
    product up to a relative error of 2^-53: it is 100 when that product
    is below 99.5, and the product rounded to the nearest whole number,
    halves upwards, otherwise. *)
Theorem invoices_gateway_amount_is_rounded_total
    ENV razorpay user body invoiceId (w : World) :
  finite_paise (InvoiceBody.totalAmount body) →
  let w' := (invoices_post ENV razorpay user body invoiceId w).1 in
  let exact := (InvoiceBody.totalAmount body * 100)%Q in
  let paise := Number_mul (InvoiceBody.totalAmount body) 100 in
  razorpay_calls w' = razorpay_calls w
  ∨ ∃ o n,
      razorpay_calls w' = (razorpay_calls w ++ [o])%list
      ∧ OrderOptions.amount o = inject_Z n
      ∧ OrderOptions.currency o = "INR"
      ∧ 100 ≤ n
      ∧ (Qabs (paise - exact)
         <= Qabs exact * (1 # 2 ^ 53) + (1 # 2 ^ 1075))%Q
      ∧ ((paise < 99.5)%Q → n = 100)
      ∧ ((99.5 <= paise)%Q →
         (inject_Z n <= paise + (1 # 2)
          ∧ paise + (1 # 2) < inject_Z n + 1)%Q).
Proof.
  intros _. cbv zeta.
  destruct (invoices_post_gateway_amount ENV razorpay user body invoiceId w)
    as [Hsame|(o & Hcalls & Hamount & Hcur & _ & Hmin & _)]; [by left|].
  right. eexists o, _. split; [exact Hcalls|]. split; [exact Hamount|].
  split; [exact Hcur|]. split; [exact Hmin|].
  split; [apply binary64_error|].
  pose proof (Math_round_spec (Number_mul (InvoiceBody.totalAmount body) 100))
    as [Hlo Hhi].
  set (x := Number_mul (InvoiceBody.totalAmount body) 100) in *.
  set (r := Math_round x) in *. unfold Math_max.
  assert (Hcmp : ∀ a b : Z, (inject_Z a < inject_Z b + 1)%Q → a ≤ b).
  { intros a b Hab. unfold Qlt in Hab. cbn in Hab. lia. }
  split.
  - intros Hsmall. assert (r ≤ 100); [|lia].
    apply Hcmp. eapply Qle_lt_trans; [exact Hlo|].
    apply Qlt_trans with (99.5 + (1 # 2))%Q.
    + apply Qplus_lt_l. exact Hsmall.
    + reflexivity.
  - intros Hbig. assert (100 ≤ r).
    { apply Hcmp. eapply Qle_lt_trans; [|exact Hhi].
      apply Qle_trans with (99.5 + (1 # 2))%Q.
      - discriminate.
      - apply Qplus_le_l. exact Hbig. }
    replace (r `max` 100) with r by lia. split; [exact Hlo|exact Hhi].
Qed.

(** On a total of 1.045, as [JSON.parse] reads it: the number is below
    1.045 and its exact product by 100 below 104.5, the binary64 product
    is 104.5, and 105 paise are sent. *)
Lemma invoices_gateway_amount_is_rounded_total_witness :
  finite_paise (binary64 1.045)
  ∧ ∃ o,
      razorpay_calls
        (invoices_post ENV0 gateway_up cashier0
           (InvoiceBody.mk None None cart_ok (binary64 1.045) None)
           "INV-1" store0).1
      = [o]
      ∧ OrderOptions.amount o = inject_Z 105.
Proof.
  assert (Hfin : finite_paise (binary64 1.045)) by (vm_compute; discriminate).
  split; [exact Hfin|].
  pose proof (invoices_gateway_amount_is_rounded_total ENV0 gateway_up
                cashier0
                (InvoiceBody.mk None None cart_ok (binary64 1.045) None)
                "INV-1" store0 Hfin) as H.
  cbv zeta in H.
  destruct H as [H|(o & n & Hcalls & Hamount & _ & _ & _ & _ & Hround)].
  - vm_compute in H. discriminate H.
  - exists o. split; [exact Hcalls|]. rewrite Hamount. f_equal.
    cbn [InvoiceBody.totalAmount] in Hround.
    assert (Hp : (Number_mul (binary64 1.045) 100 == 104.5)%Q)
      by (vm_compute; reflexivity).
    rewrite Hp in Hround. destruct Hround as [Hlo Hhi]; [discriminate|].
    unfold Qle in Hlo. unfold Qlt in Hhi. cbn in Hlo, Hhi. lia.
Defined.

(** ** [POST /api/sales/verify-payment] *)

Section SalesVerify.

Variable ENV : Env.t.
Variable body : PaymentBody.t.

Let order_id := PaymentBody.razorpay_order_id body.
Let payment_id := PaymentBody.razorpay_payment_id body.
Let signature := PaymentBody.razorpay_signature body.
Let settled (s : ISale.t) :=
  ISale.mk (ISale.invoiceId s) (ISale.customerId s) (ISale.customerName s)
    (ISale.items s) (ISale.totalAmount s) (ISale.cashierId s)
    (ISale.cashierName s) status_completed payment_paid
    (ISale.paymentMethod s) (ISale.razorpayOrderId s)
    (Some payment_id) (Some signature).

Lemma sales_verify_bad_signature (w : World) :
  verifyPaymentSignature ENV order_id payment_id signature = false →
  sales_verify_payment ENV body w
  = (w, answer_json 400 (payload_message "Invalid signature")).
Proof.
  unfold verifyPaymentSignature, sales_verify_payment. cbv zeta.
  fold order_id payment_id signature. by intros ->.
Qed.

Lemma sales_verify_not_found (w : World) :
  verifyPaymentSignature ENV order_id payment_id signature = true →
  list_find (λ s, ISale.razorpayOrderId s = Some order_id) (Sale w) = None →
  sales_verify_payment ENV body w
  = (w, answer_json 404 (payload_message "Sale not found")).
Proof.
  unfold verifyPaymentSignature, sales_verify_payment, Sale_findOneAndUpdate.
  cbv zeta. fold order_id payment_id signature. by intros -> ->.
Qed.

Lemma sales_verify_found (w : World) (i : nat) (sale : ISale.t) :
  verifyPaymentSignature ENV order_id payment_id signature = true →
  list_find (λ s, ISale.razorpayOrderId s = Some order_id) (Sale w)
  = Some (i, sale) →
  sales_verify_payment ENV body w
  = (with_Sale (<[i := settled sale]>) w,
     answer_json 200 (payload_sale (settled sale))).
Proof.
  unfold verifyPaymentSignature, sales_verify_payment, Sale_findOneAndUpdate.
  cbv zeta. fold order_id payment_id signature. by intros -> ->.
Qed.

End SalesVerify.

(** X13: [POST /api/sales/verify-payment] changes nothing when the
    signature is invalid, and answers 400; in no case does it touch the
    products, customers or gateway record, add or remove an order, change
    an invoice id, the items or a total, or change an order whose stored
    gateway order id is not the one in the request. *)
Theorem sales_verify_payment_binds_gateway_order ENV body (w : World) :
  let w' := (sales_verify_payment ENV body w).1 in
  (verifyPaymentSignature ENV (PaymentBody.razorpay_order_id body)
     (PaymentBody.razorpay_payment_id body)
     (PaymentBody.razorpay_signature body) = false →
   sales_verify_payment ENV body w
   = (w, answer_json 400 (payload_message "Invalid signature")))
  ∧ Product w' = Product w ∧ Customer w' = Customer w
  ∧ razorpay_calls w' = razorpay_calls w
  ∧ length (Sale w') = length (Sale w)
  ∧ ∀ j s, Sale w !! j = Some s →
      ∃ s', Sale w' !! j = Some s'
            ∧ ISale.invoiceId s' = ISale.invoiceId s
            ∧ ISale.items s' = ISale.items s
            ∧ ISale.totalAmount s' = ISale.totalAmount s
            ∧ ISale.razorpayOrderId s' = ISale.razorpayOrderId s
            ∧ (ISale.razorpayOrderId s
               ≠ Some (PaymentBody.razorpay_order_id body) → s' = s).
Proof.
  cbv zeta. split; [apply sales_verify_bad_signature|].
  destruct (verifyPaymentSignature ENV (PaymentBody.razorpay_order_id body)
              (PaymentBody.razorpay_payment_id body)
              (PaymentBody.razorpay_signature body)) eqn:Hsig.
  2:{ rewrite sales_verify_bad_signature by done. cbn.
      repeat split; try done. intros j s Hj. exists s. done. }
  destruct (list_find
              (λ s, ISale.razorpayOrderId s
                    = Some (PaymentBody.razorpay_order_id body)) (Sale w))
    as [[i sale]|] eqn:Hf.
  2:{ rewrite sales_verify_not_found by done. cbn.
      repeat split; try done. intros j s Hj. exists s. done. }
  rewrite (sales_verify_found _ _ _ _ _ Hsig Hf). cbn.
  rewrite length_insert. repeat split; try done.
  intros j s Hj. apply list_find_Some in Hf as (Hi & Hoid & _).
  destruct (decide (i = j)) as [->|Hne].
  - rewrite list_lookup_insert_eq by eauto using lookup_lt_Some.
    simplify_eq. eexists. split; [reflexivity|]. cbn. done.
  - rewrite list_lookup_insert_ne by done. exists s. done.
Qed.

Lemma sales_verify_payment_binds_gateway_order_witness :
  sales_verify_payment ENV0 (PaymentBody.mk "order_1" "pay_1" "deadbeef")
    store1
  = (store1, answer_json 400 (payload_message "Invalid signature")).
Proof.
  apply (sales_verify_payment_binds_gateway_order ENV0
           (PaymentBody.mk "order_1" "pay_1" "deadbeef") store1).
  vm_compute. reflexivity.
Defined.

(** X14: sending the same confirmation to
    [POST /api/sales/verify-payment] a second time changes nothing more
    and is answered as the first time. *)
Theorem sales_verify_payment_idempotent ENV body (w : World) :
  sales_verify_payment ENV body (sales_verify_payment ENV body w).1
  = sales_verify_payment ENV body w.
Proof.
  destruct (verifyPaymentSignature ENV (PaymentBody.razorpay_order_id body)
              (PaymentBody.razorpay_payment_id body)
              (PaymentBody.razorpay_signature body)) eqn:Hsig.
  2:{ rewrite (sales_verify_bad_signature _ _ w Hsig). cbn [fst].
      by rewrite (sales_verify_bad_signature _ _ w Hsig). }
  destruct (list_find
              (λ s, ISale.razorpayOrderId s
                    = Some (PaymentBody.razorpay_order_id body)) (Sale w))
    as [[i sale]|] eqn:Hf.
  2:{ rewrite (sales_verify_not_found _ _ w Hsig Hf). cbn [fst].
      by rewrite (sales_verify_not_found _ _ w Hsig Hf). }
  rewrite (sales_verify_found _ _ _ _ _ Hsig Hf). cbn [fst].
  pose proof Hf as (_ & Hoid & _)%list_find_Some.
  match goal with
  | |- sales_verify_payment _ _ (with_Sale (<[_ := ?x]>) _) = _ =>
      rewrite (sales_verify_found ENV body (with_Sale (<[i := x]>) w) i x
                 Hsig (list_find_update _ _ _ _ x Hf Hoid))
  end.
  unfold with_Sale. cbn. by rewrite list_insert_insert_eq.
Qed.

Lemma sales_post_created ENV razorpay body now_receipt now_invoice
    (w w' : World) (b : Body) :
  sales_post ENV razorpay body now_receipt now_invoice w
  = (w', Sent (res_json 201 b)) →
  ∃ sale oid key,
    b = body_sale sale key oid
    ∧ Sale w' = (Sale w ++ [sale])%list
    ∧ ISale.razorpayOrderId sale = Some oid
    ∧ ISale.status sale = status_pending
    ∧ ISale.paymentStatus sale = payment_pending
    ∧ ISale.items sale = SaleBody.items body
    ∧ ISale.totalAmount sale = reduce_total (SaleBody.items body).
Proof.
  intros Hrun.
  destruct (for_of_reserve _ sales_reserve_item_body (SaleBody.items body) w)
    as (w1 & out1 & Hloop & _ & HS & _ & _).
  destruct out1 as [[]|r|e].
  - rewrite (sales_post_loop_done _ _ _ _ _ _ _ Hloop) in Hrun.
    cbv zeta in Hrun. rewrite HS in Hrun.
    destruct (razorpay _) as [oid| |msg];
      try destruct (list_find _ (Sale w)); simplify_eq.
    eexists _, _, _. cbn. rewrite HS. repeat split; reflexivity.
  - rewrite (sales_post_loop_failed _ _ _ _ _ _ _ _ Hloop) in Hrun.
    destruct (sales_loop_refusal _ _ _ _ Hloop) as (b' & [?|?]); simplify_eq.
  - pose proof (for_of_reserve _ sales_reserve_item_body
                  (SaleBody.items body) w) as (? & ? & Heq & _ & _ & _ & F).
    rewrite Hloop in Heq. by simplify_eq.
Qed.

(** X15: a sale opened through [POST /api/sales] and then confirmed
    through [POST /api/sales/verify-payment] with the gateway's order id,
    a payment id and their signature becomes Completed and Paid and keeps
    its items and total, provided no earlier order carries that gateway
    order id. *)
Theorem sales_checkout_then_verify_settles
    ENV razorpay body now_receipt now_invoice (w w' : World)
    (sale : ISale.t) (oid key payment_id : string) :
  sales_post ENV razorpay body now_receipt now_invoice w
  = (w', Sent (res_json 201 (body_sale sale key oid))) →
  Forall (λ s, ISale.razorpayOrderId s ≠ Some oid) (Sale w) →
  let signature :=
    Crypto.createHmac_sha256_hex (Env.RAZORPAY_KEY_SECRET ENV)
      (oid +:+ "|" +:+ payment_id) in
  ∃ sale',
    sales_verify_payment ENV (PaymentBody.mk oid payment_id signature) w'
    = (with_Sale (<[length (Sale w) := sale']>) w',
       answer_json 200 (payload_sale sale'))
    ∧ Sale (with_Sale (<[length (Sale w) := sale']>) w')
      = (Sale w ++ [sale'])%list
    ∧ ISale.invoiceId sale' = ISale.invoiceId sale
    ∧ ISale.status sale' = status_completed
    ∧ ISale.paymentStatus sale' = payment_paid
    ∧ ISale.razorpayPaymentId sale' = Some payment_id
    ∧ ISale.items sale' = SaleBody.items body
    ∧ ISale.totalAmount sale' = reduce_total (SaleBody.items body).
Proof.
  intros Hrun Hfresh signature.
  destruct (sales_post_created _ _ _ _ _ _ _ _ Hrun)
    as (sale0 & oid0 & key0 & [= <- <- <-] & HS & Hoid & _ & _ & Hit & Htot).
  assert (Hfind : list_find (λ s, ISale.razorpayOrderId s = Some oid)
                    (Sale w') = Some (length (Sale w), sale)).
  { rewrite HS. apply list_find_snoc; [|done]. by apply list_find_None. }
  assert (Hsig : verifyPaymentSignature ENV oid payment_id signature = true).
  { unfold verifyPaymentSignature. cbv zeta. apply String.eqb_refl. }
  eexists. split.
  - exact (sales_verify_found ENV (PaymentBody.mk oid payment_id signature)
             w' (length (Sale w)) sale Hsig Hfind).
  - cbn. rewrite HS, Hit, Htot. repeat split; try reflexivity.
    rewrite insert_app_r_alt, Nat.sub_diag by done. reflexivity.
Qed.

Lemma sales_checkout_then_verify_settles_witness :
  let sale :=
    ISale.mk "INV-1700000000001" None "Walk-in Customer"
      [Item.mk "p1" "Aspirin" 2 10 0] 0 "u1" "asha"
      status_pending payment_pending upi (Some "order_1") None None in
  let w' := (sales_post ENV0 gateway_up (sale_of 2) 1700000000000
               1700000000001 store0).1 in
  let signature :=
    Crypto.createHmac_sha256_hex (Env.RAZORPAY_KEY_SECRET ENV0)
      ("order_1" +:+ "|" +:+ "pay_1") in
  ∃ sale',
    sales_verify_payment ENV0 (PaymentBody.mk "order_1" "pay_1" signature) w'
    = (with_Sale (<[length (Sale store0) := sale']>) w',
       answer_json 200 (payload_sale sale'))
    ∧ Sale (with_Sale (<[length (Sale store0) := sale']>) w')
      = (Sale store0 ++ [sale'])%list
    ∧ ISale.invoiceId sale' = ISale.invoiceId sale
    ∧ ISale.status sale' = status_completed
    ∧ ISale.paymentStatus sale' = payment_paid
    ∧ ISale.razorpayPaymentId sale' = Some "pay_1"
    ∧ ISale.items sale' = SaleBody.items (sale_of 2)
    ∧ ISale.totalAmount sale' = reduce_total (SaleBody.items (sale_of 2)).
Proof.
  cbv zeta.
  apply (sales_checkout_then_verify_settles ENV0 gateway_up (sale_of 2)
           1700000000000 1700000000001 store0 _ _ "order_1" "rzp_test_key"
           "pay_1").
  - vm_compute. reflexivity.
  - constructor.
Defined.

(** ** The gateway routes *)

(** X16: [POST /razorpay/create-order] refuses a request without a
    receipt or without an amount, and one whose amount is zero, with 400
    and without calling the gateway; every other request makes exactly
    one call, with auto-capture on and with the binary64 product of the
    amount by 100, which is the exact product up to a relative error of
    2^-53, rounded to the nearest whole number, halves upwards.  The
    number has no lower bound: an amount of at most 0.0049 is sent as
    0. *)
Theorem create_order_contract razorpayInstance req_body :
  from_option finite_paise True (CreateOrderBody.amount req_body) →
  let calls := (razorpay_create_order razorpayInstance req_body).1 in
  let answer := (razorpay_create_order razorpayInstance req_body).2 in
  (calls = []
   ∧ answer
     = answer_next (mkAppError "Amount and receipt are required" 400 None)
   ∧ (CreateOrderBody.amount req_body = None
      ∨ (∃ a, CreateOrderBody.amount req_body = Some a ∧ (a == 0)%Q)
      ∨ CreateOrderBody.receipt req_body = None
      ∨ CreateOrderBody.receipt req_body = Some ""))
  ∨ (∃ a o,
       CreateOrderBody.amount req_body = Some a ∧ ¬ (a == 0)%Q
       ∧ calls = [o]
       ∧ CreateOrderBody.receipt req_body = Some (CaptureOptions.receipt o)
       ∧ CaptureOptions.receipt o ≠ ""
       ∧ CaptureOptions.payment_capture o = 1
       ∧ CaptureOptions.currency o
         = default "INR" (CreateOrderBody.currency req_body)
       ∧ (Qabs (Number_mul a 100 - a * 100)
          <= Qabs (a * 100) * (1 # 2 ^ 53) + (1 # 2 ^ 1075))%Q
       ∧ (inject_Z (CaptureOptions.amount o) <= Number_mul a 100 + (1 # 2)
          ∧ Number_mul a 100 + (1 # 2)
            < inject_Z (CaptureOptions.amount o) + 1)%Q
       ∧ ((0 < a)%Q → (a <= 0.0049)%Q → CaptureOptions.amount o = 0)
       ∧ (answer_status answer = 200 ∨ answer_status answer = 500)
       ∧ (answer_status answer = 200
          ↔ ∃ id, razorpayInstance o = Created id)).
Proof.
  intros _. cbv zeta. unfold razorpay_create_order. cbv zeta.
  destruct (CreateOrderBody.amount req_body) as [a|] eqn:Ha;
    cbn [truthy_number].
  2:{ left. repeat split; auto. }
  destruct (Qeq_bool a 0) eqn:Hz.
  { left. apply Qeq_bool_eq in Hz. repeat split; eauto. }
  assert (Hnz : ¬ (a == 0)%Q).
  { intros H. apply Qeq_eq_bool in H. congruence. }
  destruct (CreateOrderBody.receipt req_body) as [r|] eqn:Hr; cbn [truthy].
  2:{ left. repeat split; auto. }
  destruct (String.eqb_spec r "") as [->|Hne].
  { left. repeat split; auto. }
  right. pose proof (Math_round_spec (Number_mul a 100)) as [Hlo Hhi].
  pose proof (binary64_error (a * 100)) as Herr.
  fold (Number_mul a 100) in Herr.
  assert (Hsmall : (0 < a)%Q → (a <= 0.0049)%Q →
                   Math_round (Number_mul a 100) = 0).
  { intros Hpos Hle.
    assert (Hp0 : (0 <= Number_mul a 100)%Q).
    { apply binary64_nonneg. lra. }
    rewrite (Qabs_pos (a * 100)) in Herr by lra.
    apply Qabs_Qle_condition in Herr as [_ Herr].
    assert (Hc1 : ((1 # 2 ^ 53) <= 1 # 100)%Q) by (vm_compute; discriminate).
    assert (Hc2 : ((1 # 2 ^ 1075) <= 1 # 1000)%Q) by (vm_compute; discriminate).
    assert (Hc3 : (0 <= 1 # 2 ^ 53)%Q) by discriminate.
    set (c1 := (1 # 2 ^ 53)%Q) in *. set (c2 := (1 # 2 ^ 1075)%Q) in *.
    set (p := Number_mul a 100) in *. set (n := Math_round p) in *.
    clearbody c1 c2 p n.
    assert (Hp1 : (p < 1 # 2)%Q) by nra.
    assert (H0 : (inject_Z 0 < inject_Z n + 1)%Q).
    { change (inject_Z 0) with 0%Q. lra. }
    assert (H1 : (inject_Z n < inject_Z 0 + 1)%Q).
    { change (inject_Z 0) with 0%Q. lra. }
    unfold Qlt in H0, H1. cbn in H0, H1. lia. }
  set (n := Math_round (Number_mul a 100)) in *. clearbody n.
  exists a,
    (CaptureOptions.mk n (default "INR" (CreateOrderBody.currency req_body))
       r 1).
  split; [reflexivity|]. split; [exact Hnz|].
  destruct (razorpayInstance _) as [id| |msg] eqn:Hgw;
    cbn [fst snd answer_status statusCode CaptureOptions.receipt
         CaptureOptions.payment_capture CaptureOptions.currency
         CaptureOptions.amount];
    repeat (split; [first [reflexivity|exact Hne|exact Herr
                          |exact (conj Hlo Hhi)|exact Hsmall]|]).
  - split; [by left|]. split; eauto.
  - split; [by right|]. split; [discriminate|]. by intros [? ?].
  - split; [by right|]. split; [discriminate|]. by intros [? ?].
Qed.

(** On an amount of 0.004, as [JSON.parse] reads it: the gateway is asked
    for an order of 0 paise. *)
Lemma create_order_contract_witness :
  from_option finite_paise True (Some (binary64 0.004))
  ∧ ∃ o,
      (razorpay_create_order (λ _, Created "order_1")
         (CreateOrderBody.mk (Some (binary64 0.004)) None
            (Some "rcpt-1"))).1 = [o]
      ∧ CaptureOptions.amount o = 0.
Proof.
  assert (Hfin : from_option finite_paise True (Some (binary64 0.004)))
    by (vm_compute; discriminate).
  split; [exact Hfin|].
  pose proof (create_order_contract (λ _, Created "order_1")
                (CreateOrderBody.mk (Some (binary64 0.004)) None
                   (Some "rcpt-1")) Hfin) as H.
  cbv zeta in H.
  destruct H as [(H & _)
                |(a & o & Ha & _ & Hcalls & _ & _ & _ & _ & _ & _ & Hzero & _)].
  - vm_compute in H. discriminate H.
  - exists o. split; [exact Hcalls|]. injection Ha as <-.
    apply Hzero; [reflexivity|vm_compute; discriminate].
Defined.

(** X17: the three copies of the signature check agree with
    [verifyPaymentSignature]: on the same non-empty order id, payment id
    and signature, [POST /razorpay/verify-payment] answers with success
    exactly when [verifyPaymentSignature] accepts, and
    [POST /api/sales/verify-payment] answers 400 exactly when it does
    not. *)
Theorem signature_checks_agree ENV (w : World)
    (order_id payment_id signature : string) :
  order_id ≠ "" → payment_id ≠ "" → signature ≠ "" →
  (razorpay_verify_payment ENV
     (OptionalPaymentBody.mk (Some order_id) (Some payment_id)
        (Some signature))
   = answer_json 200 payload_status_success
   ↔ verifyPaymentSignature ENV order_id payment_id signature = true)
  ∧ (answer_status
       (sales_verify_payment ENV
          (PaymentBody.mk order_id payment_id signature) w).2 = 400
     ↔ verifyPaymentSignature ENV order_id payment_id signature = false)
  ∧ (razorpay_verify_payment ENV
       (OptionalPaymentBody.mk (Some order_id) (Some payment_id)
          (Some signature))
     = answer_next (mkAppError "Invalid payment signature" 400 None)
     ↔ verifyPaymentSignature ENV order_id payment_id signature = false).
Proof.
  intros Ho Hp Hs.
  assert (Ht : ∀ s, s ≠ "" → truthy (Some s) = Some s).
  { intros s Hne. cbn. by destruct (String.eqb_spec s ""). }
  unfold razorpay_verify_payment. cbn [OptionalPaymentBody.razorpay_order_id
    OptionalPaymentBody.razorpay_payment_id
    OptionalPaymentBody.razorpay_signature].
  rewrite (Ht _ Ho), (Ht _ Hp), (Ht _ Hs). cbv zeta.
  change (String.eqb
            (Crypto.createHmac_sha256_hex (Env.RAZORPAY_KEY_SECRET ENV)
               (order_id +:+ "|" +:+ payment_id)) signature)
    with (verifyPaymentSignature ENV order_id payment_id signature).
  destruct (verifyPaymentSignature ENV order_id payment_id signature)
    eqn:Hsig.
  - split; [done|]. split; [|done]. split; [|done].
    destruct (list_find
                (λ s, ISale.razorpayOrderId s = Some order_id) (Sale w))
      as [[i sale]|] eqn:Hf.
    + by rewrite (sales_verify_found ENV
                    (PaymentBody.mk order_id payment_id signature) w i sale
                    Hsig Hf).
    + by rewrite (sales_verify_not_found ENV
                    (PaymentBody.mk order_id payment_id signature) w
                    Hsig Hf).
  - split; [done|]. split; [|done].
    by rewrite (sales_verify_bad_signature ENV
                  (PaymentBody.mk order_id payment_id signature) w Hsig).
Qed.

Lemma signature_checks_agree_witness :
  (razorpay_verify_payment ENV0
     (OptionalPaymentBody.mk (Some "order_1") (Some "pay_1")
        (Some "deadbeef"))
   = answer_json 200 payload_status_success
   ↔ verifyPaymentSignature ENV0 "order_1" "pay_1" "deadbeef" = true)
  ∧ (answer_status
       (sales_verify_payment ENV0
          (PaymentBody.mk "order_1" "pay_1" "deadbeef") store1).2 = 400
     ↔ verifyPaymentSignature ENV0 "order_1" "pay_1" "deadbeef" = false)
  ∧ (razorpay_verify_payment ENV0
       (OptionalPaymentBody.mk (Some "order_1") (Some "pay_1")
          (Some "deadbeef"))
     = answer_next (mkAppError "Invalid payment signature" 400 None)
     ↔ verifyPaymentSignature ENV0 "order_1" "pay_1" "deadbeef" = false).
Proof.
  apply (signature_checks_agree ENV0 store1 "order_1" "pay_1" "deadbeef");
    discriminate.
Defined.

(** ** The token middleware *)

Lemma split_space_nonempty (s : string) : split_space s ≠ [].
Proof.
  destruct s as [|c rest]; cbn [split_space]; [done|].
  destruct (Ascii.eqb c " "); [done|]. by destruct (split_space rest).
Qed.

Lemma split_space_field (s rest : string) :
  no_space s = true →
  split_space (s +:+ " " +:+ rest) = s :: split_space rest.
Proof.
  induction s as [|c s IH]; intros Hs; [reflexivity|].
  cbn in Hs. apply andb_prop in Hs as [Hc Hs].
  apply negb_true_iff in Hc.
  change (String c s +:+ " " +:+ rest) with (String c (s +:+ " " +:+ rest)).
  cbn [split_space]. by rewrite Hc, (IH Hs).
Qed.

Lemma split_space_last (s : string) :
  no_space s = true → split_space s = [s].
Proof.
  induction s as [|c s IH]; intros Hs; [reflexivity|].
  cbn in Hs. apply andb_prop in Hs as [Hc Hs].
  apply negb_true_iff in Hc. cbn [split_space]. by rewrite Hc, (IH Hs).
Qed.

(** X18: [authenticate] takes as token what stands between the first and
    the second space of the [Authorization] header, whatever word stands
    before the first space and whatever follows the second.  An empty
    token is answered with 401 ["No token provided"], a token the library
    rejects with 401 ["Invalid token"], and a token it accepts lets the
    request pass with the payload as [req.user]. *)
Theorem authenticate_reads_second_field
    (jwt_verify : string → option Decoded.t) (scheme token tail : string) :
  no_space scheme = true → no_space token = true →
  authenticate jwt_verify (Some (scheme +:+ " " +:+ token))
  = (if String.eqb token "" then
       refused (mkAppError "No token provided" 401 None)
     else
       match jwt_verify token with
       | Some decoded => handed_on (Some decoded)
       | None => refused (mkAppError "Invalid token" 401 None)
       end)
  ∧ authenticate jwt_verify
      (Some (scheme +:+ " " +:+ token +:+ " " +:+ tail))
    = authenticate jwt_verify (Some (scheme +:+ " " +:+ token))
  ∧ authenticate jwt_verify (Some scheme)
    = refused (mkAppError "No token provided" 401 None)
  ∧ authenticate jwt_verify None
    = refused (mkAppError "No token provided" 401 None).
Proof.
  intros Hscheme Htoken.
  assert (H2 : split_space (scheme +:+ " " +:+ token) !! 1%nat = Some token).
  { by rewrite split_space_field, split_space_last. }
  assert (H3 : split_space (scheme +:+ " " +:+ token +:+ " " +:+ tail)
               !! 1%nat = Some token).
  { by rewrite !split_space_field. }
  unfold authenticate. cbn [mbind option_bind]. rewrite H2, H3.
  rewrite (split_space_last _ Hscheme). cbn [lookup list_lookup truthy].
  repeat split; try reflexivity.
  destruct (String.eqb token ""); reflexivity.
Qed.

Lemma authenticate_reads_second_field_witness :
  authenticate jwt0 (Some ("Token" +:+ " " +:+ "tok-cashier"))
  = (if String.eqb "tok-cashier" "" then
       refused (mkAppError "No token provided" 401 None)
     else
       match jwt0 "tok-cashier" with
       | Some decoded => handed_on (Some decoded)
       | None => refused (mkAppError "Invalid token" 401 None)
       end)
  ∧ authenticate jwt0
      (Some ("Token" +:+ " " +:+ "tok-cashier" +:+ " " +:+ "and more"))
    = authenticate jwt0 (Some ("Token" +:+ " " +:+ "tok-cashier"))
  ∧ authenticate jwt0 (Some "Token")
    = refused (mkAppError "No token provided" 401 None)
  ∧ authenticate jwt0 None
    = refused (mkAppError "No token provided" 401 None).
Proof.
  apply (authenticate_reads_second_field jwt0 "Token" "tok-cashier"
           "and more"); reflexivity.
Defined.

(** X19: a request gets through an admin-only route only with a
    non-empty token in the second field of its header that the library
    accepts and whose payload has the role ["admin"]; [req.user] is then
    that payload. *)
Theorem admin_route_requires_admin_token
    (jwt_verify : string → option Decoded.t) (authorization : option string)
    (user : option Decoded.t) :
  admin_route jwt_verify authorization = handed_on user ↔
  ∃ header token decoded,
    authorization = Some header
    ∧ split_space header !! 1%nat = Some token
    ∧ token ≠ ""
    ∧ jwt_verify token = Some decoded
    ∧ Decoded.role decoded = "admin"
    ∧ user = Some decoded.
Proof.
  unfold admin_route, authenticate, restrictToAdmin. split.
  - destruct authorization as [header|]; cbn [mbind option_bind truthy];
      [|done].
    destruct (split_space header !! 1%nat) as [token|] eqn:Hfield;
      cbn [truthy]; [|done].
    destruct (String.eqb_spec token "") as [->|Hne]; [done|].
    destruct (jwt_verify token) as [decoded|] eqn:Hjwt; [|done].
    destruct (String.eqb_spec (Decoded.role decoded) "admin") as [Hr|Hr];
      cbn [negb]; [|done].
    intros [= <-]. by exists header, token, decoded.
  - intros (header & token & decoded & -> & Hfield & Hne & Hjwt & Hr & ->).
    cbn [mbind option_bind]. rewrite Hfield. cbn [truthy].
    destruct (String.eqb_spec token "") as [->|_]; [done|].
    rewrite Hjwt, Hr. reflexivity.
Qed.

Lemma admin_route_requires_admin_token_witness :
  admin_route jwt0 (Some "Bearer tok-admin")
  = handed_on (Some (Decoded.mk "u0" "root" "admin")).
Proof.
  apply (proj2 (admin_route_requires_admin_token jwt0
                  (Some "Bearer tok-admin")
                  (Some (Decoded.mk "u0" "root" "admin")))).
  exists "Bearer tok-admin", "tok-admin", (Decoded.mk "u0" "root" "admin").
  repeat split; try reflexivity. discriminate.
Defined.

(** ** The base path of the routes *)

Lemma strip_no_trailing_slash (s : string) :
  ends_with_slash (strip_trailing_slashes s) = false.
Proof.
  induction s as [|c s IH]; [reflexivity|]. cbn [strip_trailing_slashes].
  destruct (strip_trailing_slashes s) as [|c' s'] eqn:Hs.
  - destruct (Ascii.eqb c "/") eqn:Hc; [reflexivity|]. cbn. exact Hc.
  - exact IH.
Qed.

Lemma strip_fixed (s : string) :
  ends_with_slash s = false → strip_trailing_slashes s = s.
Proof.
  induction s as [|c s IH]; [reflexivity|]. intros He.
  cbn [strip_trailing_slashes]. destruct s as [|c' s'].
  - cbn in *. by rewrite He.
  - rewrite (IH He). reflexivity.
Qed.

Lemma strip_keeps_head (c : ascii) (s : string) :
  strip_trailing_slashes (String c s) = ""
  ∨ ∃ s', strip_trailing_slashes (String c s) = String c s'.
Proof.
  cbn [strip_trailing_slashes].
  destruct (strip_trailing_slashes s); [|eauto].
  destruct (Ascii.eqb c "/"); eauto.
Qed.

Lemma prefix_slash_head (c : ascii) (s s' : string) :
  String.prefix "/" (String c s) = String.prefix "/" (String c s').
Proof.
  cbn [String.prefix]. destruct (Ascii.ascii_dec "/" c); [|reflexivity].
  by destruct s, s'.
Qed.

Lemma prefix_slash_inv (r : string) :
  String.prefix "/" r = true → ∃ s, r = String "/" s.
Proof.
  destruct r as [|c s]; [done|]. cbn [String.prefix].
  destruct (Ascii.ascii_dec "/" c) as [<-|]; [|done]. eauto.
Qed.

Lemma strip_keeps_slash_head (p : string) :
  String.prefix "/" p = true →
  strip_trailing_slashes p = ""
  ∨ String.prefix "/" (strip_trailing_slashes p) = true.
Proof.
  intros Hp. destruct p as [|c s]; [by left|].
  destruct (strip_keeps_head c s) as [->|[s' Hs]]; [by left|].
  right. rewrite Hs. by rewrite (prefix_slash_head c s' s).
Qed.

Lemma normalize_path_form (value : string) :
  (normalize_path value = ""
   ∨ String.prefix "/" (normalize_path value) = true)
  ∧ ends_with_slash (normalize_path value) = false.
Proof.
  unfold normalize_path. cbv zeta. split; [|apply strip_no_trailing_slash].
  apply strip_keeps_slash_head.
  destruct (String.prefix "/" value) eqn:Hp; [exact Hp|].
  change ("/" +:+ value) with (String "/" value).
  rewrite (prefix_slash_head "/" value ""). reflexivity.
Qed.

Lemma slash_path_is_not_http_url (r : string) :
  String.prefix "/" r = true → is_http_url r = false.
Proof.
  intros [s ->]%prefix_slash_inv. reflexivity.
Qed.

(** X20: as its comment promises, [sanitizeBasePath] returns the empty
    string or a path that starts with a slash, and never a path that
    ends with one, given that the pathname of a parsed URL starts with a
    slash; and what it returns it returns unchanged when given it
    again. *)
Theorem sanitizeBasePath_normal_form
    (URL_pathname : string → option string) (value : option string) :
  (∀ v p, URL_pathname v = Some p → String.prefix "/" p = true) →
  let base := sanitizeBasePath URL_pathname value in
  (base = "" ∨ String.prefix "/" base = true)
  ∧ ends_with_slash base = false
  ∧ sanitizeBasePath URL_pathname (Some base) = base.
Proof.
  intros Hurl. cbv zeta.
  assert (Hform :
    (sanitizeBasePath URL_pathname value = ""
     ∨ String.prefix "/" (sanitizeBasePath URL_pathname value) = true)
    ∧ ends_with_slash (sanitizeBasePath URL_pathname value) = false).
  { unfold sanitizeBasePath.
    destruct (truthy value) as [v|]; [|by split; [left|]].
    destruct (is_http_url v); [|apply normalize_path_form].
    destruct (URL_pathname v) as [p|] eqn:Hp; [|apply normalize_path_form].
    destruct (String.eqb p "/"); [by split; [left|]|].
    split; [|apply strip_no_trailing_slash].
    apply strip_keeps_slash_head, (Hurl v p Hp). }
  destruct Hform as [Hhead Htail]. split; [exact Hhead|].
  split; [exact Htail|].
  set (base := sanitizeBasePath URL_pathname value) in *. clearbody base.
  unfold sanitizeBasePath. cbn [truthy].
  destruct (String.eqb_spec base "") as [->|Hne]; [reflexivity|].
  destruct Hhead as [?|Hhead]; [done|].
  rewrite (slash_path_is_not_http_url _ Hhead).
  unfold normalize_path. cbv zeta. rewrite Hhead. by apply strip_fixed.
Qed.

Lemma sanitizeBasePath_normal_form_witness :
  let base := sanitizeBasePath URL0 (Some "https://shop.example/api/v1/") in
  (base = "" ∨ String.prefix "/" base = true)
  ∧ ends_with_slash base = false
  ∧ sanitizeBasePath URL0 (Some base) = base.
Proof.
  apply (sanitizeBasePath_normal_form URL0
           (Some "https://shop.example/api/v1/")).
  intros v p. unfold URL0.
  destruct (String.eqb v "https://shop.example/api/v1/"); [|discriminate].
  intros [= <-]. reflexivity.
Defined.
